(** * KubotaBackend: the hybrid similarity search, the parts recommender and
      the recommendation pipeline

    A shallow embedding of

      - [src/ai/ticket_processor_adapted.py]
        ([AdaptedTicketProcessor.generate_openai_embedding],
         [find_similar_issues] with its inner [run_query],
         [extract_recommended_parts], [create_ticket],
         [save_recommendations], [process_existing_ticket]),
      - [src/ai/langgraph_agent.py]
        (the seven nodes of [KubotaPartsAIAgent], [_build_workflow],
         [process_issue]),
      - [src/ai/symptoms_generator.py] (the ranking of the suggestions) and
      - [src/services/ai_service.py]
        ([get_ai_recommendations], [_fallback_recommendation]).

    Conventions of the embedding.

      - A Python [str] is a [string]; its characters are read as the code
        points U+0000..U+00FF.
      - A Python [float] is a [pyfloat]: either [NaN] or a finite value
        written as a rational number, which stands for the binary64 number
        nearest to it ([PyFloat.b64]): [Fin (7 # 10)] is the float [0.7].
        Comparisons compare the floats; the divisions, products and sums
        of the part confidence, of the query weights, of the confidence
        evaluator, of the analysis notes and of the number formats round
        as binary64 does.  [sum] adds floats from the left up to CPython
        3.11 and with compensation from 3.12 on; the field
        [compensated_sum] of the world says which.  The infinities and the
        sign of zero are not modelled.  The total of the mock inventory, a
        small multiple of 45.5, is added without rounding, as none occurs.
      - A Python [int] that counts something is a [nat]; the [limit]
        argument, which the caller chooses, is a [Z].
      - A [dict] with a fixed set of keys is a record; a field whose value
        may be [None] (or whose key may be absent) is an [option].  The
        [parts_frequency] dict, whose insertion order decides the result,
        is an association list.
      - The outside world (the database, the remote embedding model, the
        symptom service, the graph library) is an [Env] of oracles; a call
        that may raise returns an [exc]. *)

From Stdlib Require Import List String Ascii Bool Arith ZArith QArith Qabs.
From Stdlib Require Import Lia Lqa Sorted DecimalString.
Import ListNotations.

Close Scope Q_scope.
Local Open Scope string_scope.
Local Open Scope list_scope.
Local Open Scope nat_scope.

(* ================================================================== *)
(** * Python strings *)

Module PyStr.

(** [str.isspace] on one character of U+0000..U+00FF: TAB..CR, FS..US,
    SPACE, NEL and NBSP. *)
Definition is_space (c : ascii) : bool :=
  let n := nat_of_ascii c in
  ((9 <=? n) && (n <=? 13)) || ((28 <=? n) && (n <=? 32))
  || (n =? 133) || (n =? 160).

Fixpoint lstrip (s : string) : string :=
  match s with
  | EmptyString => EmptyString
  | String c s' => if is_space c then lstrip s' else s
  end.

Fixpoint rstrip (s : string) : string :=
  match s with
  | EmptyString => EmptyString
  | String c s' =>
      match rstrip s' with
      | EmptyString => if is_space c then EmptyString else String c EmptyString
      | r => String c r
      end
  end.

(** [str.strip()] *)
Definition strip (s : string) : string := rstrip (lstrip s).

(** [s.split(sep)] for a one-character separator: never the empty list. *)
Fixpoint split (sep : ascii) (s : string) : list string :=
  match s with
  | EmptyString => [EmptyString]
  | String c s' =>
      if Ascii.eqb c sep then EmptyString :: split sep s'
      else match split sep s' with
           | [] => [String c EmptyString]
           | w :: ws => String c w :: ws
           end
  end.

(** [str.lower] on one character of U+0000..U+00FF. *)
Definition lower_char (c : ascii) : ascii :=
  let n := nat_of_ascii c in
  if ((65 <=? n) && (n <=? 90))
     || ((192 <=? n) && (n <=? 222) && negb (n =? 215))
  then ascii_of_nat (n + 32) else c.

Fixpoint lower (s : string) : string :=
  match s with
  | EmptyString => EmptyString
  | String c s' => String (lower_char c) (lower s')
  end.

(** Truth value of a string: non-empty. *)
Definition truthy (s : string) : bool :=
  match s with EmptyString => false | _ => true end.

(** [str(n)] for a non-negative [int]. *)
Definition of_nat (n : nat) : string :=
  NilEmpty.string_of_uint (Nat.to_uint n).

(** [s.startswith(p)] *)
Definition startswith (p s : string) : bool := String.prefix p s.

End PyStr.

(* ================================================================== *)
(** * Python floats *)

Inductive pyfloat : Type :=
| NaN
| Fin (q : Q).

Module PyFloat.

Definition lift2 (f : Q -> Q -> Q) (x y : pyfloat) : pyfloat :=
  match x, y with
  | Fin a, Fin b => Fin (f a b)
  | _, _ => NaN
  end.

(** [x + y] without rounding. *)
Definition add : pyfloat -> pyfloat -> pyfloat := lift2 Qplus.

(** The integer nearest to [q], a tie going to the even neighbour. *)
Definition round_half_even (q : Q) : Z :=
  let n := Qnum q in
  let d := Zpos (Qden q) in
  let f := (n / d)%Z in
  let r := (n mod d)%Z in
  if (2 * r <? d)%Z then f
  else if (d <? 2 * r)%Z then (f + 1)%Z
  else if Z.even f then f else (f + 1)%Z.

(** [q * 2^k] *)
Definition shift (q : Q) (k : Z) : Q :=
  if (0 <=? k)%Z then (q * inject_Z (2 ^ k))%Q
  else (q / inject_Z (2 ^ (- k)))%Q.

(** [floor(log2 q)] for a positive [q]. *)
Definition exponent (q : Q) : Z :=
  let e := (Z.log2 (Qnum q) - Z.log2 (Zpos (Qden q)))%Z in
  if Qle_bool (shift 1 e) q then e else (e - 1)%Z.

(** The binary64 number nearest to [q], a tie going to the even
    significand: 53 significant bits, and no bit below 2^-1074. *)
Definition b64 (q : Q) : Q :=
  if Qeq_bool q 0 then 0%Q
  else
    let a := Qabs q in
    let ulp := Z.max (exponent a - 52) (-1074) in
    let m := round_half_even (shift a (- ulp)) in
    let r := Qred (shift (inject_Z m) ulp) in
    if Qle_bool 0 q then r else Qopp r.

(** The float a value stands for. *)
Definition double (x : pyfloat) : pyfloat :=
  match x with
  | Fin q => Fin (b64 q)
  | NaN => NaN
  end.

(** A binary64 operation: the exact result on the two floats, rounded. *)
Definition lift64 (f : Q -> Q -> Q) (x y : pyfloat) : pyfloat :=
  match x, y with
  | Fin a, Fin b => Fin (b64 (f (b64 a) (b64 b)))
  | _, _ => NaN
  end.

(** [x + y], [x - y] and [x * y] on floats. *)
Definition add64 : pyfloat -> pyfloat -> pyfloat := lift64 Qplus.
Definition sub64 : pyfloat -> pyfloat -> pyfloat := lift64 Qminus.
Definition mul64 : pyfloat -> pyfloat -> pyfloat := lift64 Qmult.

(** [x / n] for a float [x] and a non-zero [int] [n] (that is [len] of a
    non-empty list where the evaluator divides). *)
Definition div64_nat (x : pyfloat) (n : nat) : pyfloat :=
  match x with
  | Fin a => Fin (b64 (b64 a / inject_Z (Z.of_nat n)))
  | NaN => NaN
  end.

(** [a / b] on two [int]s, [b] non-zero: the float nearest to the
    quotient. *)
Definition truediv (a b : nat) : pyfloat :=
  Fin (b64 (inject_Z (Z.of_nat a) / inject_Z (Z.of_nat b))).

(** [x > y] and [x >= y] on the floats [x] and [y] stand for: false as
    soon as one side is [NaN]. *)
Definition gt (x y : pyfloat) : bool :=
  match x, y with
  | Fin a, Fin b => negb (Qle_bool (b64 a) (b64 b))
  | _, _ => false
  end.

Definition ge (x y : pyfloat) : bool :=
  match x, y with
  | Fin a, Fin b => Qle_bool (b64 b) (b64 a)
  | _, _ => false
  end.

(** [round(x, 3)]: the value of the float [x] rounded to three decimals,
    written as the decimal it is. *)
Definition round3 (x : pyfloat) : pyfloat :=
  match x with
  | Fin q => Fin (Qred (round_half_even (b64 q * 1000) # 1000))
  | NaN => NaN
  end.

(** The numbers of a list of floats, or [None] when one is [NaN]. *)
Fixpoint numbers (xs : list pyfloat) : option (list Q) :=
  match xs with
  | [] => Some []
  | NaN :: _ => None
  | Fin q :: xs' =>
      match numbers xs' with
      | Some qs => Some (b64 q :: qs)
      | None => None
      end
  end.

(** [sum(xs)] as CPython adds floats up to version 3.11: from the left,
    every addition rounded. *)
Definition sum_left (qs : list Q) : Q :=
  fold_left (fun acc x => b64 (acc + x)) qs 0%Q.

(** The loop of [sum(xs)] from CPython 3.12 on (Neumaier's compensated
    summation): [hi] is the running sum and [lo] the running
    compensation. *)
Fixpoint compensate (hi lo : Q) (qs : list Q) : Q * Q :=
  match qs with
  | [] => (hi, lo)
  | x :: qs' =>
      let t := b64 (hi + x) in
      let err :=
        if Qle_bool (Qabs x) (Qabs hi)
        then b64 (b64 (hi - t) + x)
        else b64 (b64 (x - t) + hi) in
      compensate t (b64 (lo + err)) qs'
  end.

(** [sum(xs)] from CPython 3.12 on: the first float is added to the
    [int] [0], the others with compensation, which is added at the end
    when it is not zero. *)
Definition sum_compensated (qs : list Q) : Q :=
  match qs with
  | [] => 0%Q
  | x :: qs' =>
      let '(hi, lo) := compensate x 0%Q qs' in
      if Qeq_bool lo 0 then hi else b64 (hi + lo)
  end.

(** [sum(xs)] on floats; [compensated] tells which of the two the
    interpreter does. *)
Definition fsum (compensated : bool) (xs : list pyfloat) : pyfloat :=
  match numbers xs with
  | Some qs => Fin (if compensated then sum_compensated qs else sum_left qs)
  | None => NaN
  end.

(** [sum(xs) / len(xs)] when [xs] is non-empty, else [0.0]. *)
Definition mean64 (compensated : bool) (xs : list pyfloat) : pyfloat :=
  match xs with
  | [] => Fin 0
  | _ => div64_nat (fsum compensated xs) (List.length xs)
  end.

(** The numeric order on the floats two finite values stand for;
    nothing is related to [NaN]. *)
Definition le (x y : pyfloat) : Prop :=
  match x, y with
  | Fin a, Fin b => (b64 a <= b64 b)%Q
  | _, _ => False
  end.

Definition lt (x y : pyfloat) : Prop :=
  match x, y with
  | Fin a, Fin b => (b64 a < b64 b)%Q
  | _, _ => False
  end.

(** Equality of the floats. *)
Definition feq (x y : pyfloat) : Prop :=
  match x, y with
  | Fin a, Fin b => (b64 a == b64 b)%Q
  | NaN, NaN => True
  | _, _ => False
  end.

End PyFloat.

(* ================================================================== *)
(** * Rows of the similarity store *)

(** One row of the [SELECT] in [run_query], as [dict(row)].  Every column
    of the select list is present in every row, so the defaults of
    [case.get('partname', '')] and [r.get("similarity_score", 0.0)] only
    matter for [None]; the text columns are nullable.  [similarity_score]
    is the computed [double precision] expression. *)
Record Case : Type := mkCase {
  claimid : option string;
  seriesname : option string;
  subseries : option string;
  subassembly : option string;
  symptomcomments : option string;
  defectcomments : option string;
  symptomcomments_clean : option string;
  defectcomments_clean : option string;
  partname : option string;
  partquantity : option string;
  similarity_score : pyfloat
}.

(* ================================================================== *)
(** * [extract_recommended_parts] *)

(** The [parts_frequency] dict: keys in insertion order, no key twice. *)
Definition PartsFrequency : Type := list (string * nat).

(** [d.get(k, 0)] *)
Fixpoint dict_get (d : PartsFrequency) (k : string) : nat :=
  match d with
  | [] => 0
  | (k', v) :: d' => if String.eqb k' k then v else dict_get d' k
  end.

(** [d[k] = v]: an existing key keeps its place, a new key goes last. *)
Fixpoint dict_set (d : PartsFrequency) (k : string) (v : nat)
  : PartsFrequency :=
  match d with
  | [] => [(k, v)]
  | (k', v') :: d' =>
      if String.eqb k' k then (k', v) :: d' else (k', v') :: dict_set d' k v
  end.

(** [parts_frequency[part] = parts_frequency.get(part, 0) + 1] *)
Definition count_part (d : PartsFrequency) (part : string) : PartsFrequency :=
  dict_set d part (dict_get d part + 1).

(** [if part and part.lower() != 'nan'] *)
Definition keep_part (part : string) : bool :=
  PyStr.truthy part && negb (String.eqb (PyStr.lower part) "nan").

(** The part tokens one case contributes, in the order the inner loop sees
    them: nothing when [partname] is [None] or empty. *)
Definition case_tokens (c : Case) : list string :=
  match partname c with
  | None => []
  | Some part_str =>
      if PyStr.truthy part_str
      then filter keep_part (map PyStr.strip (PyStr.split "," part_str))
      else []
  end.

(** The two nested [for] loops. *)
Definition parts_frequency (similar_cases : list Case) : PartsFrequency :=
  fold_left (fun d c => fold_left count_part (case_tokens c) d)
            similar_cases [].

(** [sorted(items, key=lambda x: x[1], reverse=True)]: the stable sort by
    decreasing count.  [insert_desc x l] puts [x] in front of the first entry
    whose count is not larger than its own. *)
Fixpoint insert_desc (x : string * nat) (l : list (string * nat))
  : list (string * nat) :=
  match l with
  | [] => [x]
  | y :: l' => if snd x <? snd y then y :: insert_desc x l' else x :: l
  end.

Fixpoint sorted_desc (l : list (string * nat)) : list (string * nat) :=
  match l with
  | [] => []
  | x :: l' => insert_desc x (sorted_desc l')
  end.

Record PartRecommendation : Type := mkRec {
  part_number : string;
  frequency : nat;
  confidence : pyfloat;
  recommended_from : string
}.

(** [round(frequency / total_cases if total_cases else 0, 3)] *)
Definition confidence_of (frequency total_cases : nat) : pyfloat :=
  PyFloat.round3
    (if total_cases =? 0 then Fin 0
     else PyFloat.truediv frequency total_cases).

Definition recommendation (total_cases : nat) (item : string * nat)
  : PartRecommendation :=
  let '(part, frequency) := item in
  {| part_number := part;
     frequency := frequency;
     confidence := confidence_of frequency total_cases;
     recommended_from :=
       PyStr.of_nat frequency ++ "/" ++ PyStr.of_nat total_cases
       ++ " similar cases" |}.

Definition extract_recommended_parts (similar_cases : list Case)
  : list PartRecommendation :=
  let total_cases := List.length similar_cases in
  firstn 10 (map (recommendation total_cases)
                 (sorted_desc (parts_frequency similar_cases))).

(** A case that only carries a parts field and a score. *)
Definition case_with (parts : option string) (score : Q) : Case :=
  mkCase None None None None None None None None parts None (Fin score).

Definition scenario_cases : list Case :=
  [ case_with (Some "7J065-85200, 9L200-54321") (9 # 10);
    case_with (Some "7J065-85200, 9L200-54321") (8 # 10);
    case_with (Some "9L200-54321") (7 # 10) ].

(* ================================================================== *)
(** * The outside world, exceptions and the trace of outside calls *)

(** The outcome of a call that may raise: a value, or the text of the
    exception ([str(e)]). *)
Inductive exc (A : Type) : Type :=
| Ok (a : A)
| Raise (msg : string).
Arguments Ok {A} a.
Arguments Raise {A} msg.

(** What one [cursor.execute(query, params)] of [run_query] sends: the
    parameters [alpha_value], [query_embedding], [1 - alpha_value],
    [query_embedding], the [issue_type] of the two [ILIKE] patterns when the
    type clause is appended, and the [LIMIT]; of the query text, the
    [ORDER BY] clause. *)
Record Query : Type := mkQuery {
  q_symptom_weight : pyfloat;
  q_symptom_vector : list pyfloat;
  q_defect_weight : pyfloat;
  q_defect_vector : list pyfloat;
  q_type_filter : option string;
  q_order_by : string;
  q_pool : nat
}.

(** A suggestion of [SymptomSuggestionService]: the two keys the symptom
    analyzer reads, each possibly missing. *)
Record Symptom : Type := mkSymptom {
  technical_symptom : option string;
  symptom : option string
}.

Record Env : Type := mkEnv {
  (** [connect_to_database()] returned a connection (it returns [None]
      instead of raising). *)
  db_connect : bool;
  (** [self.conn.cursor(cursor_factory=RealDictCursor)] *)
  db_cursor : exc unit;
  (** [cursor.execute] followed by [cursor.fetchall] for the [n]-th query of
      one call of [find_similar_issues] (counted from 0). *)
  store_execute : nat -> Query -> exc (list Case);
  (** [cursor.close()] and [self.disconnect()] of the [finally] block. *)
  db_close : exc unit;
  (** [client.embeddings.create(model="text-embedding-ada-002", input=text)],
      then [.data[0].embedding]. *)
  embeddings_create : string -> exc (list pyfloat);
  (** [SymptomSuggestionService.suggest_technical_symptoms(user_symptom,
      machine_type)] *)
  suggest_technical_symptoms : string -> string -> exc (list Symptom);
  (** An exception of the graph library itself while the workflow is built,
      compiled or invoked. *)
  graph_fault : option string;
  (** The interpreter adds floats in [sum] with compensation (CPython 3.12
      and later) rather than one by one from the left. *)
  compensated_sum : bool
}.

(** The calls a method makes to the remote model and to the store. *)
Inductive Event : Type :=
| EmbeddingCall (text : string)
| StoreQuery (q : Query).

(** A computation over a state [S] that may raise; the state reached when
    the exception is raised is kept (Python mutates in place). *)
Definition ST (S A : Type) : Type := S -> exc A * S.

Definition ret {S A : Type} (a : A) : ST S A := fun s => (Ok a, s).

Definition bind {S A B : Type} (m : ST S A) (f : A -> ST S B) : ST S B :=
  fun s =>
    match m s with
    | (Ok a, s') => f a s'
    | (Raise e, s') => (Raise e, s')
    end.

Notation "x <- m ;; k" := (bind m (fun x => k))
  (at level 61, m at next level, right associativity).
Notation "m ;; k" := (bind m (fun _ => k))
  (at level 61, right associativity).

(** [try: m  except Exception as e: h e] *)
Definition try_except {S A : Type} (m : ST S A) (h : string -> ST S A)
  : ST S A :=
  fun s =>
    match m s with
    | (Ok a, s') => (Ok a, s')
    | (Raise e, s') => h e s'
    end.

(** [try: m  finally: c]: [c] runs on both exits, and an exception of [c]
    replaces the outcome of [m]. *)
Definition try_finally {S A : Type} (m : ST S A) (c : ST S unit) : ST S A :=
  fun s =>
    match m s with
    | (r, s') =>
        match c s' with
        | (Ok _, s'') => (r, s'')
        | (Raise e, s'') => (Raise e, s'')
        end
    end.

(** The outcome of an outside call, the state untouched. *)
Definition lift {S A : Type} (r : exc A) : ST S A := fun s => (r, s).

Definition get {S : Type} : ST S S := fun s => (Ok s, s).

Definition modify {S : Type} (f : S -> S) : ST S unit :=
  fun s => (Ok tt, f s).

(** A method of [AdaptedTicketProcessor]: its state is the trace of the
    calls it has made so far to the remote model and to the store. *)
Definition M (A : Type) : Type := ST (list Event) A.

Definition call {A : Type} (ev : Event) (answer : exc A) : M A :=
  fun t => (answer, t ++ [ev]).

(** The store queries of a trace, oldest first. *)
Fixpoint queries_of (t : list Event) : list Query :=
  match t with
  | [] => []
  | StoreQuery q :: t' => q :: queries_of t'
  | EmbeddingCall _ :: t' => queries_of t'
  end.

(** The texts sent to the remote embedding model. *)
Fixpoint embedding_calls_of (t : list Event) : list string :=
  match t with
  | [] => []
  | EmbeddingCall s :: t' => s :: embedding_calls_of t'
  | StoreQuery _ :: t' => embedding_calls_of t'
  end.

(* ================================================================== *)
(** * [generate_openai_embedding] and [find_similar_issues] *)

(** [[0.0] * 1536] *)
Definition zero_vector : list pyfloat := repeat (Fin 0) 1536.

Definition generate_openai_embedding (env : Env) (text : string)
  : M (list pyfloat) :=
  if negb (PyStr.truthy text) then ret zero_vector
  else call (EmbeddingCall text) (embeddings_create env text).

(** Truth value of an [Optional[str]]. *)
Definition truthy_opt (s : option string) : bool :=
  match s with
  | Some s => PyStr.truthy s
  | None => false
  end.

(** Truth value of a list. *)
Definition nonempty {A : Type} (l : list A) : bool :=
  match l with [] => false | _ => true end.

(** [l[:n]] *)
Definition slice_to {A : Type} (l : list A) (n : Z) : list A :=
  if (0 <=? n)%Z then firstn (Z.to_nat n) l
  else firstn (List.length l - Z.to_nat (- n)) l.

Definition half : pyfloat := Fin (1 # 2).
Definition one : pyfloat := Fin 1.

Section FindSimilarIssues.

Variable env : Env.
Variable issue_type : option string.
Variable query_embedding : list pyfloat.

(** The query text and parameters [run_query] builds. *)
Definition build_query (alpha_value : pyfloat) (with_type : bool) : Query :=
  {| q_symptom_weight := alpha_value;
     q_symptom_vector := query_embedding;
     q_defect_weight := PyFloat.sub64 one alpha_value;
     q_defect_vector := query_embedding;
     q_type_filter :=
       if with_type && truthy_opt issue_type then issue_type else None;
     q_order_by := "similarity_score DESC";
     q_pool := 20 |}.

Definition run_query (alpha_value : pyfloat) (with_type : bool)
  : M (list Case) :=
  fun t =>
    let q := build_query alpha_value with_type in
    call (StoreQuery q) (store_execute env (List.length (queries_of t)) q) t.

(** Lines 141-147: the primary query and its fallbacks. *)
Definition cascade (alpha : pyfloat) : M (list Case) :=
  rows <- run_query alpha true ;;
  rows <- (if negb (nonempty rows) then run_query half true else ret rows) ;;
  rows <- (if negb (nonempty rows) && truthy_opt issue_type
           then run_query alpha false else ret rows) ;;
  rows <- (if negb (nonempty rows) then run_query half false else ret rows) ;;
  ret rows.

End FindSimilarIssues.

Definition find_similar_issues (env : Env) (issue_text : string)
    (issue_type : option string) (limit : Z) (alpha min_cutoff : pyfloat)
  : M (list Case) :=
  if negb (db_connect env) then ret []
  else
    try_finally
      (try_except
         (lift (db_cursor env) ;;
          query_embedding <- generate_openai_embedding env issue_text ;;
          if negb (nonempty query_embedding) then ret []
          else
            rows <- cascade env issue_type query_embedding alpha ;;
            let filtered :=
              filter (fun r => PyFloat.ge (similarity_score r) min_cutoff)
                     rows in
            ret (slice_to filtered limit))
         (fun _ => ret []))
      (lift (db_close env)).

(** The defaults of the signature: [limit=5], [alpha=0.7],
    [min_cutoff=0.65]. *)
Definition default_limit : Z := 5.
Definition default_alpha : pyfloat := Fin (7 # 10).
Definition default_min_cutoff : pyfloat := Fin (65 # 100).

(* ================================================================== *)
(** * Number formatting of the f-strings *)

Local Open Scope string_scope.

Module Fmt.

Definition pad_zeros (width : nat) (s : string) : string :=
  String.concat "" (repeat "0" (width - String.length s)%nat) ++ s.

(** [f"{x:.<digits>f}"]: the decimal nearest to the value of the float. *)
Definition fixed (digits : nat) (x : pyfloat) : string :=
  match PyFloat.double x with
  | NaN => "nan"
  | Fin q =>
      let scale := (10 ^ Z.of_nat digits)%Z in
      let k := PyFloat.round_half_even (Qabs q * inject_Z scale) in
      let sign := if Qle_bool 0 q then "" else "-" in
      let whole := PyStr.of_nat (Z.to_nat (k / scale)) in
      let frac := pad_zeros digits (PyStr.of_nat (Z.to_nat (k mod scale))) in
      sign ++ whole ++ (if (digits =? 0)%nat then "" else "." ++ frac)
  end.

(** [f"{x:.1%}"]: the float [x * 100], then as [.1f]. *)
Definition percent1 (x : pyfloat) : string :=
  fixed 1 (PyFloat.mul64 x (Fin 100)) ++ "%".

End Fmt.

(* ================================================================== *)
(** * The state of the workflow *)

(** An entry of [state["recommended_parts"]]. *)
Record RecommendedPart : Type := mkRecommendedPart {
  rp_part_number : string;
  rp_confidence : pyfloat;
  rp_frequency : nat;
  rp_reasoning : string;
  rp_source_cases : list string
}.

(** The [stock_info] dict of the inventory checker. *)
Record StockInfo : Type := mkStockInfo {
  si_part_number : string;
  si_in_stock : bool;
  si_quantity : nat;
  si_estimated_cost : pyfloat
}.

(** [state["inventory_status"]]: [{}], the four-key dict the checker builds,
    or [{"error": ...}]. *)
Inductive InventoryStatus : Type :=
| InventoryEmpty
| Inventory (available_parts out_of_stock_parts low_stock_parts
               : list StockInfo)
            (total_estimated_cost : pyfloat)
| InventoryError (error : string).

(** [state["confidence_scores"]]: [{}], the four-key dict the evaluator
    builds, or [{"error": ...}]. *)
Inductive ConfidenceScores : Type :=
| ScoresEmpty
| Scores (case_similarity parts_confidence overall_confidence : pyfloat)
         (quality : string)
| ScoresError (error : string).

(** An entry of [state["final_recommendations"]]. *)
Record FinalRecommendation : Type := mkFinal {
  fr_part_number : string;
  fr_confidence : pyfloat;
  fr_frequency : nat;
  fr_reasoning : string;
  fr_priority : string
}.

Record KubotaAIState : Type := mkState {
  user_issue : string;
  machine_series : option string;
  user_id : option Z;
  ticket_id : option Z;
  processed_symptoms : list string;
  embedding_vector : option (list pyfloat);
  similar_cases : list Case;
  recommended_parts : list RecommendedPart;
  confidence_scores : ConfidenceScores;
  inventory_status : InventoryStatus;
  final_recommendations : list FinalRecommendation;
  explanation : string;
  next_actions : list string;
  workflow_stage : string;
  processing_log : list string;
  error_message : option string
}.

(** [state[key] = v], one function per key the nodes assign. *)
Definition set_processed_symptoms v s :=
  mkState (user_issue s) (machine_series s) (user_id s) (ticket_id s)
    v (embedding_vector s) (similar_cases s) (recommended_parts s)
    (confidence_scores s) (inventory_status s) (final_recommendations s)
    (explanation s) (next_actions s) (workflow_stage s) (processing_log s)
    (error_message s).
Definition set_embedding_vector v s :=
  mkState (user_issue s) (machine_series s) (user_id s) (ticket_id s)
    (processed_symptoms s) v (similar_cases s) (recommended_parts s)
    (confidence_scores s) (inventory_status s) (final_recommendations s)
    (explanation s) (next_actions s) (workflow_stage s) (processing_log s)
    (error_message s).
Definition set_similar_cases v s :=
  mkState (user_issue s) (machine_series s) (user_id s) (ticket_id s)
    (processed_symptoms s) (embedding_vector s) v (recommended_parts s)
    (confidence_scores s) (inventory_status s) (final_recommendations s)
    (explanation s) (next_actions s) (workflow_stage s) (processing_log s)
    (error_message s).
Definition set_recommended_parts v s :=
  mkState (user_issue s) (machine_series s) (user_id s) (ticket_id s)
    (processed_symptoms s) (embedding_vector s) (similar_cases s) v
    (confidence_scores s) (inventory_status s) (final_recommendations s)
    (explanation s) (next_actions s) (workflow_stage s) (processing_log s)
    (error_message s).
Definition set_confidence_scores v s :=
  mkState (user_issue s) (machine_series s) (user_id s) (ticket_id s)
    (processed_symptoms s) (embedding_vector s) (similar_cases s)
    (recommended_parts s) v (inventory_status s) (final_recommendations s)
    (explanation s) (next_actions s) (workflow_stage s) (processing_log s)
    (error_message s).
Definition set_inventory_status v s :=
  mkState (user_issue s) (machine_series s) (user_id s) (ticket_id s)
    (processed_symptoms s) (embedding_vector s) (similar_cases s)
    (recommended_parts s) (confidence_scores s) v (final_recommendations s)
    (explanation s) (next_actions s) (workflow_stage s) (processing_log s)
    (error_message s).
Definition set_final_recommendations v s :=
  mkState (user_issue s) (machine_series s) (user_id s) (ticket_id s)
    (processed_symptoms s) (embedding_vector s) (similar_cases s)
    (recommended_parts s) (confidence_scores s) (inventory_status s) v
    (explanation s) (next_actions s) (workflow_stage s) (processing_log s)
    (error_message s).
Definition set_explanation v s :=
  mkState (user_issue s) (machine_series s) (user_id s) (ticket_id s)
    (processed_symptoms s) (embedding_vector s) (similar_cases s)
    (recommended_parts s) (confidence_scores s) (inventory_status s)
    (final_recommendations s) v (next_actions s) (workflow_stage s)
    (processing_log s) (error_message s).
Definition set_next_actions v s :=
  mkState (user_issue s) (machine_series s) (user_id s) (ticket_id s)
    (processed_symptoms s) (embedding_vector s) (similar_cases s)
    (recommended_parts s) (confidence_scores s) (inventory_status s)
    (final_recommendations s) (explanation s) v (workflow_stage s)
    (processing_log s) (error_message s).
Definition set_workflow_stage v s :=
  mkState (user_issue s) (machine_series s) (user_id s) (ticket_id s)
    (processed_symptoms s) (embedding_vector s) (similar_cases s)
    (recommended_parts s) (confidence_scores s) (inventory_status s)
    (final_recommendations s) (explanation s) (next_actions s) v
    (processing_log s) (error_message s).
Definition set_processing_log v s :=
  mkState (user_issue s) (machine_series s) (user_id s) (ticket_id s)
    (processed_symptoms s) (embedding_vector s) (similar_cases s)
    (recommended_parts s) (confidence_scores s) (inventory_status s)
    (final_recommendations s) (explanation s) (next_actions s)
    (workflow_stage s) v (error_message s).
Definition set_error_message v s :=
  mkState (user_issue s) (machine_series s) (user_id s) (ticket_id s)
    (processed_symptoms s) (embedding_vector s) (similar_cases s)
    (recommended_parts s) (confidence_scores s) (inventory_status s)
    (final_recommendations s) (explanation s) (next_actions s)
    (workflow_stage s) (processing_log s) v.

(** The body of a node: a computation on the shared state. *)
Definition N (A : Type) : Type := ST KubotaAIState A.

(** [state["workflow_stage"] = name] *)
Definition stage (name : string) : N unit :=
  modify (set_workflow_stage name).

(** [state["processing_log"].append(msg)] *)
Definition append_log (msg : string) (s : KubotaAIState) : KubotaAIState :=
  set_processing_log (processing_log s ++ [msg])%list s.

Definition log (msg : string) : N unit := modify (append_log msg).

(** A node: [try: body; return state  except Exception as e: handler;
    return state]. *)
Definition node (body : N unit) (handler : string -> N unit)
  : KubotaAIState -> exc KubotaAIState :=
  fun s =>
    match try_except body handler s with
    | (Ok _, s') => Ok s'
    | (Raise e, _) => Raise e
    end.

(* ================================================================== *)
(** * The seven nodes *)

Definition or_empty (s : option string) : string :=
  match s with
  | Some s => s
  | None => ""
  end.

(** [symptom.get("technical_symptom", symptom.get("symptom", ""))] *)
Definition symptom_text (sy : Symptom) : string :=
  match technical_symptom sy with
  | Some t => t
  | None => or_empty (symptom sy)
  end.

(** Node 1: the [try] block. *)
Definition symptom_analyzer_body (env : Env) : N unit :=
  stage "symptom_analysis" ;;
  st <- get ;;
  log ("Starting symptom analysis: "
       ++ substring 0 100 (user_issue st) ++ "...") ;;
  technical_symptoms <-
    lift (suggest_technical_symptoms env (user_issue st)
            (or_empty (machine_series st))) ;;
  let processed := map symptom_text technical_symptoms in
  let processed :=
    if negb (nonempty processed) then [user_issue st] else processed in
  modify (set_processed_symptoms processed) ;;
  log ("Generated " ++ PyStr.of_nat (List.length processed)
       ++ " processed symptoms").

(** The [except Exception as e] block. *)
Definition symptom_analyzer_handler (e : string) : N unit :=
  st <- get ;;
  modify (set_error_message (Some ("Symptom analysis failed: " ++ e))) ;;
  modify (set_processed_symptoms [user_issue st]).

Definition symptom_analyzer_node (env : Env)
  : KubotaAIState -> exc KubotaAIState :=
  node (symptom_analyzer_body env) symptom_analyzer_handler.

(** Node 2: the [try] block. *)
Definition embedding_generator_body (env : Env) : N unit :=
  stage "embedding_generation" ;;
  log "Generating embeddings for symptom matching..." ;;
  st <- get ;;
  let search_text := String.concat " " (processed_symptoms st) in
  embedding <- lift (embeddings_create env search_text) ;;
  modify (set_embedding_vector (Some embedding)) ;;
  log ("Generated " ++ PyStr.of_nat (List.length embedding)
       ++ "-dimensional embedding vector").

(** The [except Exception as e] block. *)
Definition embedding_generator_handler (e : string) : N unit :=
  modify (set_error_message
            (Some ("Embedding generation failed: " ++ e))) ;;
  modify (set_embedding_vector None).

Definition embedding_generator_node (env : Env)
  : KubotaAIState -> exc KubotaAIState :=
  node (embedding_generator_body env) embedding_generator_handler.

(** Truth value of [state.get("embedding_vector")]. *)
Definition has_embedding (st : KubotaAIState) : bool :=
  match embedding_vector st with
  | Some v => nonempty v
  | None => false
  end.

(** What [find_similar_issues] returns or raises, its trace dropped. *)
Definition outcome {A : Type} (m : M A) : exc A := fst (m []).

(** Node 3: the [try] block. *)
Definition similarity_searcher_body (env : Env) : N unit :=
  stage "similarity_search" ;;
  log "Searching for similar cases using vector similarity..." ;;
  st <- get ;;
  found <-
    (if negb (has_embedding st) then
       log "No embedding available, falling back to text search" ;;
       lift (outcome (find_similar_issues env (user_issue st)
                        (Some "general") 10 default_alpha
                        default_min_cutoff))
     else
       lift (outcome (find_similar_issues env (user_issue st)
                        None 10 default_alpha (Fin (65 # 100))))) ;;
  modify (set_similar_cases found) ;;
  log ("Found " ++ PyStr.of_nat (List.length found) ++ " similar cases").

(** The [except Exception as e] block. *)
Definition similarity_searcher_handler (e : string) : N unit :=
  modify (set_error_message
            (Some ("Similarity search failed: " ++ e))) ;;
  modify (set_similar_cases []).

Definition similarity_searcher_node (env : Env)
  : KubotaAIState -> exc KubotaAIState :=
  node (similarity_searcher_body env) similarity_searcher_handler.

(** The dict node 4 builds from one dict of [extract_recommended_parts]:
    that dict has no key ["reasoning"], ["recommendedfrom"] or
    ["source_cases"], so the defaults are taken. *)
Definition format_part (part : PartRecommendation) : RecommendedPart :=
  {| rp_part_number := part_number part;
     rp_confidence := confidence part;
     rp_frequency := frequency part;
     rp_reasoning := "Historical data";
     rp_source_cases := [] |}.

(** Node 4: the [try] block. *)
Definition parts_recommender_body (env : Env) : N unit :=
  stage "parts_recommendation" ;;
  log "Extracting parts recommendations from similar cases..." ;;
  st <- get ;;
  if negb (nonempty (similar_cases st))
  then modify (set_recommended_parts [])
  else
    let recommended := extract_recommended_parts (similar_cases st) in
    let formatted_parts := map format_part recommended in
    modify (set_recommended_parts formatted_parts) ;;
    log ("Recommended " ++ PyStr.of_nat (List.length formatted_parts)
         ++ " parts").

(** The [except Exception as e] block. *)
Definition parts_recommender_handler (e : string) : N unit :=
  modify (set_error_message
            (Some ("Parts recommendation failed: " ++ e))) ;;
  modify (set_recommended_parts []).

Definition parts_recommender_node (env : Env)
  : KubotaAIState -> exc KubotaAIState :=
  node (parts_recommender_body env) parts_recommender_handler.

(** The mock stock record of one part. *)
Definition stock_info (part : RecommendedPart) : StockInfo :=
  {| si_part_number := rp_part_number part;
     si_in_stock := true;
     si_quantity := 10;
     si_estimated_cost := Fin (91 # 2) |}.

(** Node 5: the [try] block. *)
Definition inventory_checker_body (env : Env) : N unit :=
  stage "inventory_check" ;;
  log "Checking inventory availability..." ;;
  st <- get ;;
  let available :=
    map stock_info
        (filter (fun part => PyStr.truthy (rp_part_number part))
                (recommended_parts st)) in
  let total :=
    fold_left (fun acc info => PyFloat.add acc (si_estimated_cost info))
              available (Fin 0) in
  modify (set_inventory_status (Inventory available [] [] total)) ;;
  log ("Checked inventory for "
       ++ PyStr.of_nat (List.length (recommended_parts st)) ++ " parts").

(** The [except Exception as e] block. *)
Definition inventory_checker_handler (e : string) : N unit :=
  modify (set_inventory_status (InventoryError e)).

Definition inventory_checker_node (env : Env)
  : KubotaAIState -> exc KubotaAIState :=
  node (inventory_checker_body env) inventory_checker_handler.

Definition tier (x : pyfloat) : string :=
  if PyFloat.gt x (Fin (8 # 10)) then "high"
  else if PyFloat.gt x (Fin (6 # 10)) then "medium"
  else "low".

(** Node 6: the [try] block. *)
Definition confidence_evaluator_body (env : Env) : N unit :=
  stage "confidence_evaluation" ;;
  log "Evaluating recommendation confidence..." ;;
  st <- get ;;
  let case_similarity :=
    PyFloat.mean64 (compensated_sum env)
                   (map similarity_score (similar_cases st)) in
  let parts_confidence :=
    PyFloat.mean64 (compensated_sum env)
                   (map rp_confidence (recommended_parts st)) in
  let overall_confidence :=
    PyFloat.add64 (PyFloat.mul64 case_similarity (Fin (4 # 10)))
                  (PyFloat.mul64 parts_confidence (Fin (6 # 10))) in
  let quality := tier overall_confidence in
  modify (set_confidence_scores
            (Scores case_similarity parts_confidence overall_confidence
                    quality)) ;;
  log ("Overall confidence: " ++ Fmt.fixed 2 overall_confidence).

(** The [except Exception as e] block. *)
Definition confidence_evaluator_handler (e : string) : N unit :=
  modify (set_confidence_scores (ScoresError e)).

Definition confidence_evaluator_node (env : Env)
  : KubotaAIState -> exc KubotaAIState :=
  node (confidence_evaluator_body env) confidence_evaluator_handler.

Definition final_recommendation (part : RecommendedPart)
  : FinalRecommendation :=
  {| fr_part_number := rp_part_number part;
     fr_confidence := rp_confidence part;
     fr_frequency := rp_frequency part;
     fr_reasoning := rp_reasoning part;
     fr_priority := tier (rp_confidence part) |}.

(** [list.sort(key=lambda x: x["confidence"], reverse=True)]: the stable
    sort by decreasing confidence (the keys are finite here: they come from
    [extract_recommended_parts]). *)
Fixpoint insert_by_confidence (x : FinalRecommendation)
    (l : list FinalRecommendation) : list FinalRecommendation :=
  match l with
  | [] => [x]
  | y :: l' =>
      if PyFloat.gt (fr_confidence y) (fr_confidence x)
      then y :: insert_by_confidence x l' else x :: l
  end.

Fixpoint sort_by_confidence (l : list FinalRecommendation)
  : list FinalRecommendation :=
  match l with
  | [] => []
  | x :: l' => insert_by_confidence x (sort_by_confidence l')
  end.

(** [state.get("confidence_scores", {}).get("overall_confidence", 0)],
    through [float(...)]. *)
Definition overall_of (scores : ConfidenceScores) : pyfloat :=
  match scores with
  | Scores _ _ overall _ => overall
  | _ => Fin 0
  end.

(** Truth value of
    [state.get("inventory_status", {}).get("out_of_stock_parts")]. *)
Definition has_out_of_stock (inv : InventoryStatus) : bool :=
  match inv with
  | Inventory _ out_of_stock _ _ => nonempty out_of_stock
  | _ => false
  end.

Definition nl : string := String (ascii_of_nat 10) "".
Definition indent : string := "            ".

(** The f-string of the explanation, before [.strip()]. *)
Definition explanation_text (issue : string) (case_count recs : nat)
    (confidence : pyfloat) : string :=
  nl
  ++ indent ++ "AI Analysis Complete:" ++ nl
  ++ nl
  ++ indent ++ "Issue: " ++ issue ++ nl
  ++ indent ++ "Similar Cases Found: " ++ PyStr.of_nat case_count ++ nl
  ++ indent ++ "Overall Confidence: " ++ Fmt.fixed 2 confidence ++ nl
  ++ nl
  ++ indent ++ "Based on analysis of " ++ PyStr.of_nat case_count
  ++ " similar cases from your Kubota parts database," ++ nl
  ++ indent ++ "I've identified " ++ PyStr.of_nat recs
  ++ " recommended parts with " ++ nl
  ++ indent ++ Fmt.percent1 confidence ++ " confidence level." ++ nl
  ++ nl
  ++ indent
  ++ "The recommendations are ranked by confidence score and frequency of use"
  ++ nl
  ++ indent ++ "in similar repair scenarios." ++ nl
  ++ indent.

(** Node 7: the [try] block. *)
Definition recommendation_formatter_body (env : Env) : N unit :=
  stage "formatting" ;;
  log "Formatting final recommendations..." ;;
  st <- get ;;
  let final :=
    sort_by_confidence (map final_recommendation (recommended_parts st)) in
  modify (set_final_recommendations final) ;;
  let confidence := overall_of (confidence_scores st) in
  let case_count := List.length (similar_cases st) in
  modify (set_explanation
            (PyStr.strip (explanation_text (user_issue st) case_count
                                           (List.length final)
                                           confidence))) ;;
  let next :=
    ([ if PyFloat.gt confidence (Fin (8 # 10))
       then "Proceed with high-confidence recommendations"
       else if PyFloat.gt confidence (Fin (6 # 10))
       then "Review recommendations with technician"
       else "Gather more diagnostic information" ]
     ++ (if has_out_of_stock (inventory_status st)
         then ["Order out-of-stock parts"] else []))%list in
  modify (set_next_actions next) ;;
  stage "completed" ;;
  log "Workflow completed successfully".

(** The [except Exception as e] block. *)
Definition recommendation_formatter_handler (e : string) : N unit :=
  modify (set_error_message (Some ("Formatting failed: " ++ e))).

Definition recommendation_formatter_node (env : Env)
  : KubotaAIState -> exc KubotaAIState :=
  node (recommendation_formatter_body env) recommendation_formatter_handler.

(* ================================================================== *)
(** * The workflow and [process_issue] *)

(** [_build_workflow]: the entry point is the symptom analyzer and each
    edge leads to the next node of this list, the last one to [END]. *)
Definition workflow_nodes (env : Env)
  : list (KubotaAIState -> exc KubotaAIState) :=
  [ symptom_analyzer_node env;
    embedding_generator_node env;
    similarity_searcher_node env;
    parts_recommender_node env;
    inventory_checker_node env;
    confidence_evaluator_node env;
    recommendation_formatter_node env ].

Fixpoint run_nodes (nodes : list (KubotaAIState -> exc KubotaAIState))
    (st : KubotaAIState) : exc KubotaAIState :=
  match nodes with
  | [] => Ok st
  | n :: rest =>
      match n st with
      | Ok st' => run_nodes rest st'
      | Raise e => Raise e
      end
  end.

(** [self._build_workflow().compile().invoke(initial_state)] *)
Definition invoke (env : Env) (st : KubotaAIState) : exc KubotaAIState :=
  match graph_fault env with
  | Some e => Raise e
  | None => run_nodes (workflow_nodes env) st
  end.

Definition initial_state (issue : string) (series : option string)
    (uid tid : option Z) : KubotaAIState :=
  {| user_issue := issue;
     machine_series := series;
     user_id := uid;
     ticket_id := tid;
     processed_symptoms := [];
     embedding_vector := None;
     similar_cases := [];
     recommended_parts := [];
     confidence_scores := ScoresEmpty;
     inventory_status := InventoryEmpty;
     final_recommendations := [];
     explanation := "";
     next_actions := [];
     workflow_stage := "initialized";
     processing_log := [];
     error_message := None |}.

(** The dict [process_issue] returns.  A key the failure dict does not have
    is [None] here; [r_error_message] is also [None] when the key holds
    [None]. *)
Record Response : Type := mkResponse {
  success : bool;
  workflow_completed : option bool;
  r_error : option string;
  r_user_issue : string;
  r_final_recommendations : list FinalRecommendation;
  r_explanation : string;
  r_confidence_scores : option ConfidenceScores;
  r_similar_cases_count : option nat;
  r_inventory_status : option InventoryStatus;
  r_next_actions : option (list string);
  r_processing_log : option (list string);
  r_embedding_used : bool;
  r_error_message : option string
}.

(** The [get_state_value] defaults, for a final state that is [None]. *)
Definition success_response (issue : string)
    (final_state : option KubotaAIState) : Response :=
  let value {A : Type} (field : KubotaAIState -> A) (default : A) : A :=
    match final_state with
    | Some st => field st
    | None => default
    end in
  {| success := true;
     workflow_completed := Some true;
     r_error := None;
     r_user_issue := issue;
     r_final_recommendations := value final_recommendations [];
     r_explanation := value explanation "";
     r_confidence_scores := Some (value confidence_scores ScoresEmpty);
     r_similar_cases_count :=
       Some (List.length (value similar_cases []));
     r_inventory_status := Some (value inventory_status InventoryEmpty);
     r_next_actions := Some (value next_actions []);
     r_processing_log := Some (value processing_log []);
     r_embedding_used :=
       match value embedding_vector None with
       | Some _ => true
       | None => false
       end;
     r_error_message := value error_message None |}.

Definition failure_response (issue e : string) : Response :=
  {| success := false;
     workflow_completed := None;
     r_error := Some e;
     r_user_issue := issue;
     r_final_recommendations := [];
     r_explanation := "Workflow failed: " ++ e;
     r_confidence_scores := None;
     r_similar_cases_count := None;
     r_inventory_status := None;
     r_next_actions := None;
     r_processing_log := None;
     r_embedding_used := false;
     r_error_message := None |}.

Definition process_issue (env : Env) (issue : string)
    (series : option string) (uid tid : option Z) : Response :=
  match invoke env (initial_state issue series uid tid) with
  | Ok final_state => success_response issue (Some final_state)
  | Raise e => failure_response issue e
  end.

(** A world in which every outside call succeeds: the store answers the
    three cases of the end-to-end scenario to every query. *)
Definition scenario_env : Env :=
  {| db_connect := true;
     db_cursor := Ok tt;
     store_execute := fun _ _ => Ok scenario_cases;
     db_close := Ok tt;
     embeddings_create := fun _ => Ok [Fin (1 # 10); Fin (2 # 10)];
     suggest_technical_symptoms :=
       fun issue _ => Ok [mkSymptom None None];
     graph_fault := None;
     compensated_sum := false |}.

(* ================================================================== *)
(** * Concrete inputs *)

(** One case whose parts field names the same part twice. *)
Definition repeated_part_cases : list Case :=
  [ case_with (Some "7J065-85200, 7J065-85200") (9 # 10) ].

(** One case with two parts, each seen once. *)
Definition tie_cases : list Case :=
  [ case_with (Some "9L200-54321, 7J065-85200") (9 # 10) ].

(** A store whose first answer is empty and whose later answers are the
    scenario's three cases. *)
Definition starving_env : Env :=
  {| db_connect := true;
     db_cursor := Ok tt;
     store_execute :=
       fun n _ => match n with 0 => Ok [] | _ => Ok scenario_cases end;
     db_close := Ok tt;
     embeddings_create := fun _ => Ok [Fin (1 # 10); Fin (2 # 10)];
     suggest_technical_symptoms := fun _ _ => Ok [mkSymptom None None];
     graph_fault := None;
     compensated_sum := false |}.

(** A store that answers every query with one row whose score is [NaN],
    the cosine distance to an all-zero vector being undefined. *)
Definition undefined_score_env : Env :=
  {| db_connect := true;
     db_cursor := Ok tt;
     store_execute :=
       fun _ _ =>
         Ok [ mkCase (Some "C-1") None None None None None None None
                     (Some "7J065-85200") None NaN ];
     db_close := Ok tt;
     embeddings_create := fun _ => Raise "remote model called";
     suggest_technical_symptoms := fun _ _ => Ok [];
     graph_fault := None;
     compensated_sum := false |}.

(** The remote embedding model is out of quota; everything else works. *)
Definition quota_env : Env :=
  {| db_connect := true;
     db_cursor := Ok tt;
     store_execute := fun _ _ => Ok scenario_cases;
     db_close := Ok tt;
     embeddings_create := fun _ => Raise "quota exceeded";
     suggest_technical_symptoms := fun _ _ => Ok [mkSymptom None None];
     graph_fault := None;
     compensated_sum := false |}.

(** The graph library fails before any node runs. *)
Definition broken_graph_env : Env :=
  {| db_connect := true;
     db_cursor := Ok tt;
     store_execute := fun _ _ => Ok scenario_cases;
     db_close := Ok tt;
     embeddings_create := fun _ => Ok [Fin (1 # 10); Fin (2 # 10)];
     suggest_technical_symptoms := fun _ _ => Ok [mkSymptom None None];
     graph_fault := Some "recursion limit reached";
     compensated_sum := false |}.

Definition scenario_issue : string := "hydraulic oil leak from quick coupler".


(* ================================================================== *)
(** * Auxiliary notions used in the statements *)

Local Open Scope list_scope.
Local Open Scope nat_scope.

(** The part tokens of a case list in the order the two loops meet them. *)
Definition all_tokens (similar_cases : list Case) : list string :=
  flat_map case_tokens similar_cases.

(** Position of the first occurrence of [p] in [l] ([length l] if none). *)
Fixpoint first_index (p : string) (l : list string) : nat :=
  match l with
  | [] => 0
  | x :: l' => if String.eqb x p then 0 else S (first_index p l')
  end.

(** [before l a b]: some occurrence of [a] in [l] is followed, later in
    [l], by an occurrence of [b]. *)
Inductive before {A : Type} : list A -> A -> A -> Prop :=
| before_here (a b : A) (l : list A) : In b l -> before (a :: l) a b
| before_later (x a b : A) (l : list A) :
    before l a b -> before (x :: l) a b.


(** [ORDER BY similarity_score DESC] as the store sorts [double precision]:
    [NaN] ranks above every number. *)
Definition store_ge (x y : pyfloat) : Prop :=
  match x, y with
  | NaN, _ => True
  | Fin a, Fin b => (PyFloat.b64 b <= PyFloat.b64 a)%Q
  | Fin _, NaN => False
  end.

(** The store honours the [ORDER BY similarity_score DESC] of a query that
    has it. *)
Definition store_ordered (env : Env) : Prop :=
  forall n q rows,
    store_execute env n q = Ok rows ->
    q_order_by q = "similarity_score DESC"%string ->
    StronglySorted
      (fun r1 r2 => store_ge (similarity_score r1) (similarity_score r2))
      rows.

(** Decreasing scores, none of them [NaN]. *)
Definition score_descending (rows : list Case) : Prop :=
  StronglySorted
    (fun r1 r2 => PyFloat.le (similarity_score r2) (similarity_score r1))
    rows.

(** One [execute] of a given query: what [run_query] does once the query is
    built. *)
Definition execute (env : Env) (q : Query) : M (list Case) :=
  fun t => call (StoreQuery q) (store_execute env (List.length (queries_of t)) q) t.

(** The cascade in the words of the specification: the primary query, then
    weight 0.5 with the same type filter, then (only with a type hint) the
    primary weight without the filter, then weight 0.5 without the
    filter. *)
Definition attempts (issue_type : option string)
    (query_embedding : list pyfloat) (alpha : pyfloat) : list Query :=
  [ build_query issue_type query_embedding alpha true;
    build_query issue_type query_embedding half true ]
  ++ (if truthy_opt issue_type
      then [ build_query issue_type query_embedding alpha false ]
      else [])
  ++ [ build_query issue_type query_embedding half false ].

(** Try the attempts in order; the first non-empty answer wins. *)
Fixpoint first_non_empty (env : Env) (plan : list Query) : M (list Case) :=
  match plan with
  | [] => ret []
  | q :: rest =>
      rows <- execute env q ;;
      if nonempty rows then ret rows else first_non_empty env rest
  end.

(** The call of [find_similar_issues] node 3 makes in a given state. *)
Definition search_call (env : Env) (st : KubotaAIState)
  : exc (list Case) :=
  if negb (has_embedding st)
  then outcome (find_similar_issues env (user_issue st) (Some "general") 10
                                    default_alpha default_min_cutoff)
  else outcome (find_similar_issues env (user_issue st) None 10
                                    default_alpha (Fin (65 # 100))).

(** The text node 2 sends to the remote model in a given state. *)
Definition search_text (st : KubotaAIState) : string :=
  String.concat " " (processed_symptoms st).

(** The nodes in the order of the edges. *)
Definition run_workflow (env : Env) (st : KubotaAIState)
  : exc KubotaAIState :=
  run_nodes (workflow_nodes env) st.

(** The vector [generate_openai_embedding] hands to the search. *)
Definition embedding_of (env : Env) (text : string) : exc (list pyfloat) :=
  outcome (generate_openai_embedding env text).

(* ================================================================== *)
(** * Lists: [before], [first_index] *)

Section ListFacts.

Context {A B : Type}.

Lemma before_in (l : list A) (a b : A) :
  before l a b -> In a l /\ In b l.
Proof.
  induction 1 as [a b l Hb | x a b l _ [IHa IHb]]; simpl; auto.
Qed.

Lemma before_map (f : A -> B) (l : list A) (a b : A) :
  before l a b -> before (map f l) (f a) (f b).
Proof.
  induction 1 as [a b l Hb | x a b l _ IH]; simpl.
  - apply before_here. now apply in_map.
  - now apply before_later.
Qed.

Lemma before_nth (l : list A) :
  forall i j a b,
    i < j -> nth_error l i = Some a -> nth_error l j = Some b ->
    before l a b.
Proof.
  induction l as [| x l IH]; intros i j a b Hij Hi Hj.
  - destruct i; discriminate.
  - destruct j as [| j]; [lia |].
    destruct i as [| i]; simpl in *.
    + injection Hi as ->. apply before_here. eapply nth_error_In; eauto.
    + apply before_later. apply (IH i j); auto. lia.
Qed.

Lemma before_snoc_inv (l : list A) (p a b : A) :
  before (l ++ [p]) a b -> before l a b \/ (In a l /\ b = p).
Proof.
  induction l as [| x l IH]; simpl; intros H.
  - inversion H; subst.
    + contradiction.
    + match goal with H' : before [] _ _ |- _ => inversion H' end.
  - inversion H; subst.
    + match goal with H' : In b (l ++ [p]) |- _ =>
        apply in_app_or in H'; destruct H' as [H' | [-> | []]]
      end.
      * left. now apply before_here.
      * right. auto.
    + match goal with H' : before (l ++ [p]) a b |- _ =>
        destruct (IH H') as [Hb | [Ha ->]]
      end.
      * left. now apply before_later.
      * right. auto.
Qed.

Lemma in_firstn (n : nat) (l : list A) (a : A) :
  In a (firstn n l) -> In a l.
Proof.
  revert l. induction n as [| n IH]; intros [| x l]; simpl;
    try contradiction.
  intros [-> | H]; auto.
Qed.

Lemma before_firstn (n : nat) (l : list A) (a b : A) :
  before (firstn n l) a b -> before l a b.
Proof.
  revert l. induction n as [| n IH]; intros [| x l] H; simpl in *;
    try solve [inversion H].
  inversion H; subst.
  - apply before_here. eapply in_firstn; eauto.
  - apply before_later. now apply IH.
Qed.

Lemma strongly_sorted_before (R : A -> A -> Prop) (l : list A) (a b : A) :
  StronglySorted R l -> before l a b -> R a b.
Proof.
  intros Hs Hb. induction Hb as [a b l Hb | x a b l _ IH].
  - apply StronglySorted_inv in Hs as [_ Hall].
    rewrite Forall_forall in Hall. now apply Hall.
  - apply StronglySorted_inv in Hs as [Hs _]. now apply IH.
Qed.

End ListFacts.

Lemma first_index_in (p : string) (l l2 : list string) :
  In p l ->
  first_index p (l ++ l2) = first_index p l /\ first_index p l < List.length l.
Proof.
  induction l as [| x l IH]; simpl; [contradiction |].
  intros Hin. destruct (String.eqb_spec x p) as [-> | Hne].
  - split; [reflexivity | lia].
  - destruct Hin as [-> | Hin]; [contradiction |].
    destruct (IH Hin) as [-> Hlt]. split; [reflexivity | lia].
Qed.

Lemma first_index_fresh (p : string) (l : list string) :
  ~ In p l -> first_index p (l ++ [p]) = List.length l.
Proof.
  induction l as [| x l IH]; simpl; intros Hnin.
  - now rewrite String.eqb_refl.
  - destruct (String.eqb_spec x p) as [-> | Hne].
    + exfalso. auto.
    + rewrite IH; auto.
Qed.

(* ================================================================== *)
(** * The frequency dict *)

(** The loops of [extract_recommended_parts] count one token stream. *)
Definition count_all (ts : list string) (d : PartsFrequency)
  : PartsFrequency :=
  fold_left count_part ts d.

Lemma parts_frequency_tokens (cases : list Case) (d : PartsFrequency) :
  fold_left (fun d c => fold_left count_part (case_tokens c) d) cases d
  = count_all (flat_map case_tokens cases) d.
Proof.
  revert d. induction cases as [| c cases IH]; intros d; simpl.
  - reflexivity.
  - unfold count_all. rewrite fold_left_app. apply IH.
Qed.

Definition mem (p : string) (ks : list string) : bool :=
  existsb (String.eqb p) ks.

Definition add_key (ks : list string) (p : string) : list string :=
  if mem p ks then ks else ks ++ [p].

Lemma mem_In (p : string) (ks : list string) :
  mem p ks = true <-> In p ks.
Proof.
  unfold mem. rewrite existsb_exists. split.
  - intros [x [Hin Heq]]. apply String.eqb_eq in Heq. now subst.
  - intros Hin. exists p. split; [assumption | apply String.eqb_refl].
Qed.

Lemma keys_dict_set (d : PartsFrequency) (k : string) (v : nat) :
  map fst (dict_set d k v) = add_key (map fst d) k.
Proof.
  unfold add_key. induction d as [| [k' v'] d IH]; simpl.
  - reflexivity.
  - rewrite (String.eqb_sym k k').
    destruct (String.eqb_spec k' k) as [-> | Hne]; simpl.
    + reflexivity.
    + rewrite IH. fold (mem k (map fst d)).
      destruct (mem k (map fst d)); reflexivity.
Qed.

Lemma keys_count_all (ts : list string) (d : PartsFrequency) :
  map fst (count_all ts d) = fold_left add_key ts (map fst d).
Proof.
  revert d. induction ts as [| p ts IH]; intros d; simpl.
  - reflexivity.
  - unfold count_all in IH. rewrite IH. unfold count_part.
    now rewrite keys_dict_set.
Qed.

Lemma dict_get_set_same (d : PartsFrequency) (k : string) (v : nat) :
  dict_get (dict_set d k v) k = v.
Proof.
  induction d as [| [k' v'] d IH]; simpl.
  - now rewrite String.eqb_refl.
  - destruct (String.eqb_spec k' k) as [-> | Hne]; simpl.
    + now rewrite String.eqb_refl.
    + destruct (String.eqb_spec k' k); [contradiction | assumption].
Qed.

Lemma dict_get_set_other (d : PartsFrequency) (k k' : string) (v : nat) :
  k <> k' -> dict_get (dict_set d k v) k' = dict_get d k'.
Proof.
  intros Hne. induction d as [| [k0 v0] d IH]; simpl.
  - destruct (String.eqb_spec k k'); [contradiction | reflexivity].
  - destruct (String.eqb_spec k0 k) as [-> | Hne0]; simpl.
    + destruct (String.eqb_spec k k'); [contradiction | reflexivity].
    + now rewrite IH.
Qed.

Lemma dict_get_count_all (ts : list string) (d : PartsFrequency)
    (p : string) :
  dict_get (count_all ts d) p = dict_get d p + count_occ string_dec ts p.
Proof.
  revert d. induction ts as [| t ts IH]; intros d; simpl.
  - lia.
  - unfold count_all in *. rewrite IH. unfold count_part.
    destruct (string_dec t p) as [-> | Hne].
    + rewrite dict_get_set_same. lia.
    + rewrite dict_get_set_other by assumption. lia.
Qed.

Lemma dict_get_in (d : PartsFrequency) (k : string) (v : nat) :
  NoDup (map fst d) -> In (k, v) d -> dict_get d k = v.
Proof.
  induction d as [| [k' v'] d IH]; simpl; intros Hnd Hin; [contradiction |].
  inversion Hnd as [| ? ? Hnotin Hnd']; subst.
  destruct Hin as [Heq | Hin].
  - injection Heq as -> ->. now rewrite String.eqb_refl.
  - destruct (String.eqb_spec k' k) as [-> | Hne].
    + exfalso. apply Hnotin. change k with (fst (k, v)). now apply in_map.
    + now apply IH.
Qed.

(** The keys of the dict are the distinct tokens in first-seen order. *)
Lemma add_key_order (ts : list string) :
  let ks := fold_left add_key ts [] in
  NoDup ks
  /\ (forall a, In a ks <-> In a ts)
  /\ (forall a b, before ks a b -> first_index a ts < first_index b ts).
Proof.
  induction ts as [| p ts IH] using rev_ind; simpl.
  - repeat split; try constructor; try contradiction.
    intros a b H. inversion H.
  - rewrite fold_left_app. simpl.
    destruct IH as [Hnd [Hin Hord]].
    set (ks := fold_left add_key ts []) in *.
    unfold add_key. destruct (mem p ks) eqn:Hmem.
    + apply mem_In in Hmem. split; [assumption |]. split.
      * intros a. rewrite in_app_iff, Hin. simpl. split; [tauto |].
        intros [H | [<- | []]]; [assumption | now apply Hin].
      * intros a b Hb. destruct (before_in _ _ _ Hb) as [Ha Hb'].
        apply Hin in Ha. apply Hin in Hb'.
        destruct (first_index_in a ts [p] Ha) as [-> _].
        destruct (first_index_in b ts [p] Hb') as [-> _].
        now apply Hord.
    + assert (Hnin : ~ In p ks).
      { intros H. apply mem_In in H. congruence. }
      split; [| split].
      * apply NoDup_app; [assumption | repeat constructor; auto |].
        intros x Hx [<- | []]. contradiction.
      * intros a. rewrite !in_app_iff, Hin. reflexivity.
      * intros a b Hb. apply before_snoc_inv in Hb as [Hb | [Ha ->]].
        -- destruct (before_in _ _ _ Hb) as [Ha Hb'].
           apply Hin in Ha. apply Hin in Hb'.
           destruct (first_index_in a ts [p] Ha) as [-> _].
           destruct (first_index_in b ts [p] Hb') as [-> _].
           now apply Hord.
        -- apply Hin in Ha.
           destruct (first_index_in a ts [p] Ha) as [-> Hlt].
           rewrite first_index_fresh; [assumption |].
           intros H. apply Hnin. now apply Hin.
Qed.

(* ================================================================== *)
(** * The stable sort by decreasing count *)

Definition count_ge (a b : string * nat) : Prop := snd b <= snd a.

Lemma insert_desc_in (x y : string * nat) (l : list (string * nat)) :
  In y (insert_desc x l) <-> y = x \/ In y l.
Proof.
  induction l as [| z l IH]; simpl.
  - intuition.
  - destruct (snd x <? snd z); simpl; rewrite ?IH; intuition.
Qed.

Lemma sorted_desc_in (y : string * nat) (l : list (string * nat)) :
  In y (sorted_desc l) <-> In y l.
Proof.
  induction l as [| x l IH]; simpl; [tauto |].
  rewrite insert_desc_in, IH. intuition.
Qed.

Lemma insert_desc_sorted (x : string * nat) (l : list (string * nat)) :
  StronglySorted count_ge l -> StronglySorted count_ge (insert_desc x l).
Proof.
  induction 1 as [| z l Hs IH Hall]; simpl.
  - repeat constructor.
  - destruct (Nat.ltb_spec (snd x) (snd z)) as [Hlt | Hge].
    + constructor; [assumption |].
      rewrite Forall_forall in *. intros y Hy.
      apply insert_desc_in in Hy as [-> | Hy].
      * unfold count_ge. lia.
      * now apply Hall.
    + constructor; [now constructor |].
      constructor; [exact Hge |].
      rewrite Forall_forall in *. intros y Hy.
      specialize (Hall y Hy). unfold count_ge in *. lia.
Qed.

Lemma sorted_desc_sorted (l : list (string * nat)) :
  StronglySorted count_ge (sorted_desc l).
Proof.
  induction l as [| x l IH]; simpl.
  - constructor.
  - now apply insert_desc_sorted.
Qed.

Lemma insert_desc_before (x a b : string * nat) (l : list (string * nat)) :
  before (insert_desc x l) a b ->
  (a = x /\ In b l) \/ before l a b \/ (b = x /\ In a l /\ snd x < snd a).
Proof.
  induction l as [| z l IH]; simpl; intros H.
  - inversion H; subst; [contradiction |].
    match goal with H' : before [] _ _ |- _ => inversion H' end.
  - destruct (Nat.ltb_spec (snd x) (snd z)) as [Hlt | Hge].
    + inversion H; subst.
      * match goal with H' : In b (insert_desc x l) |- _ =>
          apply insert_desc_in in H' as [-> | H']
        end.
        -- right. right. auto.
        -- right. left. now apply before_here.
      * match goal with H' : before (insert_desc x l) a b |- _ =>
          destruct (IH H') as [[-> Hb] | [Hb | [-> [Ha Hlt']]]]
        end.
        -- left. auto.
        -- right. left. now apply before_later.
        -- right. right. auto.
    + inversion H; subst.
      * left. auto.
      * right. left. assumption.
Qed.

(** Entries with equal counts keep the order they had in the dict. *)
Lemma sorted_desc_stable (l : list (string * nat)) (a b : string * nat) :
  before (sorted_desc l) a b -> snd a = snd b -> before l a b.
Proof.
  induction l as [| x l IH]; simpl; intros H Heq.
  - inversion H.
  - apply insert_desc_before in H as [[-> Hb] | [Hb | [-> [Ha Hlt]]]].
    + apply before_here. now apply sorted_desc_in.
    + apply before_later. now apply IH.
    + lia.
Qed.

(* ================================================================== *)
(** * Rounding *)

(** Some expressions of the source, with the floats the interpreter
    computes for them. *)

(** [0.1] is 3602879701896397 / 2^55. *)
Example float_tenth :
  PyFloat.b64 (1 # 10) = (3602879701896397 # 36028797018963968)%Q.
Proof. vm_compute. reflexivity. Qed.

(** [round(1 / 80, 3)] is [0.013]: the quotient is the float next above
    0.0125. *)
Example round_of_an_eightieth :
  PyFloat.round3 (PyFloat.truediv 1 80) = Fin (13 # 1000).
Proof. vm_compute. reflexivity. Qed.

(** [1 - 0.7] is [0.30000000000000004]. *)
Example one_minus_alpha :
  PyFloat.sub64 one default_alpha
  = Fin (1351079888211149 # 4503599627370496).
Proof. vm_compute. reflexivity. Qed.

(** [sum([0.9, 0.8, 0.7]) / 3] is [0.8000000000000002] when [sum] adds
    from the left and [0.7999999999999999] when it compensates. *)
Example mean_from_the_left :
  PyFloat.mean64 false [Fin (9 # 10); Fin (8 # 10); Fin (7 # 10)]
  = Fin (7205759403792795 # 9007199254740992).
Proof. vm_compute. reflexivity. Qed.

Example mean_with_compensation :
  PyFloat.mean64 true [Fin (9 # 10); Fin (8 # 10); Fin (7 # 10)]
  = Fin (7205759403792793 # 9007199254740992).
Proof. vm_compute. reflexivity. Qed.

(** [f"{0.835:.2f}"] is "0.83", the float [0.835] being below 0.835. *)
Example fixed_rounds_the_float :
  Fmt.fixed 2 (Fin (835 # 1000)) = "0.83".
Proof. vm_compute. reflexivity. Qed.

(* ================================================================== *)
(** * Facts about [extract_recommended_parts] *)

Lemma parts_frequency_eq (cases : list Case) :
  parts_frequency cases = count_all (all_tokens cases) [].
Proof. apply parts_frequency_tokens. Qed.

Lemma parts_frequency_keys (cases : list Case) :
  map fst (parts_frequency cases) = fold_left add_key (all_tokens cases) [].
Proof. rewrite parts_frequency_eq. apply keys_count_all. Qed.

Lemma parts_frequency_entry (cases : list Case) (k : string) (v : nat) :
  In (k, v) (parts_frequency cases) ->
  In k (all_tokens cases) /\ v = count_occ string_dec (all_tokens cases) k.
Proof.
  intros Hin.
  destruct (add_key_order (all_tokens cases)) as [Hnd [Hkeys _]].
  rewrite <- parts_frequency_keys in Hnd, Hkeys. split.
  - apply Hkeys. change k with (fst (k, v)). now apply in_map.
  - rewrite <- (dict_get_in _ _ _ Hnd Hin).
    rewrite parts_frequency_eq, dict_get_count_all. reflexivity.
Qed.

Lemma extract_in (cases : list Case) (r : PartRecommendation) :
  In r (extract_recommended_parts cases) ->
  exists k v,
    In (k, v) (parts_frequency cases)
    /\ r = recommendation (List.length cases) (k, v).
Proof.
  unfold extract_recommended_parts. intros Hin.
  apply in_firstn in Hin. apply in_map_iff in Hin as [[k v] [<- Hin]].
  exists k, v. split; [now apply sorted_desc_in | reflexivity].
Qed.

(* ================================================================== *)
(** * The parts recommender: the claims *)

(** C2.  On the three cases of the end-to-end scenario (parts fields
    "7J065-85200, 9L200-54321" with scores 0.9 and 0.8, and "9L200-54321"
    with score 0.7), [extract_recommended_parts] returns "9L200-54321" with
    frequency 3 and confidence 1.0 first and "7J065-85200" with frequency 2
    and confidence 0.667 second. *)
Theorem scenario_recommendations :
  extract_recommended_parts scenario_cases
  = [ mkRec "9L200-54321" 3 (Fin 1) "3/3 similar cases";
      mkRec "7J065-85200" 2 (Fin (667 # 1000)) "2/3 similar cases" ].
Proof. vm_compute. reflexivity. Qed.

(** C3.  One similar case whose parts field names the same part twice:
    [extract_recommended_parts] counts the part twice in one case and gives
    it the confidence 2.0, which is not in [0,1]. *)
Theorem repeated_part_confidence :
  extract_recommended_parts repeated_part_cases
  = [ mkRec "7J065-85200" 2 (Fin 2) "2/1 similar cases" ]
  /\ PyFloat.gt (Fin 2) (Fin 1) = true.
Proof. split; vm_compute; reflexivity. Qed.

(** C5.  [extract_recommended_parts] returns the empty list on the empty
    list; its result never has more than 10 entries; the entries are in
    order of decreasing frequency, and of two entries with the same
    frequency the one whose part token was seen first comes first. *)
Theorem extract_shape (cases : list Case) :
  extract_recommended_parts [] = []
  /\ List.length (extract_recommended_parts cases) <= 10
  /\ forall i j a b,
       i < j ->
       nth_error (extract_recommended_parts cases) i = Some a ->
       nth_error (extract_recommended_parts cases) j = Some b ->
       frequency b <= frequency a
       /\ (frequency a = frequency b ->
           first_index (part_number a) (all_tokens cases)
           < first_index (part_number b) (all_tokens cases)).
Proof.
  split; [reflexivity |]. split.
  - unfold extract_recommended_parts. apply firstn_le_length.
  - intros i j a b Hij Ha Hb.
    pose proof (before_nth _ _ _ _ _ Hij Ha Hb) as Hbef.
    unfold extract_recommended_parts in Hbef.
    apply before_firstn in Hbef.
    set (g := recommendation (List.length cases)) in *.
    assert (Hpre : exists x y,
               before (sorted_desc (parts_frequency cases)) x y
               /\ a = g x /\ b = g y).
    { clear Ha Hb.
      induction (sorted_desc (parts_frequency cases)) as [| z l IH];
        simpl in Hbef; inversion Hbef; subst.
      - match goal with H : In _ (map g l) |- _ =>
          apply in_map_iff in H as [y [<- Hy]] end.
        exists z, y. split; [now apply before_here | auto].
      - match goal with H : before (map g l) a b |- _ =>
          destruct (IH H) as [x [y [Hxy [-> ->]]]] end.
        exists x, y. split; [now apply before_later | auto]. }
    destruct Hpre as [[ka va] [[kb vb] [Hxy [-> ->]]]].
    subst g. cbn [recommendation frequency part_number]. split.
    + apply (strongly_sorted_before count_ge _ _ _
               (sorted_desc_sorted _) Hxy).
    + intros Heq.
      apply sorted_desc_stable in Hxy; [| exact Heq].
      apply (before_map fst) in Hxy. rewrite parts_frequency_keys in Hxy.
      destruct (add_key_order (all_tokens cases)) as [_ [_ Hord]].
      now apply Hord.
Qed.

Lemma extract_shape_witness :
  let a := mkRec "9L200-54321" 1 (Fin 1) "1/1 similar cases" in
  let b := mkRec "7J065-85200" 1 (Fin 1) "1/1 similar cases" in
  nth_error (extract_recommended_parts tie_cases) 0 = Some a
  /\ nth_error (extract_recommended_parts tie_cases) 1 = Some b
  /\ frequency b <= frequency a
  /\ first_index (part_number a) (all_tokens tie_cases)
     < first_index (part_number b) (all_tokens tie_cases).
Proof.
  cbv zeta.
  assert (Ha : nth_error (extract_recommended_parts tie_cases) 0
               = Some (mkRec "9L200-54321" 1 (Fin 1) "1/1 similar cases"))
    by (vm_compute; reflexivity).
  assert (Hb : nth_error (extract_recommended_parts tie_cases) 1
               = Some (mkRec "7J065-85200" 1 (Fin 1) "1/1 similar cases"))
    by (vm_compute; reflexivity).
  split; [exact Ha |]. split; [exact Hb |].
  destruct (extract_shape tie_cases) as [_ [_ H]].
  destruct (H 0 1 _ _ (Nat.lt_0_succ 0) Ha Hb) as [Hle Hord].
  split; [exact Hle |]. apply Hord. reflexivity.
Defined.

(* ================================================================== *)
(** * The cascade of [find_similar_issues] *)

Lemma queries_of_app (t1 t2 : list Event) :
  queries_of (t1 ++ t2) = queries_of t1 ++ queries_of t2.
Proof.
  induction t1 as [| [s | q] t1 IH]; simpl; [reflexivity | assumption |].
  now rewrite IH.
Qed.

Lemma queries_of_store (qs : list Query) :
  queries_of (map StoreQuery qs) = qs.
Proof. induction qs as [| q qs IH]; simpl; [reflexivity | now rewrite IH]. Qed.

Lemma embedding_calls_of_store (qs : list Query) :
  embedding_calls_of (map StoreQuery qs) = [].
Proof. induction qs as [| q qs IH]; simpl; [reflexivity | assumption]. Qed.

(** The four statements of the source do what the specification's cascade
    says. *)
Lemma cascade_refines (env : Env) (issue_type : option string)
    (v : list pyfloat) (alpha : pyfloat) (t : list Event) :
  cascade env issue_type v alpha t
  = first_non_empty env (attempts issue_type v alpha) t.
Proof.
  unfold cascade, attempts, run_query.
  destruct (truthy_opt issue_type); simpl;
    unfold bind, execute, call, ret; simpl;
    repeat (match goal with
            | |- context [store_execute ?e ?n ?q] =>
                destruct (store_execute e n q) as [[| ? ?] | ?]; simpl
            end; try reflexivity).
Qed.

Lemma attempts_nonempty (issue_type : option string) (v : list pyfloat)
    (alpha : pyfloat) :
  attempts issue_type v alpha <> [].
Proof. unfold attempts. simpl. discriminate. Qed.

(** What a run of the specification's cascade looks like: it issues the
    first [n] attempts, the first [n - 1] of them came back empty, and the
    outcome is the answer to the last one issued. *)
Lemma first_non_empty_run (env : Env) (plan : list Query) :
  plan <> [] ->
  forall t,
    let n0 := List.length (queries_of t) in
    exists n,
      1 <= n <= List.length plan
      /\ snd (first_non_empty env plan t)
         = t ++ map StoreQuery (firstn n plan)
      /\ (forall i q, i < n - 1 -> nth_error plan i = Some q ->
                      store_execute env (n0 + i) q = Ok [])
      /\ exists q,
           nth_error plan (n - 1) = Some q
           /\ fst (first_non_empty env plan t)
              = store_execute env (n0 + (n - 1)) q
           /\ (n < List.length plan ->
               store_execute env (n0 + (n - 1)) q <> Ok []).
Proof.
  induction plan as [| q rest IH]; [congruence |].
  intros _ t. cbv zeta. simpl first_non_empty.
  unfold bind, execute, call.
  set (n0 := List.length (queries_of t)).
  destruct (store_execute env n0 q) as [[| r rows] | e] eqn:Hq.
  - (* empty answer: go on with the rest *)
    destruct rest as [| q' rest'].
    + exists 1. simpl. repeat split; try lia.
      exists q. rewrite Nat.add_0_r. repeat split; auto. lia.
    + cbn [nonempty].
      destruct (IH ltac:(discriminate) (t ++ [StoreQuery q]))
        as [n [Hn [Htr [Hempty [ql [Hql [Hres Hstop]]]]]]].
      rewrite queries_of_app, length_app in Hempty, Hres, Hstop.
      cbn [queries_of List.length] in Hempty, Hres, Hstop.
      fold n0 in Hempty, Hres, Hstop.
      exists (S n). split; [cbn [List.length] in *; lia |]. split.
      * rewrite Htr. rewrite <- app_assoc. reflexivity.
      * split.
        -- intros i q0 Hi Hnth. destruct i as [| i].
           ++ simpl in Hnth. injection Hnth as <-.
              now rewrite Nat.add_0_r.
           ++ simpl in Hnth. replace (n0 + S i) with (n0 + 1 + i) by lia.
              apply Hempty; [lia | assumption].
        -- exists ql. replace (S n - 1) with (S (n - 1)) by lia.
           replace (n0 + S (n - 1)) with (n0 + 1 + (n - 1)) by lia.
           repeat split; try assumption.
           intros Hlt. apply Hstop. cbn [List.length] in *. lia.
  - exists 1. simpl. repeat split; try lia.
    exists q. rewrite Nat.add_0_r. repeat split; auto.
    intros _. rewrite Hq. discriminate.
  - exists 1. simpl. repeat split; try lia.
    exists q. rewrite Nat.add_0_r. repeat split; auto.
    intros _. rewrite Hq. discriminate.
Qed.

Lemma generate_trace (env : Env) (text : string) (t : list Event) :
  queries_of (snd (generate_openai_embedding env text t)) = queries_of t.
Proof.
  unfold generate_openai_embedding.
  destruct (PyStr.truthy text); simpl.
  - rewrite queries_of_app. simpl. apply app_nil_r.
  - reflexivity.
Qed.

(** What [find_similar_issues] makes of the rows the cascade ends with. *)
Definition cut (min_cutoff : pyfloat) (limit : Z) (rows : list Case)
  : list Case :=
  slice_to
    (filter (fun r => PyFloat.ge (similarity_score r) min_cutoff) rows)
    limit.

(** [find_similar_issues] once the connection is open and the embedding is
    there: the cascade, the cut, the handler and the [finally] block. *)
Lemma find_similar_issues_connected (env : Env) (issue_text : string)
    (issue_type : option string) (limit : Z) (alpha min_cutoff : pyfloat)
    (v : list pyfloat) (t0 : list Event) :
  db_connect env = true ->
  db_cursor env = Ok tt ->
  generate_openai_embedding env issue_text [] = (Ok v, t0) ->
  v <> [] ->
  find_similar_issues env issue_text issue_type limit alpha min_cutoff []
  = let run := first_non_empty env (attempts issue_type v alpha) t0 in
    let result :=
      match fst run with
      | Ok rows => Ok (cut min_cutoff limit rows)
      | Raise _ => Ok []
      end in
    match db_close env with
    | Ok _ => (result, snd run)
    | Raise e => (Raise e, snd run)
    end.
Proof.
  intros Hconn Hcur Hgen Hv. unfold find_similar_issues.
  rewrite Hconn. cbn [negb].
  unfold try_finally, try_except, bind, lift. rewrite Hcur, Hgen.
  destruct v as [| x v]; [congruence |]. cbn [nonempty negb].
  rewrite cascade_refines.
  destruct (first_non_empty env (attempts issue_type (x :: v) alpha) t0)
    as [[rows | e] t1]; cbv zeta; cbn [fst snd ret];
    destruct (db_close env); reflexivity.
Qed.

(** C1.  Once the connection and its cursor are open and the embedding is
    there,
    [find_similar_issues] sends its queries in the order of the
    specification's cascade (primary weight with the type filter, 0.5 with
    the same filter, the primary weight without filter only if a type hint
    was given, 0.5 without filter); if the primary query returns a row, it
    is the only query sent; every query before the last one sent came back
    empty, the cascade stops at the first non-empty answer, and the result
    is made from the rows of that last query alone. *)
Theorem fallback_cascade (env : Env) (issue_text : string)
    (issue_type : option string) (limit : Z) (alpha min_cutoff : pyfloat)
    (v : list pyfloat) :
  db_connect env = true ->
  db_cursor env = Ok tt ->
  embedding_of env issue_text = Ok v ->
  v <> [] ->
  let run :=
    find_similar_issues env issue_text issue_type limit alpha min_cutoff [] in
  let plan := attempts issue_type v alpha in
  let primary := build_query issue_type v alpha true in
  let hint := if truthy_opt issue_type then issue_type else None in
  map (fun q => (q_symptom_weight q, q_type_filter q)) plan
  = [(alpha, hint); (half, hint)]
    ++ (if truthy_opt issue_type then [(alpha, None)] else [])
    ++ [(half, None)]
  /\ (forall t, cascade env issue_type v alpha t
                = first_non_empty env plan t)
  /\ (forall rows, store_execute env 0 primary = Ok rows -> rows <> [] ->
                   queries_of (snd run) = [primary])
  /\ exists n,
       1 <= n <= List.length plan
       /\ queries_of (snd run) = firstn n plan
       /\ (forall i q, i < n - 1 -> nth_error plan i = Some q ->
                       store_execute env i q = Ok [])
       /\ exists q,
            nth_error plan (n - 1) = Some q
            /\ (n < List.length plan -> store_execute env (n - 1) q <> Ok [])
            /\ (forall rows,
                  store_execute env (n - 1) q = Ok rows ->
                  db_close env = Ok tt ->
                  fst run = Ok (cut min_cutoff limit rows)).
Proof.
  intros Hconn Hcur Hemb Hv. cbv zeta.
  unfold embedding_of, outcome in Hemb.
  destruct (generate_openai_embedding env issue_text []) as [r t0] eqn:Hgen.
  cbn [fst] in Hemb. subst r.
  assert (Ht0 : queries_of t0 = []).
  { pose proof (generate_trace env issue_text []) as H.
    rewrite Hgen in H. exact H. }
  rewrite (find_similar_issues_connected _ _ _ _ _ _ _ _ Hconn Hcur Hgen Hv).
  cbv zeta.
  destruct (first_non_empty_run env (attempts issue_type v alpha)
              (attempts_nonempty _ _ _) t0)
    as [n [Hn [Htr [Hempty [q [Hq [Hres Hstop]]]]]]].
  rewrite Ht0 in Hempty, Hres, Hstop. cbn [List.length Nat.add] in *.
  assert (Hqs : queries_of
                  (snd (first_non_empty env (attempts issue_type v alpha) t0))
                = firstn n (attempts issue_type v alpha)).
  { rewrite Htr, queries_of_app, Ht0, queries_of_store. reflexivity. }
  assert (Hsnd : forall A (x : exc A) (t : list Event),
             snd (match db_close env with
                  | Ok _ => (x, t)
                  | Raise e => (Raise e, t)
                  end) = t).
  { intros A x t. destruct (db_close env); reflexivity. }
  split; [| split; [| split]].
  - unfold attempts, build_query.
    destruct (truthy_opt issue_type); reflexivity.
  - intros t. apply cascade_refines.
  - intros rows Hrows Hne.
    rewrite Hsnd, Hqs.
    destruct n as [| [| n]]; [lia | reflexivity |].
    exfalso. specialize (Hempty 0 (build_query issue_type v alpha true)).
    rewrite Hempty in Hrows; [| lia | reflexivity].
    injection Hrows as <-. congruence.
  - exists n. split; [exact Hn |]. split.
    + rewrite Hsnd. exact Hqs.
    + split; [exact Hempty |].
      exists q. split; [exact Hq |]. split; [exact Hstop |].
      intros rows Hrows Hclose. rewrite Hclose, Hres, Hrows. reflexivity.
Qed.

Lemma fallback_cascade_witness :
  let v := [Fin (1 # 10); Fin (2 # 10)] in
  let hint := Some "L3901"%string in
  queries_of
    (snd (find_similar_issues scenario_env "hydraulic oil leak" hint 5
            default_alpha default_min_cutoff []))
  = [ build_query hint v default_alpha true ]
  /\ queries_of
       (snd (find_similar_issues starving_env "hydraulic oil leak" hint 5
               default_alpha default_min_cutoff []))
     = [ build_query hint v default_alpha true;
         build_query hint v half true ].
Proof.
  cbv zeta. split.
  - destruct (fallback_cascade scenario_env "hydraulic oil leak"
                (Some "L3901"%string) 5 default_alpha default_min_cutoff
                [Fin (1 # 10); Fin (2 # 10)]
                eq_refl eq_refl eq_refl ltac:(discriminate))
      as [_ [_ [Hprimary _]]].
    apply (Hprimary scenario_cases); [reflexivity | discriminate].
  - destruct (fallback_cascade starving_env "hydraulic oil leak"
                (Some "L3901"%string) 5 default_alpha default_min_cutoff
                [Fin (1 # 10); Fin (2 # 10)]
                eq_refl eq_refl eq_refl ltac:(discriminate))
      as (_ & _ & _ & n & Hn & Hqs & Hempty & q & Hq & Hstop & _).
    destruct n as [| [| [| n]]].
    + lia.
    + exfalso. apply Hstop; [simpl; lia | reflexivity].
    + exact Hqs.
    + exfalso.
      specialize (Hempty 1 (build_query (Some "L3901"%string)
                              [Fin (1 # 10); Fin (2 # 10)] half true)).
      discriminate Hempty; [simpl; lia | reflexivity].
Defined.

(* ================================================================== *)
(** * The result of [find_similar_issues] *)

Lemma ge_le (x y : pyfloat) : PyFloat.ge x y = true -> PyFloat.le y x.
Proof.
  destruct x as [| a], y as [| b]; simpl; try discriminate.
  apply Qle_bool_iff.
Qed.

Lemma slice_to_firstn {A : Type} (l : list A) (n : Z) :
  exists m, slice_to l n = firstn m l /\ ((0 <= n)%Z -> m = Z.to_nat n).
Proof.
  unfold slice_to. destruct (Z.leb_spec 0 n).
  - exists (Z.to_nat n). auto.
  - exists (List.length l - Z.to_nat (- n)). split; [reflexivity | lia].
Qed.

Lemma strongly_sorted_firstn {A : Type} (R : A -> A -> Prop) (m : nat)
    (l : list A) :
  StronglySorted R l -> StronglySorted R (firstn m l).
Proof.
  revert l. induction m as [| m IH]; intros l Hs; simpl.
  - constructor.
  - destruct l as [| x l]; [constructor |].
    apply StronglySorted_inv in Hs as [Hs Hall].
    constructor; [now apply IH |].
    rewrite Forall_forall in *. intros y Hy. apply Hall.
    eapply in_firstn; eauto.
Qed.

(** Cutting the store's answer at [min_cutoff] leaves finite scores in
    decreasing order. *)
Lemma filter_descending (min_cutoff : pyfloat) (rows : list Case) :
  StronglySorted
    (fun r1 r2 => store_ge (similarity_score r1) (similarity_score r2))
    rows ->
  score_descending
    (filter (fun r => PyFloat.ge (similarity_score r) min_cutoff) rows).
Proof.
  unfold score_descending.
  induction 1 as [| r rows Hs IH Hall]; simpl; [constructor |].
  destruct (PyFloat.ge (similarity_score r) min_cutoff) eqn:Hr;
    [| assumption].
  constructor; [assumption |].
  rewrite Forall_forall in *. intros r' Hr'.
  apply filter_In in Hr' as [Hin Hge].
  specialize (Hall r' Hin).
  destruct (similarity_score r) as [| a]; [discriminate |].
  destruct (similarity_score r') as [| b]; [discriminate |].
  exact Hall.
Qed.

Lemma attempts_order_by (issue_type : option string) (v : list pyfloat)
    (alpha : pyfloat) (q : Query) :
  In q (attempts issue_type v alpha) ->
  q_order_by q = "similarity_score DESC"%string.
Proof.
  unfold attempts. destruct (truthy_opt issue_type); simpl;
    intuition (subst; auto).
Qed.

Lemma find_similar_issues_result (env : Env) (issue_text : string)
    (issue_type : option string) (limit : Z) (alpha min_cutoff : pyfloat)
    (t : list Event) (res : list Case) :
  fst (find_similar_issues env issue_text issue_type limit alpha min_cutoff t)
  = Ok res ->
  res = []
  \/ exists n q rows,
       store_execute env n q = Ok rows
       /\ q_order_by q = "similarity_score DESC"%string
       /\ res = cut min_cutoff limit rows.
Proof.
  unfold find_similar_issues.
  destruct (db_connect env); cbn [negb].
  2: { cbn. intros [= <-]. now left. }
  unfold try_finally, try_except, bind, lift.
  destruct (db_cursor env) as [[] | e0].
  2: { cbn. destruct (db_close env); cbn; intros [= <-]. now left. }
  destruct (generate_openai_embedding env issue_text t) as [[v | e] t0].
  2: { cbn. destruct (db_close env); cbn; intros [= <-]. now left. }
  destruct (nonempty v); cbn [negb].
  2: { cbn. destruct (db_close env); cbn; intros [= <-]. now left. }
  rewrite cascade_refines.
  destruct (first_non_empty_run env (attempts issue_type v alpha)
              (attempts_nonempty _ _ _) t0)
    as [n [_ [_ [_ [q [Hq [Hres _]]]]]]].
  apply nth_error_In, attempts_order_by in Hq.
  destruct (first_non_empty env (attempts issue_type v alpha) t0)
    as [[rows | e] t1]; cbn [fst] in Hres; cbn;
    destruct (db_close env); cbn; intros [= <-].
  - right. eauto 10.
  - now left.
Qed.

(** Every query a call sends has the [ORDER BY] clause. *)
Lemma find_similar_issues_order_by (env : Env) (issue_text : string)
    (issue_type : option string) (limit : Z) (alpha min_cutoff : pyfloat) :
  Forall (fun q => q_order_by q = "similarity_score DESC"%string)
         (queries_of
            (snd (find_similar_issues env issue_text issue_type limit alpha
                                      min_cutoff []))).
Proof.
  unfold find_similar_issues.
  destruct (db_connect env); cbn [negb]; [| constructor].
  unfold try_finally, try_except, bind, lift, ret.
  destruct (db_cursor env) as [[] | e0]; cbn [fst snd ret];
    [| destruct (db_close env); constructor].
  pose proof (generate_trace env issue_text []) as Hgen.
  destruct (generate_openai_embedding env issue_text []) as [[v | e] t0];
    cbn [fst snd queries_of] in *;
    [| destruct (db_close env); cbn [snd]; rewrite Hgen; constructor].
  destruct (nonempty v); cbn [negb fst snd ret];
    [| destruct (db_close env); cbn [snd]; rewrite Hgen; constructor].
  rewrite cascade_refines.
  destruct (first_non_empty_run env (attempts issue_type v alpha)
              (attempts_nonempty _ _ _) t0)
    as [n [_ [Htr _]]].
  destruct (first_non_empty env (attempts issue_type v alpha) t0)
    as [[rows | e] t1]; cbn [fst snd] in *; subst t1;
    destruct (db_close env); cbn [snd];
    rewrite queries_of_app, Hgen, queries_of_store;
    cbn [queries_of app];
    apply Forall_forall; intros q Hq; apply in_firstn in Hq;
    eapply attempts_order_by; eauto.
Qed.

(** C4.  [limit] is a number of cases: it is not negative.  Every call of
    [find_similar_issues] then returns at most [limit] cases, each with a
    score that is a number not below [min_cutoff]; every query the call
    sends asks the store for [ORDER BY similarity_score DESC], and when
    the store honours that clause the returned cases are in order of
    decreasing score. *)
Theorem search_result_bounds (env : Env) (issue_text : string)
    (issue_type : option string) (limit : Z) (alpha min_cutoff : pyfloat)
    (res : list Case) (tr : list Event) :
  (0 <= limit)%Z ->
  find_similar_issues env issue_text issue_type limit alpha min_cutoff []
  = (Ok res, tr) ->
  (Z.of_nat (List.length res) <= limit)%Z
  /\ Forall (fun r => PyFloat.le min_cutoff (similarity_score r)) res
  /\ Forall (fun q => q_order_by q = "similarity_score DESC"%string)
            (queries_of tr)
  /\ (store_ordered env -> score_descending res).
Proof.
  intros Hlim Hrun.
  assert (Hfst : fst (find_similar_issues env issue_text issue_type limit
                        alpha min_cutoff []) = Ok res)
    by now rewrite Hrun.
  pose proof (find_similar_issues_order_by env issue_text issue_type limit
                alpha min_cutoff) as Hqs.
  rewrite Hrun in Hqs. cbn [snd] in Hqs.
  apply find_similar_issues_result in Hfst
    as [-> | [n [q [rows [Hrows [Hq ->]]]]]].
  - split; [simpl; lia |]. split; [constructor |].
    split; [exact Hqs | intros _; constructor].
  - unfold cut.
    destruct (slice_to_firstn
                (filter (fun r => PyFloat.ge (similarity_score r) min_cutoff)
                        rows) limit) as [m [-> Hm]].
    split; [| split; [| split]].
    + rewrite (Hm Hlim).
      pose proof (firstn_le_length (Z.to_nat limit)
                    (filter (fun r => PyFloat.ge (similarity_score r)
                                                 min_cutoff) rows)).
      lia.
    + rewrite Forall_forall. intros r Hr. apply in_firstn in Hr.
      apply filter_In in Hr as [_ Hge]. now apply ge_le.
    + exact Hqs.
    + intros Hord. apply strongly_sorted_firstn.
      apply filter_descending. exact (Hord n q rows Hrows Hq).
Qed.

Lemma search_result_bounds_witness :
  let run :=
    find_similar_issues scenario_env "hydraulic oil leak" None 2
                        default_alpha default_min_cutoff [] in
  fst run = Ok (firstn 2 scenario_cases)
  /\ (Z.of_nat (List.length (firstn 2 scenario_cases)) <= 2)%Z
  /\ Forall (fun r => PyFloat.le default_min_cutoff (similarity_score r))
            (firstn 2 scenario_cases)
  /\ score_descending (firstn 2 scenario_cases).
Proof.
  cbv zeta. split; [vm_compute; reflexivity |].
  destruct (search_result_bounds scenario_env "hydraulic oil leak" None 2
              default_alpha default_min_cutoff (firstn 2 scenario_cases)
              [EmbeddingCall "hydraulic oil leak";
               StoreQuery (build_query None [Fin (1 # 10); Fin (2 # 10)]
                                       default_alpha true)]
              ltac:(lia) ltac:(vm_compute; reflexivity))
    as [Hlen [Hcut [_ Hord]]].
  split; [exact Hlen |]. split; [exact Hcut |].
  apply Hord. intros n q rows [= <-] _. unfold scenario_cases.
  repeat constructor; vm_compute; intros H; discriminate H.
Defined.

(* ================================================================== *)
(** * Empty query text *)

Lemma zero_vector_nonempty : zero_vector <> [].
Proof. unfold zero_vector. simpl. discriminate. Qed.

Lemma attempts_vector (issue_type : option string) (v : list pyfloat)
    (alpha : pyfloat) (q : Query) :
  In q (attempts issue_type v alpha) ->
  q_symptom_vector q = v /\ q_defect_vector q = v.
Proof.
  unfold attempts. destruct (truthy_opt issue_type); simpl;
    intuition (subst; auto).
Qed.

(** Rows whose score is undefined do not pass the cut-off, whatever the
    cut-off and the limit are. *)
Lemma cut_undefined (min_cutoff : pyfloat) (limit : Z) (rows : list Case) :
  Forall (fun r => similarity_score r = NaN) rows ->
  cut min_cutoff limit rows = [].
Proof.
  intros Hnan. unfold cut.
  assert (Hf : filter (fun r => PyFloat.ge (similarity_score r) min_cutoff)
                      rows = []).
  { induction Hnan as [| r rows Hr _ IH]; [reflexivity |].
    cbn [filter]. rewrite Hr. cbn [PyFloat.ge]. exact IH. }
  rewrite Hf. unfold slice_to. destruct (0 <=? limit)%Z.
  - now destruct (Z.to_nat limit).
  - reflexivity.
Qed.

(** C7, as stated, fails: with an empty text and a store whose scores
    against the all-zero vector are undefined, the embedding step returns
    the all-zero vector without a remote call and the result is empty, but
    the all-zero vector was sent to the store as the query vector of the
    primary query. *)
Lemma zero_vector_reaches_store :
  ~ (generate_openai_embedding undefined_score_env "" [] = (Ok zero_vector, [])
     /\ outcome (find_similar_issues undefined_score_env "" None
                   default_limit default_alpha default_min_cutoff) = Ok []
     /\ forall q,
          In q (queries_of
                  (snd (find_similar_issues undefined_score_env "" None
                          default_limit default_alpha default_min_cutoff
                          []))) ->
          q_symptom_vector q <> zero_vector).
Proof.
  intros [Hgen [Hres Hnever]].
  rewrite (find_similar_issues_connected undefined_score_env "" None
             default_limit default_alpha default_min_cutoff zero_vector []
             eq_refl eq_refl Hgen zero_vector_nonempty) in Hnever.
  apply (Hnever (build_query None zero_vector default_alpha true)).
  - left. reflexivity.
  - reflexivity.
Qed.

(** C7, amended.  For the empty text the embedding step returns the
    all-zero vector of length 1536 without calling the remote model, and
    [find_similar_issues] then returns an empty result set: every result it
    returns is empty, and it returns one unless closing the connection
    raises.  The all-zero vector is not held back, though: when the
    connection and its cursor open, the primary query goes to the store with
    the all-zero vector as query vector, and every query sent carries it.
    The result is empty because the store's scores against the all-zero
    vector are undefined, which is the hypothesis, and an undefined score
    fails the comparison with [min_cutoff]. *)
Theorem empty_text_search (env : Env) (issue_type : option string)
    (limit : Z) (alpha min_cutoff : pyfloat) :
  (forall n q rows,
     store_execute env n q = Ok rows ->
     q_symptom_vector q = zero_vector ->
     q_defect_vector q = zero_vector ->
     Forall (fun r => similarity_score r = NaN) rows) ->
  let run :=
    find_similar_issues env "" issue_type limit alpha min_cutoff [] in
  let primary := build_query issue_type zero_vector alpha true in
  generate_openai_embedding env "" [] = (Ok zero_vector, [])
  /\ List.length zero_vector = 1536
  /\ Forall (fun x => x = Fin 0) zero_vector
  /\ embedding_calls_of (snd run) = []
  /\ (forall res, fst run = Ok res -> res = [])
  /\ (db_connect env = false \/ db_close env = Ok tt -> fst run = Ok [])
  /\ (db_connect env = true ->
      db_cursor env = Ok tt ->
      hd_error (queries_of (snd run)) = Some primary
      /\ Forall (fun q => q_symptom_vector q = zero_vector
                          /\ q_defect_vector q = zero_vector)
                (queries_of (snd run))).
Proof.
  intros Hstore. cbv zeta.
  split; [reflexivity |].
  split; [apply repeat_length |].
  split; [apply Forall_forall; intros x Hx;
          exact (repeat_spec _ _ _ Hx) |].
  destruct (db_connect env) eqn:Hconn.
  2: { assert (Hrun : find_similar_issues env "" issue_type limit alpha
                        min_cutoff [] = (Ok [], [])).
       { unfold find_similar_issues. rewrite Hconn. reflexivity. }
       rewrite Hrun. cbn [fst snd].
       split; [reflexivity |]. split; [now intros res [= <-] |].
       split; [reflexivity | discriminate]. }
  destruct (db_cursor env) as [[] | e0] eqn:Hcur.
  2: { assert (Hrun : find_similar_issues env "" issue_type limit alpha
                        min_cutoff []
                      = match db_close env with
                        | Ok _ => (Ok [], [])
                        | Raise e => (Raise e, [])
                        end).
       { unfold find_similar_issues. rewrite Hconn. cbn [negb].
         unfold try_finally, try_except, bind, lift. rewrite Hcur.
         cbn. destruct (db_close env); reflexivity. }
       rewrite Hrun.
       split; [destruct (db_close env); reflexivity |].
       split; [destruct (db_close env); cbn [fst];
               [now intros res [= <-] | discriminate] |].
       split; [| discriminate].
       intros [Hd | Hclose]; [discriminate | now rewrite Hclose]. }
  pose proof (find_similar_issues_connected env "" issue_type limit alpha
                min_cutoff zero_vector [] Hconn Hcur eq_refl
                zero_vector_nonempty) as Hrun.
  cbv zeta in Hrun.
  destruct (first_non_empty_run env (attempts issue_type zero_vector alpha)
              (attempts_nonempty _ _ _) [])
    as [n [Hn [Htr [Hempty [q [Hq [Hres Hstop]]]]]]].
  cbn [queries_of List.length Nat.add app] in *.
  assert (Hsnd : snd (find_similar_issues env "" issue_type limit alpha
                        min_cutoff [])
                 = map StoreQuery
                       (firstn n (attempts issue_type zero_vector alpha))).
  { rewrite Hrun, <- Htr. destruct (db_close env); reflexivity. }
  assert (Hcut : match fst (first_non_empty env
                              (attempts issue_type zero_vector alpha) []) with
                 | Ok rows => Ok (cut min_cutoff limit rows)
                 | Raise _ => Ok []
                 end = Ok (@nil Case)).
  { rewrite Hres.
    destruct (store_execute env (n - 1) q) as [rows | e] eqn:Hrows;
      [| reflexivity].
    apply nth_error_In in Hq.
    destruct (attempts_vector _ _ _ _ Hq) as [Hs Hd].
    now rewrite (cut_undefined min_cutoff limit rows
                   (Hstore _ _ _ Hrows Hs Hd)). }
  rewrite Hcut in Hrun.
  rewrite Hsnd, queries_of_store, embedding_calls_of_store.
  split; [reflexivity |].
  split; [rewrite Hrun; destruct (db_close env); cbn [fst];
          [now intros res [= <-] | discriminate] |].
  split; [intros [Hd | Hclose]; [discriminate |];
          rewrite Hrun, Hclose; reflexivity |].
  intros _ _. split.
  - destruct n as [| n]; [lia |]. reflexivity.
  - apply Forall_forall. intros q' Hq'. apply in_firstn in Hq'.
    eapply attempts_vector; eauto.
Qed.

Lemma empty_text_search_witness :
  outcome (find_similar_issues undefined_score_env "" None default_limit
                               default_alpha default_min_cutoff)
  = Ok []
  /\ hd_error (queries_of
                 (snd (find_similar_issues undefined_score_env "" None
                         default_limit default_alpha default_min_cutoff [])))
     = Some (build_query None zero_vector default_alpha true).
Proof.
  assert (Hstore : forall n q rows,
             store_execute undefined_score_env n q = Ok rows ->
             q_symptom_vector q = zero_vector ->
             q_defect_vector q = zero_vector ->
             Forall (fun r => similarity_score r = NaN) rows).
  { intros n q rows [= <-] _ _. repeat constructor. }
  destruct (empty_text_search undefined_score_env None default_limit
              default_alpha default_min_cutoff Hstore)
    as [_ [_ [_ [_ [_ [Hres Hsent]]]]]].
  split.
  - exact (Hres (or_intror eq_refl)).
  - exact (proj1 (Hsent eq_refl eq_refl)).
Defined.

(* ================================================================== *)
(** * The nodes, one at a time *)

Ltac run_node :=
  unfold node, try_except, bind, stage, log, modify, get, lift, ret;
  cbn [fst snd].

Ltac fields :=
  cbn [user_issue machine_series user_id ticket_id processed_symptoms
       embedding_vector similar_cases recommended_parts confidence_scores
       inventory_status final_recommendations explanation next_actions
       workflow_stage processing_log error_message
       append_log set_processed_symptoms set_embedding_vector
       set_similar_cases set_recommended_parts set_confidence_scores
       set_inventory_status set_final_recommendations set_explanation
       set_next_actions set_workflow_stage set_processing_log
       set_error_message];
  rewrite ?length_app; cbn [List.length].

(** What the later nodes and the caller can observe of one step: the node
    returned, it logged [logged] entries, and it left the embedding, the
    similar cases and the error message as [emb], [cases] and [err]. *)
Definition step (st st' : KubotaAIState) (logged : nat)
    (emb : option (list pyfloat)) (cases : list Case) (err : option string)
  : Prop :=
  List.length (processing_log st') = List.length (processing_log st) + logged
  /\ embedding_vector st' = emb
  /\ similar_cases st' = cases
  /\ error_message st' = err
  /\ user_issue st' = user_issue st.

Definition symptom_analyzer_post (env : Env) (st st' : KubotaAIState)
  : Prop :=
  match suggest_technical_symptoms env (user_issue st)
          (or_empty (machine_series st)) with
  | Ok _ =>
      step st st' 2 (embedding_vector st) (similar_cases st)
           (error_message st)
  | Raise e =>
      step st st' 1 (embedding_vector st) (similar_cases st)
           (Some ("Symptom analysis failed: " ++ e)%string)
      /\ processed_symptoms st' = [user_issue st]
  end.

Definition embedding_generator_post (env : Env) (st st' : KubotaAIState)
  : Prop :=
  match embeddings_create env (search_text st) with
  | Ok v => step st st' 2 (Some v) (similar_cases st) (error_message st)
  | Raise e =>
      step st st' 1 None (similar_cases st)
           (Some ("Embedding generation failed: " ++ e)%string)
  end.

Definition similarity_searcher_post (env : Env) (st st' : KubotaAIState)
  : Prop :=
  let extra := if has_embedding st then 0 else 1 in
  match search_call env st with
  | Ok found =>
      step st st' (2 + extra) (embedding_vector st) found (error_message st)
  | Raise e =>
      step st st' (1 + extra) (embedding_vector st) []
           (Some ("Similarity search failed: " ++ e)%string)
  end.

Definition parts_recommender_post (st st' : KubotaAIState) : Prop :=
  step st st' (if nonempty (similar_cases st) then 2 else 1)
       (embedding_vector st) (similar_cases st) (error_message st)
  /\ recommended_parts st'
     = if nonempty (similar_cases st)
       then map format_part (extract_recommended_parts (similar_cases st))
       else [].

Definition inventory_checker_post (st st' : KubotaAIState) : Prop :=
  step st st' 2 (embedding_vector st) (similar_cases st) (error_message st)
  /\ recommended_parts st' = recommended_parts st
  /\ has_out_of_stock (inventory_status st') = false.

Definition confidence_evaluator_post (env : Env) (st st' : KubotaAIState)
  : Prop :=
  step st st' 2 (embedding_vector st) (similar_cases st) (error_message st)
  /\ recommended_parts st' = recommended_parts st
  /\ inventory_status st' = inventory_status st
  /\ let case_similarity :=
       PyFloat.mean64 (compensated_sum env)
                      (map similarity_score (similar_cases st)) in
     let parts_confidence :=
       PyFloat.mean64 (compensated_sum env)
                      (map rp_confidence (recommended_parts st)) in
     let overall :=
       PyFloat.add64 (PyFloat.mul64 case_similarity (Fin (4 # 10)))
                     (PyFloat.mul64 parts_confidence (Fin (6 # 10))) in
     confidence_scores st'
     = Scores case_similarity parts_confidence overall (tier overall).

Definition recommendation_formatter_post (st st' : KubotaAIState) : Prop :=
  step st st' 2 (embedding_vector st) (similar_cases st) (error_message st)
  /\ workflow_stage st' = "completed"%string
  /\ last (processing_log st') ""%string
     = "Workflow completed successfully"%string
  /\ final_recommendations st'
     = sort_by_confidence (map final_recommendation (recommended_parts st)).

Lemma symptom_analyzer_spec (env : Env) (st : KubotaAIState) :
  exists st',
    symptom_analyzer_node env st = Ok st'
    /\ symptom_analyzer_post env st st'.
Proof.
  unfold symptom_analyzer_node, symptom_analyzer_body, symptom_analyzer_handler,
    symptom_analyzer_post. run_node. fields.
  destruct (suggest_technical_symptoms env (user_issue st)
              (or_empty (machine_series st))) as [syms | e];
    eexists; (split; [reflexivity |]); unfold step; fields;
    repeat split; lia.
Qed.

Lemma embedding_generator_spec (env : Env) (st : KubotaAIState) :
  exists st',
    embedding_generator_node env st = Ok st'
    /\ embedding_generator_post env st st'.
Proof.
  unfold embedding_generator_node, embedding_generator_body, embedding_generator_handler,
    embedding_generator_post, search_text.
  run_node. fields.
  destruct (embeddings_create env
              (String.concat " " (processed_symptoms st))) as [v | e];
    eexists; (split; [reflexivity |]); unfold step; fields;
    repeat split; lia.
Qed.

Lemma similarity_searcher_spec (env : Env) (st : KubotaAIState) :
  exists st',
    similarity_searcher_node env st = Ok st'
    /\ similarity_searcher_post env st st'.
Proof.
  unfold similarity_searcher_node, similarity_searcher_body, similarity_searcher_handler,
    similarity_searcher_post, search_call.
  run_node. fields. unfold has_embedding. fields.
  destruct (match embedding_vector st with
            | Some v => nonempty v
            | None => false
            end); cbn [negb]; run_node; fields;
    match goal with
    | |- context [outcome ?m] => destruct (outcome m) as [found | e]
    end;
    eexists; (split; [reflexivity |]); unfold step; fields;
    repeat split; lia.
Qed.

Lemma parts_recommender_spec (env : Env) (st : KubotaAIState) :
  exists st',
    parts_recommender_node env st = Ok st'
    /\ parts_recommender_post st st'.
Proof.
  unfold parts_recommender_node, parts_recommender_body, parts_recommender_handler,
    parts_recommender_post. run_node. fields.
  destruct (nonempty (similar_cases st)); cbn [negb]; run_node;
    eexists; (split; [reflexivity |]); unfold step; fields;
    repeat split; lia.
Qed.

Lemma inventory_checker_spec (env : Env) (st : KubotaAIState) :
  exists st',
    inventory_checker_node env st = Ok st'
    /\ inventory_checker_post st st'.
Proof.
  unfold inventory_checker_node, inventory_checker_body, inventory_checker_handler,
    inventory_checker_post. run_node.
  eexists; (split; [reflexivity |]); unfold step; fields.
  repeat split; lia.
Qed.

Lemma confidence_evaluator_spec (env : Env) (st : KubotaAIState) :
  exists st',
    confidence_evaluator_node env st = Ok st'
    /\ confidence_evaluator_post env st st'.
Proof.
  unfold confidence_evaluator_node, confidence_evaluator_body, confidence_evaluator_handler,
    confidence_evaluator_post. run_node.
  eexists; (split; [reflexivity |]); unfold step; fields.
  repeat split; lia.
Qed.

Lemma recommendation_formatter_spec (env : Env) (st : KubotaAIState) :
  exists st',
    recommendation_formatter_node env st = Ok st'
    /\ recommendation_formatter_post st st'.
Proof.
  unfold recommendation_formatter_node, recommendation_formatter_body, recommendation_formatter_handler,
    recommendation_formatter_post.
  run_node.
  eexists; (split; [reflexivity |]); unfold step; fields.
  repeat split; try lia. apply last_last.
Qed.

(** The workflow visits the seven nodes in order and none of them raises. *)
Lemma workflow_chain (env : Env) (st : KubotaAIState) :
  exists s1 s2 s3 s4 s5 s6 s7,
    run_workflow env st = Ok s7
    /\ (symptom_analyzer_node env st = Ok s1
        /\ symptom_analyzer_post env st s1)
    /\ (embedding_generator_node env s1 = Ok s2
        /\ embedding_generator_post env s1 s2)
    /\ (similarity_searcher_node env s2 = Ok s3
        /\ similarity_searcher_post env s2 s3)
    /\ (parts_recommender_node env s3 = Ok s4
        /\ parts_recommender_post s3 s4)
    /\ (inventory_checker_node env s4 = Ok s5
        /\ inventory_checker_post s4 s5)
    /\ (confidence_evaluator_node env s5 = Ok s6
        /\ confidence_evaluator_post env s5 s6)
    /\ (recommendation_formatter_node env s6 = Ok s7
        /\ recommendation_formatter_post s6 s7).
Proof.
  destruct (symptom_analyzer_spec env st) as [s1 [E1 P1]].
  destruct (embedding_generator_spec env s1) as [s2 [E2 P2]].
  destruct (similarity_searcher_spec env s2) as [s3 [E3 P3]].
  destruct (parts_recommender_spec env s3) as [s4 [E4 P4]].
  destruct (inventory_checker_spec env s4) as [s5 [E5 P5]].
  destruct (confidence_evaluator_spec env s5) as [s6 [E6 P6]].
  destruct (recommendation_formatter_spec env s6) as [s7 [E7 P7]].
  exists s1, s2, s3, s4, s5, s6, s7.
  split.
  - unfold run_workflow, workflow_nodes. cbn [run_nodes].
    now rewrite E1, E2, E3, E4, E5, E6, E7.
  - exact (conj (conj E1 P1) (conj (conj E2 P2) (conj (conj E3 P3)
            (conj (conj E4 P4) (conj (conj E5 P5) (conj (conj E6 P6)
               (conj E7 P7))))))).
Qed.

Lemma invoke_outcome (env : Env) (st : KubotaAIState) :
  match graph_fault env with
  | Some e => invoke env st = Raise e
  | None => invoke env st = run_workflow env st
  end.
Proof. unfold invoke. destruct (graph_fault env); reflexivity. Qed.

(* ================================================================== *)
(** * The confidence evaluator *)

Lemma gt_lt (x y : pyfloat) : PyFloat.gt x y = true <-> PyFloat.lt y x.
Proof.
  destruct x as [| a], y as [| b]; cbn [PyFloat.gt PyFloat.lt];
    try (split; [discriminate | tauto]).
  generalize (PyFloat.b64 a) as a'. generalize (PyFloat.b64 b) as b'.
  intros b' a'. rewrite negb_true_iff. split.
  - intros H. apply Qnot_le_lt. intros Hle.
    apply Qle_bool_iff in Hle. congruence.
  - intros H. destruct (Qle_bool a' b') eqn:E; [| reflexivity].
    apply Qle_bool_iff in E. exfalso. now apply (Qlt_not_le b' a').
Qed.




(** Two cases that score 0.75 and parts of mean confidence 0.5: the blend
    is the float 0.6000000000000001, which is above 0.6. *)
Example blend_rounds_as_binary64 :
  let st :=
    set_recommended_parts
      [ mkRecommendedPart "7J065-85200" (Fin (1 # 2)) 1 "Historical data" [] ]
      (set_similar_cases
         [ case_with None (75 # 100); case_with None (75 # 100) ]
         (initial_state scenario_issue None None None)) in
  exists st',
    confidence_evaluator_node scenario_env st = Ok st'
    /\ confidence_scores st'
       = Scores (Fin (3 # 4)) (Fin (1 # 2))
                (Fin (1351079888211149 # 2251799813685248)) "medium".
Proof. cbv zeta. eexists. split; vm_compute; reflexivity. Qed.

(* ================================================================== *)
(** * Failure containment, the processing log and [process_issue] *)

(** An exception of the [try] block reaches the handler with the state as
    it was when the exception was raised. *)
Lemma node_catches (body : N unit) (handler : string -> N unit)
    (s s' : KubotaAIState) (e : string) :
  body s = (Raise e, s') ->
  node body handler s
  = match handler e s' with
    | (Ok _, s'') => Ok s''
    | (Raise e', _) => Raise e'
    end.
Proof. intros H. unfold node, try_except. now rewrite H. Qed.

(** C8.  Whatever an outside call of a stage does, the node of that stage
    returns a state: when the symptom service, the embedding call or the
    search raises, the node records "<stage> failed: <exception>" as the
    error message and puts the safe default in place (the original issue
    text as the only processed symptom, no embedding, no similar cases).
    The four later nodes make no call that can raise.  From every state the
    workflow runs through all seven nodes to "completed"; when exactly one
    of the three stages failed, its error message is still on the final
    state.  More generally, whatever the [try] block of a node does, an
    exception it raises is caught by the node's handler, which returns a
    state carrying the text of the exception: in [error_message] for nodes
    1 to 4 and 7, under the "error" key of the stage's own dict for nodes 5
    and 6. *)
Theorem failure_containment (env : Env) (st : KubotaAIState) :
  (exists st',
     symptom_analyzer_node env st = Ok st'
     /\ forall e,
          suggest_technical_symptoms env (user_issue st)
            (or_empty (machine_series st)) = Raise e ->
          error_message st'
          = Some ("Symptom analysis failed: " ++ e)%string
          /\ processed_symptoms st' = [user_issue st])
  /\ (exists st',
        embedding_generator_node env st = Ok st'
        /\ forall e,
             embeddings_create env (search_text st) = Raise e ->
             error_message st'
             = Some ("Embedding generation failed: " ++ e)%string
             /\ embedding_vector st' = None)
  /\ (exists st',
        similarity_searcher_node env st = Ok st'
        /\ forall e,
             search_call env st = Raise e ->
             error_message st'
             = Some ("Similarity search failed: " ++ e)%string
             /\ similar_cases st' = [])
  /\ (exists st', parts_recommender_node env st = Ok st')
  /\ (exists st', inventory_checker_node env st = Ok st')
  /\ (exists st', confidence_evaluator_node env st = Ok st')
  /\ (exists st', recommendation_formatter_node env st = Ok st')
  /\ exists s1 s2 final,
       symptom_analyzer_node env st = Ok s1
       /\ embedding_generator_node env s1 = Ok s2
       /\ run_workflow env st = Ok final
       /\ workflow_stage final = "completed"%string
       /\ last (processing_log final) ""%string
          = "Workflow completed successfully"%string
       /\ (forall e,
             search_call env s2 = Raise e ->
             error_message final
             = Some ("Similarity search failed: " ++ e)%string
             /\ similar_cases final = [])
       /\ (forall e found,
             embeddings_create env (search_text s1) = Raise e ->
             search_call env s2 = Ok found ->
             error_message final
             = Some ("Embedding generation failed: " ++ e)%string
             /\ embedding_vector final = None)
       /\ (forall e v found,
             suggest_technical_symptoms env (user_issue st)
               (or_empty (machine_series st)) = Raise e ->
             embeddings_create env (search_text s1) = Ok v ->
             search_call env s2 = Ok found ->
             error_message final
             = Some ("Symptom analysis failed: " ++ e)%string)
       /\ forall (body : N unit) (s s' : KubotaAIState) (e : string),
            body s = (Raise e, s') ->
            (exists st',
               node body symptom_analyzer_handler s = Ok st'
               /\ error_message st'
                  = Some ("Symptom analysis failed: " ++ e)%string
               /\ processed_symptoms st' = [user_issue s'])
            /\ (exists st',
                  node body embedding_generator_handler s = Ok st'
                  /\ error_message st'
                     = Some ("Embedding generation failed: " ++ e)%string
                  /\ embedding_vector st' = None)
            /\ (exists st',
                  node body similarity_searcher_handler s = Ok st'
                  /\ error_message st'
                     = Some ("Similarity search failed: " ++ e)%string
                  /\ similar_cases st' = [])
            /\ (exists st',
                  node body parts_recommender_handler s = Ok st'
                  /\ error_message st'
                     = Some ("Parts recommendation failed: " ++ e)%string
                  /\ recommended_parts st' = [])
            /\ (exists st',
                  node body inventory_checker_handler s = Ok st'
                  /\ inventory_status st' = InventoryError e)
            /\ (exists st',
                  node body confidence_evaluator_handler s = Ok st'
                  /\ confidence_scores st' = ScoresError e)
            /\ (exists st',
                  node body recommendation_formatter_handler s = Ok st'
                  /\ error_message st'
                     = Some ("Formatting failed: " ++ e)%string).
Proof.
  split.
  { destruct (symptom_analyzer_spec env st) as [st' [E P]].
    exists st'. split; [exact E |]. intros e He.
    unfold symptom_analyzer_post in P. rewrite He in P.
    unfold step in P. tauto. }
  split.
  { destruct (embedding_generator_spec env st) as [st' [E P]].
    exists st'. split; [exact E |]. intros e He.
    unfold embedding_generator_post in P. rewrite He in P.
    unfold step in P. tauto. }
  split.
  { destruct (similarity_searcher_spec env st) as [st' [E P]].
    exists st'. split; [exact E |]. intros e He.
    unfold similarity_searcher_post in P. cbv zeta in P. rewrite He in P.
    unfold step in P. tauto. }
  split.
  { destruct (parts_recommender_spec env st) as [st' [E _]]. eauto. }
  split.
  { destruct (inventory_checker_spec env st) as [st' [E _]]. eauto. }
  split.
  { destruct (confidence_evaluator_spec env st) as [st' [E _]]. eauto. }
  split.
  { destruct (recommendation_formatter_spec env st) as [st' [E _]]. eauto. }
  destruct (workflow_chain env st)
    as (s1 & s2 & s3 & s4 & s5 & s6 & s7 & Hrun
        & [E1 P1] & [E2 P2] & [E3 P3] & [_ P4] & [_ P5] & [_ P6] & [_ P7]).
  exists s1, s2, s7.
  unfold symptom_analyzer_post, embedding_generator_post,
    similarity_searcher_post, parts_recommender_post,
    inventory_checker_post, confidence_evaluator_post,
    recommendation_formatter_post in *.
  cbv zeta in P3.
  destruct P4 as [[_ [B4 [C4 [D4 _]]]] _].
  destruct P5 as [[_ [B5 [C5 [D5 _]]]] _].
  destruct P6 as [[_ [B6 [C6 [D6 _]]]] _].
  destruct P7 as [[_ [B7 [C7 [D7 _]]]] [Hstage [Hlast _]]].
  assert (Herr : error_message s7 = error_message s3) by congruence.
  assert (Hcases : similar_cases s7 = similar_cases s3) by congruence.
  assert (Hemb : embedding_vector s7 = embedding_vector s3) by congruence.
  repeat (split; [assumption |]).
  split; [| split; [| split]].
  - intros e He. rewrite He in P3. unfold step in P3.
    rewrite Herr, Hcases. tauto.
  - intros e found He Hfound. rewrite He in P2. rewrite Hfound in P3.
    unfold step in P2, P3. rewrite Herr, Hemb.
    destruct P3 as [_ [-> [_ [-> _]]]]. tauto.
  - intros e v found He Hv Hfound.
    rewrite He in P1. rewrite Hv in P2. rewrite Hfound in P3.
    unfold step in P1, P2, P3. rewrite Herr.
    destruct P3 as [_ [_ [_ [-> _]]]].
    destruct P2 as [_ [_ [_ [-> _]]]]. tauto.
  - intros body s s' e Hbody.
    repeat split; rewrite (node_catches _ _ _ _ _ Hbody);
      eexists; (split; [reflexivity |]); repeat split.
Qed.

Lemma failure_containment_witness :
  exists st',
    embedding_generator_node quota_env
      (initial_state scenario_issue None None None) = Ok st'
    /\ error_message st'
       = Some "Embedding generation failed: quota exceeded"%string
    /\ embedding_vector st' = None.
Proof.
  destruct (failure_containment quota_env
              (initial_state scenario_issue None None None))
    as [_ [[st' [Hrun Hfail]] _]].
  exists st'. split; [exact Hrun |].
  exact (Hfail "quota exceeded"%string eq_refl).
Defined.

(** C9, as stated, fails: in the scenario, where every stage succeeds, the
    log has 14 entries, not 7. *)
Lemma successful_run_log_not_seven :
  ~ (forall final,
       invoke scenario_env (initial_state scenario_issue None None None)
       = Ok final ->
       error_message final = None ->
       List.length (processing_log final) = 7).
Proof.
  intros H.
  assert (Hrun : exists final,
             invoke scenario_env (initial_state scenario_issue None None None)
             = Ok final
             /\ error_message final = None
             /\ List.length (processing_log final) = 14).
  { eexists. split; [vm_compute; reflexivity |].
    split; reflexivity. }
  destruct Hrun as [final [Hfinal [Herr Hlen]]].
  rewrite (H final Hfinal Herr) in Hlen. discriminate.
Qed.

(** C9, amended.  On a run in which no stage records an error and the
    embedding returned is not empty, the processing log of the final state
    has exactly 14 entries when similar cases were found and 13 when none
    was: every stage logs once when it starts and once when it is done,
    except that the parts recommender returns before its second entry when
    there is no similar case. *)
Theorem successful_run_log_length (env : Env) (issue : string)
    (series : option string) (uid tid : option Z) (final : KubotaAIState) :
  invoke env (initial_state issue series uid tid) = Ok final ->
  error_message final = None ->
  has_embedding final = true ->
  List.length (processing_log final)
  = if nonempty (similar_cases final) then 14 else 13.
Proof.
  intros Hinv Herr Hemb.
  pose proof (invoke_outcome env (initial_state issue series uid tid)) as Ho.
  destruct (graph_fault env); [congruence |].
  rewrite Ho in Hinv. clear Ho.
  destruct (workflow_chain env (initial_state issue series uid tid))
    as (s1 & s2 & s3 & s4 & s5 & s6 & s7 & Hrun
        & [_ P1] & [_ P2] & [_ P3] & [_ P4] & [_ P5] & [_ P6] & [_ P7]).
  rewrite Hrun in Hinv. injection Hinv as ->.
  unfold symptom_analyzer_post, embedding_generator_post,
    similarity_searcher_post, parts_recommender_post,
    inventory_checker_post, confidence_evaluator_post,
    recommendation_formatter_post in *.
  cbv zeta in P3.
  destruct P4 as [[A4 [B4 [C4 [D4 _]]]] _].
  destruct P5 as [[A5 [B5 [C5 [D5 _]]]] _].
  destruct P6 as [[A6 [B6 [C6 [D6 _]]]] _].
  destruct P7 as [[A7 [B7 [C7 [D7 _]]]] _].
  assert (Herr3 : error_message s3 = None) by congruence.
  assert (Hcases : similar_cases final = similar_cases s3) by congruence.
  assert (Hemb3 : embedding_vector final = embedding_vector s3)
    by congruence.
  destruct (search_call env s2) as [found | e];
    destruct P3 as [A3 [B3 [C3 [D3 _]]]]; [| congruence].
  assert (Herr2 : error_message s2 = None) by congruence.
  destruct (embeddings_create env (search_text s1)) as [v | e];
    destruct P2 as [A2 [B2 [C2 [D2 _]]]]; [| congruence].
  assert (Herr1 : error_message s1 = None) by congruence.
  destruct (suggest_technical_symptoms env
              (user_issue (initial_state issue series uid tid))
              (or_empty (machine_series
                           (initial_state issue series uid tid))))
    as [syms | e].
  2: { destruct P1 as [[_ [_ [_ [D1 _]]]] _]. congruence. }
  destruct P1 as [A1 _].
  assert (Hhas : has_embedding s2 = true).
  { unfold has_embedding in *. rewrite Hemb3, B3 in Hemb. exact Hemb. }
  rewrite Hhas in A3. rewrite Hcases.
  cbn [initial_state processing_log List.length] in A1.
  destruct (nonempty (similar_cases s3)); lia.
Qed.

Lemma successful_run_log_length_witness :
  exists final,
    invoke scenario_env (initial_state scenario_issue None None None)
    = Ok final
    /\ List.length (processing_log final) = 14.
Proof.
  assert (Hrun : exists final,
             invoke scenario_env (initial_state scenario_issue None None None)
             = Ok final
             /\ error_message final = None
             /\ has_embedding final = true
             /\ nonempty (similar_cases final) = true).
  { eexists. split; [vm_compute; reflexivity |].
    repeat split; reflexivity. }
  destruct Hrun as [final [Hfinal [Herr [Hemb Hcases]]]].
  exists final. split; [exact Hfinal |].
  rewrite (successful_run_log_length scenario_env scenario_issue None None
             None final Hfinal Herr Hemb).
  now rewrite Hcases.
Defined.

(** C10.  [process_issue] answers [success=True] whenever the workflow
    yields a final state, whatever error message that state carries, and so
    in every world where the graph library itself does not fail; it answers
    [success=False] only when the orchestration raised, and then
    [final_recommendations] is empty and the explanation is
    "Workflow failed: " followed by the exception. *)
Theorem process_issue_success (env : Env) (issue : string)
    (series : option string) (uid tid : option Z) :
  let r := process_issue env issue series uid tid in
  (forall final,
     invoke env (initial_state issue series uid tid) = Ok final ->
     success r = true
     /\ r_error_message r = error_message final
     /\ r_final_recommendations r = final_recommendations final)
  /\ (graph_fault env = None -> success r = true)
  /\ (success r = false ->
      exists e,
        invoke env (initial_state issue series uid tid) = Raise e
        /\ graph_fault env = Some e
        /\ r_final_recommendations r = []
        /\ r_explanation r = ("Workflow failed: " ++ e)%string
        /\ PyStr.startswith "Workflow failed:" (r_explanation r) = true).
Proof.
  cbv zeta. unfold process_issue.
  pose proof (invoke_outcome env (initial_state issue series uid tid)) as Ho.
  destruct (workflow_chain env (initial_state issue series uid tid))
    as (s1 & s2 & s3 & s4 & s5 & s6 & s7 & Hrun & _).
  destruct (graph_fault env) as [e |].
  - rewrite Ho. split; [discriminate |]. split; [discriminate |].
    intros _. exists e. repeat split; reflexivity.
  - rewrite Ho, Hrun. split.
    + intros final [= <-]. repeat split; reflexivity.
    + split; [reflexivity | discriminate].
Qed.

Lemma process_issue_success_witness :
  success (process_issue quota_env scenario_issue None None None) = true
  /\ r_error_message (process_issue quota_env scenario_issue None None None)
     = Some "Embedding generation failed: quota exceeded"%string
  /\ r_explanation
       (process_issue broken_graph_env scenario_issue None None None)
     = "Workflow failed: recursion limit reached"%string.
Proof.
  assert (Hrun : exists final,
             invoke quota_env (initial_state scenario_issue None None None)
             = Ok final
             /\ error_message final
                = Some "Embedding generation failed: quota exceeded"%string).
  { eexists. split; [vm_compute; reflexivity | reflexivity]. }
  destruct Hrun as [final [Hfinal Herr]].
  destruct (process_issue_success quota_env scenario_issue None None None)
    as [Hok _].
  destruct (Hok final Hfinal) as [Hs [He _]].
  split; [exact Hs |]. split; [now rewrite He |].
  destruct (process_issue_success broken_graph_env scenario_issue None None
              None) as [_ [_ Hfail]].
  destruct (Hfail eq_refl) as [e [Hraise [Hfault [_ [Hexp _]]]]].
  injection Hfault as <-. exact Hexp.
Defined.

(* ================================================================== *)
(** * More on [extract_recommended_parts] *)

From Stdlib Require Import Permutation.

Lemma insert_desc_perm (x : string * nat) (l : list (string * nat)) :
  Permutation (insert_desc x l) (x :: l).
Proof.
  induction l as [| y l IH]; simpl; [reflexivity |].
  destruct (snd x <? snd y); [| reflexivity].
  rewrite IH. apply perm_swap.
Qed.

Lemma sorted_desc_perm (l : list (string * nat)) :
  Permutation (sorted_desc l) l.
Proof.
  induction l as [| x l IH]; simpl; [reflexivity |].
  rewrite insert_desc_perm. now constructor.
Qed.

Lemma nodup_firstn {A : Type} (n : nat) (l : list A) :
  NoDup l -> NoDup (firstn n l).
Proof.
  intros H. rewrite <- (firstn_skipn n l) in H.
  now apply NoDup_app_remove_r in H.
Qed.

(** The part and the count of a recommendation. *)
Definition counted (r : PartRecommendation) : string * nat :=
  (part_number r, frequency r).

(** Which parts are returned, and with which counts, does not depend on
    the number of cases. *)
Lemma extract_counted (cases : list Case) :
  map counted (extract_recommended_parts cases)
  = firstn 10 (sorted_desc (parts_frequency cases)).
Proof.
  unfold extract_recommended_parts.
  rewrite <- firstn_map, map_map.
  f_equal. rewrite <- (map_id (sorted_desc (parts_frequency cases))) at 2.
  apply map_ext. intros [k v]. reflexivity.
Qed.

Lemma parts_frequency_nodup (cases : list Case) :
  NoDup (map fst (parts_frequency cases)).
Proof.
  rewrite parts_frequency_keys.
  apply (add_key_order (all_tokens cases)).
Qed.

(** The returned part numbers are pairwise distinct; the frequency of each
    is the number of times its token occurs in the parts fields of the
    cases, which is at least one; the justification reads
    "<frequency>/<number of cases> similar cases"; and when the cases name
    at most 10 distinct parts, every one of them is returned. *)
Theorem extract_counts_occurrences (cases : list Case) :
  NoDup (map part_number (extract_recommended_parts cases))
  /\ (forall r,
        In r (extract_recommended_parts cases) ->
        frequency r
        = count_occ string_dec (all_tokens cases) (part_number r)
        /\ 1 <= frequency r
        /\ recommended_from r
           = (PyStr.of_nat (frequency r) ++ "/"
              ++ PyStr.of_nat (List.length cases) ++ " similar cases")%string)
  /\ (List.length (nodup string_dec (all_tokens cases)) <= 10 ->
      forall p,
        In p (all_tokens cases) ->
        In p (map part_number (extract_recommended_parts cases))).
Proof.
  split; [| split].
  - replace (map part_number (extract_recommended_parts cases))
      with (map fst (map counted (extract_recommended_parts cases)))
      by (rewrite map_map; reflexivity).
    rewrite extract_counted, <- firstn_map. apply nodup_firstn.
    apply (Permutation_NoDup
             (Permutation_map fst
                (Permutation_sym (sorted_desc_perm (parts_frequency cases))))).
    apply parts_frequency_nodup.
  - intros r Hin. apply extract_in in Hin as [k [v [Hin ->]]].
    apply parts_frequency_entry in Hin as [Htok Hv].
    cbn [recommendation frequency part_number recommended_from].
    split; [exact Hv |]. split; [| reflexivity].
    rewrite Hv. apply count_occ_In. exact Htok.
  - intros Hsmall p Hp.
    destruct (add_key_order (all_tokens cases)) as [Hnd [Hkeys _]].
    rewrite <- parts_frequency_keys in Hnd, Hkeys.
    assert (Hlen : List.length (parts_frequency cases) <= 10).
    { rewrite <- (length_map fst).
      etransitivity; [| exact Hsmall].
      apply NoDup_incl_length; [exact Hnd |].
      intros a Ha. apply nodup_In. now apply Hkeys. }
    replace (map part_number (extract_recommended_parts cases))
      with (map fst (map counted (extract_recommended_parts cases)))
      by (rewrite map_map; reflexivity).
    rewrite extract_counted, firstn_all2.
    + apply (Permutation_in p
               (Permutation_map fst
                  (Permutation_sym (sorted_desc_perm (parts_frequency cases))))).
      now apply Hkeys.
    + rewrite (Permutation_length (sorted_desc_perm _)). exact Hlen.
Qed.

Lemma extract_counts_occurrences_witness :
  In "9L200-54321"%string
     (map part_number (extract_recommended_parts scenario_cases))
  /\ frequency (mkRec "9L200-54321" 3 (Fin 1) "3/3 similar cases")
     = count_occ string_dec (all_tokens scenario_cases) "9L200-54321"%string.
Proof.
  destruct (extract_counts_occurrences scenario_cases) as [_ [Hcount Hall]].
  split.
  - apply Hall; [vm_compute; lia | vm_compute; auto].
  - apply (Hcount (mkRec "9L200-54321" 3 (Fin 1) "3/3 similar cases")).
    vm_compute. left. reflexivity.
Defined.

(** ** The shape of a returned part number *)

Lemma split_no_separator (sep : ascii) (s tok : string) :
  In tok (PyStr.split sep s) -> ~ In sep (list_ascii_of_string tok).
Proof.
  revert tok. induction s as [| c s IH]; intros tok; simpl.
  - intros [<- | []]. simpl. tauto.
  - destruct (Ascii.eqb_spec c sep) as [-> | Hne].
    + intros [<- | Hin]; [simpl; tauto | now apply IH].
    + destruct (PyStr.split sep s) as [| w ws] eqn:Hs.
      * intros [<- | []]. simpl. intros [H | []]. congruence.
      * intros [<- | Hin].
        -- simpl. intros [H | H]; [congruence |].
           apply (IH w); [now left | exact H].
        -- apply IH. now right.
Qed.

Lemma lstrip_chars (c : ascii) (s : string) :
  In c (list_ascii_of_string (PyStr.lstrip s)) ->
  In c (list_ascii_of_string s).
Proof.
  induction s as [| a s IH]; simpl; [tauto |].
  destruct (PyStr.is_space a); simpl; auto.
Qed.

Lemma rstrip_chars (c : ascii) (s : string) :
  In c (list_ascii_of_string (PyStr.rstrip s)) ->
  In c (list_ascii_of_string s).
Proof.
  induction s as [| a s IH]; simpl; [tauto |].
  destruct (PyStr.rstrip s) as [| b r].
  - destruct (PyStr.is_space a); simpl; tauto.
  - simpl in *. intros [H | H]; auto.
Qed.

Lemma lstrip_head (s : string) (c : ascii) (r : string) :
  PyStr.lstrip s = String c r -> PyStr.is_space c = false.
Proof.
  induction s as [| a s IH]; simpl; [discriminate |].
  destruct (PyStr.is_space a) eqn:Ha; [exact IH |].
  intros [= <- _]. exact Ha.
Qed.

Lemma rstrip_idempotent (s : string) :
  PyStr.rstrip (PyStr.rstrip s) = PyStr.rstrip s.
Proof.
  induction s as [| a s IH]; simpl; [reflexivity |].
  destruct (PyStr.rstrip s) as [| b r] eqn:Hr.
  - destruct (PyStr.is_space a) eqn:Ha; simpl; [reflexivity |].
    now rewrite Ha.
  - change (PyStr.rstrip (String a (String b r)))
      with (match PyStr.rstrip (String b r) with
            | EmptyString =>
                if PyStr.is_space a then EmptyString
                else String a EmptyString
            | String x y => String a (String x y)
            end).
    now rewrite IH.
Qed.

Lemma rstrip_keeps_head (c : ascii) (s : string) :
  PyStr.is_space c = false ->
  exists r, PyStr.rstrip (String c s) = String c r.
Proof.
  intros Hc. simpl. destruct (PyStr.rstrip s).
  - rewrite Hc. eauto.
  - eauto.
Qed.

Lemma strip_clean (s : string) :
  PyStr.lstrip (PyStr.strip s) = PyStr.strip s
  /\ PyStr.rstrip (PyStr.strip s) = PyStr.strip s.
Proof.
  unfold PyStr.strip. split; [| apply rstrip_idempotent].
  destruct (PyStr.lstrip s) as [| c r] eqn:Hl; [reflexivity |].
  pose proof (lstrip_head _ _ _ Hl) as Hc.
  destruct (rstrip_keeps_head c r Hc) as [r' ->].
  simpl. now rewrite Hc.
Qed.

Lemma token_of_case (cases : list Case) (p : string) :
  In p (all_tokens cases) ->
  exists c part_str,
    In c cases /\ partname c = Some part_str
    /\ keep_part p = true
    /\ exists raw, In raw (PyStr.split "," part_str) /\ p = PyStr.strip raw.
Proof.
  unfold all_tokens. rewrite in_flat_map. intros [c [Hc Hp]].
  unfold case_tokens in Hp.
  destruct (partname c) as [part_str |] eqn:Hpart; [| contradiction].
  destruct (PyStr.truthy part_str); [| contradiction].
  apply filter_In in Hp as [Hp Hkeep].
  apply in_map_iff in Hp as [raw [<- Hraw]].
  exists c, part_str. repeat split; auto. eauto.
Qed.

(** A returned part number is never empty and never the placeholder "nan"
    in any casing; it has no white space at either end and no comma. *)
Theorem returned_part_numbers_are_clean (cases : list Case)
    (r : PartRecommendation) :
  In r (extract_recommended_parts cases) ->
  part_number r <> EmptyString
  /\ PyStr.lower (part_number r) <> "nan"%string
  /\ PyStr.lstrip (part_number r) = part_number r
  /\ PyStr.rstrip (part_number r) = part_number r
  /\ ~ In ","%char (list_ascii_of_string (part_number r)).
Proof.
  intros Hin. apply extract_in in Hin as [k [v [Hin ->]]].
  apply parts_frequency_entry in Hin as [Htok _].
  cbn [recommendation part_number].
  apply token_of_case in Htok
    as [c [part_str [_ [_ [Hkeep [raw [Hraw ->]]]]]]].
  unfold keep_part in Hkeep. apply andb_true_iff in Hkeep as [Hne Hnan].
  split; [| split; [| split; [| split]]].
  - intros H. rewrite H in Hne. discriminate.
  - intros H. rewrite H in Hnan. discriminate.
  - apply strip_clean.
  - apply strip_clean.
  - intros H. unfold PyStr.strip in H.
    apply rstrip_chars, lstrip_chars in H.
    exact (split_no_separator _ _ _ Hraw H).
Qed.

Lemma returned_part_numbers_are_clean_witness :
  PyStr.lower "7J065-85200" <> "nan"%string
  /\ PyStr.lstrip "7J065-85200" = "7J065-85200"%string.
Proof.
  assert (Hin : In (mkRec "7J065-85200" 2 (Fin (667 # 1000))
                          "2/3 similar cases")
                   (extract_recommended_parts scenario_cases)).
  { vm_compute. right. left. reflexivity. }
  destruct (returned_part_numbers_are_clean scenario_cases _ Hin)
    as [_ [Hnan [Hl _]]].
  split; [exact Hnan | exact Hl].
Defined.

(** ** Cases without parts *)

(** A case that contributes no part token (no parts field, an empty one, or
    only blanks and "nan") changes neither the parts returned nor their
    frequencies; it only adds one to the number of cases every confidence
    is taken over. *)
Theorem case_without_parts_only_dilutes (before_ after_ : list Case)
    (c : Case) :
  case_tokens c = [] ->
  extract_recommended_parts (before_ ++ c :: after_)
  = map (fun r =>
           recommendation (S (List.length (before_ ++ after_)))
                          (part_number r, frequency r))
        (extract_recommended_parts (before_ ++ after_)).
Proof.
  intros Hc.
  assert (Htok : all_tokens (before_ ++ c :: after_)
                 = all_tokens (before_ ++ after_)).
  { unfold all_tokens. rewrite !flat_map_app. simpl. now rewrite Hc. }
  unfold extract_recommended_parts.
  rewrite !parts_frequency_eq, Htok.
  replace (List.length (before_ ++ c :: after_))
    with (S (List.length (before_ ++ after_)))
    by (rewrite !length_app; simpl; lia).
  rewrite <- firstn_map, map_map. f_equal.
  apply map_ext. intros [k v]. reflexivity.
Qed.

Lemma case_without_parts_only_dilutes_witness :
  extract_recommended_parts
    (scenario_cases ++ [case_with (Some " , nan,NaN ") (7 # 10)])
  = [ mkRec "9L200-54321" 3 (Fin (3 # 4)) "3/4 similar cases";
      mkRec "7J065-85200" 2 (Fin (1 # 2)) "2/4 similar cases" ].
Proof.
  rewrite (case_without_parts_only_dilutes scenario_cases []
             (case_with (Some " , nan,NaN ") (7 # 10)) eq_refl).
  vm_compute. reflexivity.
Defined.

(* ================================================================== *)
(** * More on [find_similar_issues] *)

(** [find_similar_issues] contains its own failures.  Without a connection
    it returns the empty list and calls nothing.  With one, an exception of
    the cursor, of the embedding call or of the primary query ends the call
    with the empty list (after the primary query fails no fallback is
    tried, and a failed embedding sends no query at all).  The call itself
    raises exactly when the cleanup of the [finally] block raises, and then
    whatever had been found is lost. *)
Theorem search_contains_its_failures (env : Env) (issue_text : string)
    (issue_type : option string) (limit : Z) (alpha min_cutoff : pyfloat) :
  let run :=
    find_similar_issues env issue_text issue_type limit alpha min_cutoff [] in
  (db_connect env = false -> run = (Ok [], []))
  /\ (forall e, fst run = Raise e ->
                db_connect env = true /\ db_close env = Raise e)
  /\ (db_connect env = true ->
      forall e, db_close env = Raise e -> fst run = Raise e)
  /\ (db_connect env = true -> db_close env = Ok tt ->
      (forall e, db_cursor env = Raise e -> run = (Ok [], []))
      /\ (forall e,
            db_cursor env = Ok tt ->
            PyStr.truthy issue_text = true ->
            embeddings_create env issue_text = Raise e ->
            run = (Ok [], [EmbeddingCall issue_text]))
      /\ (forall v e,
            db_cursor env = Ok tt ->
            embedding_of env issue_text = Ok v ->
            v <> [] ->
            store_execute env 0 (build_query issue_type v alpha true)
            = Raise e ->
            fst run = Ok []
            /\ queries_of (snd run)
               = [build_query issue_type v alpha true])).
Proof.
  cbv zeta. unfold find_similar_issues.
  destruct (db_connect env) eqn:Hconn; cbn [negb].
  2: { repeat split; try discriminate. }
  unfold try_finally, try_except, bind, lift, ret.
  split; [discriminate |]. split; [| split].
  - intros e He. split; [reflexivity |].
    destruct (db_cursor env) as [[] | e0]; cbn [fst snd negb] in He.
    2: { destruct (db_close env); cbn [fst snd negb] in He; congruence. }
    destruct (generate_openai_embedding env issue_text []) as [[v | e1] t0];
      cbn [fst snd negb] in He.
    2: { destruct (db_close env); cbn [fst snd negb] in He; congruence. }
    destruct (nonempty v); cbn [fst snd negb] in He.
    2: { destruct (db_close env); cbn [fst snd negb] in He; congruence. }
    destruct (cascade env issue_type v alpha t0) as [[rows | e2] t1];
      cbn [fst snd negb] in He; destruct (db_close env); cbn [fst snd negb] in He; congruence.
  - intros _ e He. rewrite He.
    destruct (db_cursor env) as [[] | e0]; cbn [fst snd negb];
      [| reflexivity].
    destruct (generate_openai_embedding env issue_text []) as [[v | e1] t0];
      cbn [fst snd negb]; [| reflexivity].
    destruct (nonempty v); cbn [fst snd negb]; [| reflexivity].
    destruct (cascade env issue_type v alpha t0) as [[rows | e2] t1];
      reflexivity.
  - intros _ Hclose. rewrite Hclose. split; [| split].
    + intros e ->. reflexivity.
    + intros e -> Htext Hemb.
      unfold generate_openai_embedding, call. rewrite Htext, Hemb.
      reflexivity.
    + intros v e -> Hemb Hv Hq.
      unfold embedding_of, outcome in Hemb.
      destruct (generate_openai_embedding env issue_text []) as [r t0]
        eqn:Hgen.
      cbn [fst] in Hemb. subst r.
      assert (Ht0 : queries_of t0 = []).
      { pose proof (generate_trace env issue_text []) as H.
        rewrite Hgen in H. exact H. }
      destruct v as [| x v]; [congruence |]. cbn [nonempty negb].
      unfold cascade, bind, run_query, call. rewrite Ht0.
      cbn [List.length]. rewrite Hq. cbn.
      rewrite queries_of_app, Ht0. split; reflexivity.
Qed.

Lemma search_contains_its_failures_witness :
  find_similar_issues quota_env "hydraulic oil leak" None 5 default_alpha
                      default_min_cutoff []
  = (Ok [], [EmbeddingCall "hydraulic oil leak"]).
Proof.
  destruct (search_contains_its_failures quota_env "hydraulic oil leak"
              None 5 default_alpha default_min_cutoff)
    as [_ [_ [_ H]]].
  destruct (H eq_refl eq_refl) as [_ [Hemb _]].
  exact (Hemb "quota exceeded"%string eq_refl eq_refl eq_refl).
Defined.

Lemma embedding_calls_of_app (t1 t2 : list Event) :
  embedding_calls_of (t1 ++ t2)
  = embedding_calls_of t1 ++ embedding_calls_of t2.
Proof.
  induction t1 as [| [s | q] t1 IH]; simpl; [reflexivity | | assumption].
  now rewrite IH.
Qed.

(** Whether the cursor could be opened. *)
Definition cursor_opens (env : Env) : bool :=
  match db_cursor env with
  | Ok _ => true
  | Raise _ => false
  end.

(** One call of [find_similar_issues] calls the remote model at most once,
    and only for a non-empty text on an open cursor; it sends at most four
    queries to the store, three when no type hint is given, all of them
    after the embedding call. *)
Theorem search_call_budget (env : Env) (issue_text : string)
    (issue_type : option string) (limit : Z) (alpha min_cutoff : pyfloat) :
  let tr :=
    snd (find_similar_issues env issue_text issue_type limit alpha
                             min_cutoff []) in
  embedding_calls_of tr
  = (if db_connect env && cursor_opens env && PyStr.truthy issue_text
     then [issue_text] else [])
  /\ List.length (queries_of tr)
     <= (if truthy_opt issue_type then 4 else 3)
  /\ tr = map EmbeddingCall (embedding_calls_of tr)
          ++ map StoreQuery (queries_of tr).
Proof.
  cbv zeta. unfold find_similar_issues, cursor_opens.
  destruct (db_connect env); cbn [negb andb].
  2: { cbn. repeat split. lia. }
  unfold try_finally, try_except, bind, lift, ret.
  destruct (db_cursor env) as [[] | e0]; cbn [andb].
  2: { cbn. destruct (db_close env); cbn; repeat split; lia. }
  assert (Hgen : exists r,
             generate_openai_embedding env issue_text []
             = (r, if PyStr.truthy issue_text
                   then [EmbeddingCall issue_text] else [])
             /\ (PyStr.truthy issue_text = false -> r = Ok zero_vector)).
  { unfold generate_openai_embedding, call, ret.
    destruct (PyStr.truthy issue_text); cbn; eexists; split;
      try reflexivity; congruence. }
  destruct Hgen as [r [Hgen Hzero]]. rewrite Hgen.
  set (t0 := if PyStr.truthy issue_text
             then [EmbeddingCall issue_text] else []) in *.
  assert (Hc0 : embedding_calls_of t0
                = if PyStr.truthy issue_text then [issue_text] else []).
  { unfold t0. destruct (PyStr.truthy issue_text); reflexivity. }
  assert (Hq0 : queries_of t0 = []).
  { unfold t0. destruct (PyStr.truthy issue_text); reflexivity. }
  assert (Hm0 : t0 = map EmbeddingCall (embedding_calls_of t0)).
  { unfold t0. destruct (PyStr.truthy issue_text); reflexivity. }
  assert (Hbase : forall (x : exc (list Case)),
             embedding_calls_of
               (snd (match db_close env with
                     | Ok _ => (x, t0)
                     | Raise e => (Raise e, t0)
                     end))
             = (if PyStr.truthy issue_text then [issue_text] else [])
             /\ List.length
                  (queries_of
                     (snd (match db_close env with
                           | Ok _ => (x, t0)
                           | Raise e => (Raise e, t0)
                           end)))
                <= (if truthy_opt issue_type then 4 else 3)
             /\ snd (match db_close env with
                     | Ok _ => (x, t0)
                     | Raise e => (Raise e, t0)
                     end)
                = map EmbeddingCall
                    (embedding_calls_of
                       (snd (match db_close env with
                             | Ok _ => (x, t0)
                             | Raise e => (Raise e, t0)
                             end)))
                  ++ map StoreQuery
                       (queries_of
                          (snd (match db_close env with
                                | Ok _ => (x, t0)
                                | Raise e => (Raise e, t0)
                                end)))).
  { intros x. destruct (db_close env); cbn [snd]; rewrite Hq0, Hc0;
      (split; [reflexivity |]);
      (split; [destruct (truthy_opt issue_type); cbn; lia |]);
      cbn [map]; rewrite app_nil_r; rewrite <- Hc0; exact Hm0. }
  destruct r as [v | e1]; [| apply Hbase].
  destruct (nonempty v); cbn [negb]; [| apply Hbase].
  rewrite cascade_refines.
  destruct (first_non_empty_run env (attempts issue_type v alpha)
              (attempts_nonempty _ _ _) t0)
    as [n [Hn [Htr _]]].
  destruct (first_non_empty env (attempts issue_type v alpha) t0)
    as [res t1].
  cbn [snd] in Htr. subst t1.
  assert (Hlen : List.length (firstn n (attempts issue_type v alpha))
                 <= (if truthy_opt issue_type then 4 else 3)).
  { rewrite length_firstn. unfold attempts in *.
    destruct (truthy_opt issue_type); cbn [List.length app] in *; lia. }
  assert (Hsnd : forall (x y : exc (list Case)) (t : list Event),
             snd (match db_close env with
                  | Ok _ => (x, t)
                  | Raise e => (y, t)
                  end) = t).
  { intros x y t. destruct (db_close env); reflexivity. }
  destruct res as [rows | e2]; cbn [ret fst snd];
    match goal with
    | |- context [match db_close env with
                  | Ok _ => (?x, ?t)
                  | Raise e => (@?y e, ?t)
                  end] =>
        assert (Hs : snd (match db_close env with
                          | Ok _ => (x, t)
                          | Raise e => (y e, t)
                          end) = t)
          by (destruct (db_close env); reflexivity);
        rewrite Hs
    end;
    rewrite embedding_calls_of_app, queries_of_app, Hq0, Hc0,
      queries_of_store, embedding_calls_of_store, app_nil_r;
    cbn [app]; (split; [reflexivity |]); (split; [exact Hlen |]);
    rewrite <- Hc0, <- Hm0; reflexivity.
Qed.

(* ================================================================== *)
(** * More on the workflow *)

Lemma insert_by_confidence_perm (x : FinalRecommendation)
    (l : list FinalRecommendation) :
  Permutation (insert_by_confidence x l) (x :: l).
Proof.
  induction l as [| y l IH]; simpl; [reflexivity |].
  destruct (PyFloat.gt (fr_confidence y) (fr_confidence x)); [| reflexivity].
  rewrite IH. apply perm_swap.
Qed.

Lemma sort_by_confidence_perm (l : list FinalRecommendation) :
  Permutation (sort_by_confidence l) l.
Proof.
  induction l as [| x l IH]; simpl; [reflexivity |].
  rewrite insert_by_confidence_perm. now constructor.
Qed.

(** The confidence is a number. *)
Definition finite_confidence (r : FinalRecommendation) : Prop :=
  exists q, fr_confidence r = Fin q.

Definition confidence_descending (l : list FinalRecommendation) : Prop :=
  StronglySorted
    (fun a b => PyFloat.le (fr_confidence b) (fr_confidence a)) l.

Lemma insert_by_confidence_sorted (x : FinalRecommendation)
    (l : list FinalRecommendation) :
  finite_confidence x -> Forall finite_confidence l ->
  confidence_descending l ->
  confidence_descending (insert_by_confidence x l).
Proof.
  unfold confidence_descending. intros [qx Hx] Hfin Hs.
  induction Hs as [| y l Hs IH Hall]; simpl.
  - repeat constructor.
  - apply Forall_cons_iff in Hfin as [[qy Hy] Hfin].
    destruct (PyFloat.gt (fr_confidence y) (fr_confidence x)) eqn:Hgt.
    + constructor; [now apply IH |].
      apply (Permutation_Forall
               (Permutation_sym (insert_by_confidence_perm x l))).
      constructor; [| exact Hall].
      apply gt_lt in Hgt. rewrite Hx, Hy in *.
      cbn [PyFloat.lt PyFloat.le] in *.
      now apply Qlt_le_weak.
    + assert (Hle : PyFloat.le (fr_confidence y) (fr_confidence x)).
      { rewrite Hx, Hy in *. cbn [PyFloat.gt PyFloat.le] in *.
        apply negb_false_iff in Hgt. now apply Qle_bool_iff. }
      constructor; [now constructor |].
      constructor; [exact Hle |].
      rewrite Forall_forall in *. intros z Hz.
      specialize (Hall z Hz). destruct (Hfin z Hz) as [qz Hqz].
      rewrite Hx, Hy, Hqz in *. cbn [PyFloat.le] in *.
      now apply (Qle_trans _ (PyFloat.b64 qy)).
Qed.

Lemma sort_by_confidence_sorted (l : list FinalRecommendation) :
  Forall finite_confidence l -> confidence_descending (sort_by_confidence l).
Proof.
  induction l as [| x l IH]; simpl; intros Hfin.
  - constructor.
  - apply Forall_cons_iff in Hfin as [Hx Hfin].
    apply insert_by_confidence_sorted; auto.
    apply (Permutation_Forall (Permutation_sym (sort_by_confidence_perm l))).
    exact Hfin.
Qed.

(** [next_actions[0]] as node 7 chooses it. *)
Definition advice (confidence : pyfloat) : string :=
  if PyFloat.gt confidence (Fin (8 # 10))
  then "Proceed with high-confidence recommendations"
  else if PyFloat.gt confidence (Fin (6 # 10))
  then "Review recommendations with technician"
  else "Gather more diagnostic information".

Lemma inventory_checker_details (env : Env) (st : KubotaAIState) :
  exists st',
    inventory_checker_node env st = Ok st'
    /\ inventory_status st'
       = let available :=
           map stock_info
               (filter (fun part => PyStr.truthy (rp_part_number part))
                       (recommended_parts st)) in
         Inventory available [] []
           (fold_left
              (fun acc info => PyFloat.add acc (si_estimated_cost info))
              available (Fin 0)).
Proof.
  unfold inventory_checker_node, inventory_checker_body,
    inventory_checker_handler. run_node.
  eexists; (split; [reflexivity |]). fields. reflexivity.
Qed.

Lemma recommendation_formatter_details (env : Env) (st : KubotaAIState) :
  exists st',
    recommendation_formatter_node env st = Ok st'
    /\ confidence_scores st' = confidence_scores st
    /\ inventory_status st' = inventory_status st
    /\ recommended_parts st' = recommended_parts st
    /\ next_actions st'
       = advice (overall_of (confidence_scores st))
         :: (if has_out_of_stock (inventory_status st)
             then ["Order out-of-stock parts"%string] else [])
    /\ explanation st'
       = PyStr.strip
           (explanation_text (user_issue st)
              (List.length (similar_cases st))
              (List.length
                 (sort_by_confidence
                    (map final_recommendation (recommended_parts st))))
              (overall_of (confidence_scores st))).
Proof.
  unfold recommendation_formatter_node, recommendation_formatter_body,
    recommendation_formatter_handler. run_node.
  eexists; (split; [reflexivity |]). fields.
  repeat split; reflexivity.
Qed.

(** The final state of a run in terms of the similar cases it found. *)
Lemma workflow_summary (env : Env) (st : KubotaAIState) :
  exists s1 s2 final,
    symptom_analyzer_node env st = Ok s1
    /\ embedding_generator_node env s1 = Ok s2
    /\ run_workflow env st = Ok final
    /\ similar_cases final
       = match search_call env s2 with
         | Ok found => found
         | Raise _ => []
         end
    /\ embedding_vector final = embedding_vector s2
    /\ let found := similar_cases final in
       let parts := map format_part (extract_recommended_parts found) in
       let available :=
         map stock_info
             (filter (fun part => PyStr.truthy (rp_part_number part))
                     parts) in
       let mean := PyFloat.mean64 (compensated_sum env) in
       let overall :=
         PyFloat.add64
           (PyFloat.mul64 (mean (map similarity_score found))
                          (Fin (4 # 10)))
           (PyFloat.mul64 (mean (map rp_confidence parts))
                          (Fin (6 # 10))) in
       recommended_parts final = parts
       /\ inventory_status final
          = Inventory available [] []
              (fold_left
                 (fun acc info => PyFloat.add acc (si_estimated_cost info))
                 available (Fin 0))
       /\ confidence_scores final
          = Scores (mean (map similarity_score found))
                   (mean (map rp_confidence parts))
                   overall (tier overall)
       /\ final_recommendations final
          = sort_by_confidence (map final_recommendation parts)
       /\ next_actions final = [advice overall].
Proof.
  destruct (workflow_chain env st)
    as (s1 & s2 & s3 & s4 & s5 & s6 & s7 & Hrun
        & [E1 _] & [E2 _] & [_ P3] & [_ P4] & [E5 P5] & [_ P6] & [E7 P7]).
  exists s1, s2, s7.
  repeat (split; [assumption |]).
  unfold similarity_searcher_post, parts_recommender_post,
    inventory_checker_post, confidence_evaluator_post,
    recommendation_formatter_post, step in *.
  cbv zeta in P3, P6.
  destruct (inventory_checker_details env s4) as [s5' [E5' I5]].
  rewrite E5 in E5'. injection E5' as <-.
  destruct (recommendation_formatter_details env s6)
    as [s7' [E7' [C7 [I7 [R7 [N7 _]]]]]].
  rewrite E7 in E7'. injection E7' as <-.
  destruct P4 as [[_ [B4 [C4 _]]] R4].
  destruct P5 as [[_ [B5 [C5 _]]] [R5 _]].
  destruct P6 as [[_ [B6 [C6 _]]] [R6 [I6 S6]]].
  destruct P7 as [[_ [B7 [C7' _]]] [_ [_ F7]]].
  assert (Hcases : similar_cases s7 = similar_cases s3) by congruence.
  assert (Hparts4 : recommended_parts s4
                    = map format_part
                          (extract_recommended_parts (similar_cases s3))).
  { rewrite R4. destruct (similar_cases s3); reflexivity. }
  split.
  { rewrite Hcases. destruct (search_call env s2); unfold step in P3; tauto. }
  split.
  { assert (embedding_vector s3 = embedding_vector s2).
    { destruct (search_call env s2); unfold step in P3; tauto. }
    congruence. }
  cbv zeta. rewrite Hcases.
  assert (Hparts : recommended_parts s7
                   = map format_part
                         (extract_recommended_parts (similar_cases s3)))
    by congruence.
  split; [exact Hparts |]. split.
  { rewrite I7, I6, I5. cbv zeta. now rewrite Hparts4. }
  split.
  { rewrite C7, S6, C5, C4, R5, Hparts4. reflexivity. }
  split.
  { rewrite F7, R6, R5, Hparts4. reflexivity. }
  rewrite N7, S6, I6, I5. cbv zeta. cbn [has_out_of_stock nonempty overall_of].
  rewrite C5, C4, R5, Hparts4. reflexivity.
Qed.

Lemma find_similar_issues_bounds (env : Env) (issue_text : string)
    (issue_type : option string) (limit : Z) (alpha min_cutoff : pyfloat)
    (t : list Event) (res : list Case) :
  fst (find_similar_issues env issue_text issue_type limit alpha min_cutoff t)
  = Ok res ->
  Forall (fun r => PyFloat.le min_cutoff (similarity_score r)) res
  /\ ((0 <= limit)%Z -> List.length res <= Z.to_nat limit)
  /\ (store_ordered env -> score_descending res).
Proof.
  intros Hfst.
  apply find_similar_issues_result in Hfst
    as [-> | [n [q [rows [Hrows [Hq ->]]]]]].
  - repeat split; try constructor. simpl. lia.
  - unfold cut.
    destruct (slice_to_firstn
                (filter (fun r => PyFloat.ge (similarity_score r) min_cutoff)
                        rows) limit) as [m [-> Hm]].
    split; [| split].
    + rewrite Forall_forall. intros r Hr. apply in_firstn in Hr.
      apply filter_In in Hr as [_ Hge]. now apply ge_le.
    + intros Hlim. rewrite (Hm Hlim). apply firstn_le_length.
    + intros Hord. apply strongly_sorted_firstn.
      apply filter_descending. exact (Hord n q rows Hrows Hq).
Qed.

Lemma search_call_bounds (env : Env) (st : KubotaAIState)
    (found : list Case) :
  search_call env st = Ok found ->
  List.length found <= 10
  /\ Forall (fun c => PyFloat.le (Fin (65 # 100)) (similarity_score c)) found
  /\ (store_ordered env -> score_descending found).
Proof.
  unfold search_call, outcome. intros H.
  destruct (negb (has_embedding st));
    destruct (find_similar_issues_bounds _ _ _ _ _ _ _ _ H)
      as [Hcut [Hlen Hord]];
    (split; [specialize (Hlen ltac:(lia)); exact Hlen |]);
    (split; [exact Hcut | exact Hord]).
Qed.

(** What a run keeps of the search: at most 10 similar cases, each with a
    score of at least 0.65, in the order of decreasing score when the store
    honours its [ORDER BY]; [process_issue] reports their number. *)
Theorem workflow_similar_cases_bounded (env : Env) (issue : string)
    (series : option string) (uid tid : option Z) (final : KubotaAIState) :
  invoke env (initial_state issue series uid tid) = Ok final ->
  List.length (similar_cases final) <= 10
  /\ Forall (fun c => PyFloat.le (Fin (65 # 100)) (similarity_score c))
            (similar_cases final)
  /\ (store_ordered env -> score_descending (similar_cases final))
  /\ r_similar_cases_count (process_issue env issue series uid tid)
     = Some (List.length (similar_cases final)).
Proof.
  intros Hinv.
  assert (Hresp : r_similar_cases_count
                    (process_issue env issue series uid tid)
                  = Some (List.length (similar_cases final))).
  { unfold process_issue. rewrite Hinv. reflexivity. }
  pose proof (invoke_outcome env (initial_state issue series uid tid)) as Ho.
  destruct (graph_fault env); [congruence |].
  rewrite Ho in Hinv. clear Ho.
  destruct (workflow_summary env (initial_state issue series uid tid))
    as (s1 & s2 & final' & _ & _ & Hrun & Hcases & _).
  rewrite Hrun in Hinv. injection Hinv as ->.
  rewrite Hcases.
  destruct (search_call env s2) as [found | e] eqn:Hsearch.
  - destruct (search_call_bounds env s2 found Hsearch) as [H1 [H2 H3]].
    rewrite Hcases in Hresp. exact (conj H1 (conj H2 (conj H3 Hresp))).
  - rewrite Hcases in Hresp.
    split; [cbn; lia |]. split; [constructor |].
    split; [intros _; constructor | exact Hresp].
Qed.

Lemma workflow_similar_cases_bounded_witness :
  exists final,
    invoke scenario_env (initial_state scenario_issue None None None)
    = Ok final
    /\ List.length (similar_cases final) <= 10
    /\ score_descending (similar_cases final).
Proof.
  assert (Hrun : exists final,
             invoke scenario_env (initial_state scenario_issue None None None)
             = Ok final).
  { eexists. vm_compute. reflexivity. }
  destruct Hrun as [final Hfinal]. exists final.
  destruct (workflow_similar_cases_bounded scenario_env scenario_issue None
              None None final Hfinal) as [Hlen [_ [Hord _]]].
  split; [exact Hfinal |]. split; [exact Hlen |].
  apply Hord. intros n q rows [= <-] _. unfold scenario_cases.
  repeat constructor; vm_compute; intros H; discriminate H.
Defined.

(** What identifies a recommendation across the stages. *)
Definition final_core (r : FinalRecommendation) : string * nat * pyfloat :=
  (fr_part_number r, fr_frequency r, fr_confidence r).

Definition part_core (r : PartRecommendation) : string * nat * pyfloat :=
  (part_number r, frequency r, confidence r).

Lemma confidence_of_finite (f t : nat) : exists q, confidence_of f t = Fin q.
Proof.
  unfold confidence_of. destruct (t =? 0); cbn; eauto.
Qed.

(** The final recommendations of a run are the parts extracted from its
    similar cases, with their frequencies and confidences: at most 10 of
    them, by decreasing confidence, each with the priority of its
    confidence tier, and each with the reasoning "Historical data" (the
    "<frequency>/<cases> similar cases" text of the extraction is stored
    under a key that node 4 does not read). *)
Theorem final_recommendations_shape (env : Env) (issue : string)
    (series : option string) (uid tid : option Z) (final : KubotaAIState) :
  invoke env (initial_state issue series uid tid) = Ok final ->
  let finals := final_recommendations final in
  List.length finals <= 10
  /\ confidence_descending finals
  /\ Permutation (map final_core finals)
       (map part_core (extract_recommended_parts (similar_cases final)))
  /\ Forall (fun r => fr_reasoning r = "Historical data"%string
                      /\ fr_priority r = tier (fr_confidence r)) finals
  /\ r_final_recommendations (process_issue env issue series uid tid)
     = finals.
Proof.
  intros Hinv. cbv zeta.
  assert (Hresp : r_final_recommendations
                    (process_issue env issue series uid tid)
                  = final_recommendations final).
  { unfold process_issue. rewrite Hinv. reflexivity. }
  pose proof (invoke_outcome env (initial_state issue series uid tid)) as Ho.
  destruct (graph_fault env); [congruence |].
  rewrite Ho in Hinv. clear Ho.
  destruct (workflow_summary env (initial_state issue series uid tid))
    as (s1 & s2 & final' & _ & _ & Hrun & _ & _ & Hsum).
  rewrite Hrun in Hinv. injection Hinv as ->.
  cbv zeta in Hsum. destruct Hsum as [_ [_ [_ [Hfinals _]]]].
  rewrite Hfinals.
  set (recs := extract_recommended_parts (similar_cases final)) in *.
  pose proof (sort_by_confidence_perm
                (map final_recommendation (map format_part recs))) as Hperm.
  split; [| split; [| split; [| split]]].
  - rewrite (Permutation_length Hperm), !length_map.
    unfold recs, extract_recommended_parts. apply firstn_le_length.
  - apply sort_by_confidence_sorted.
    rewrite Forall_forall. intros r Hr.
    apply in_map_iff in Hr as [p [<- Hp]].
    apply in_map_iff in Hp as [x [<- Hx]].
    apply extract_in in Hx as [k [v [_ ->]]].
    unfold finite_confidence. cbn. apply confidence_of_finite.
  - rewrite (Permutation_map final_core Hperm), !map_map.
    apply Permutation_refl.
  - apply (Permutation_Forall (Permutation_sym Hperm)).
    rewrite Forall_forall. intros r Hr.
    apply in_map_iff in Hr as [p [<- Hp]].
    apply in_map_iff in Hp as [x [<- Hx]].
    split; reflexivity.
  - rewrite Hresp, Hfinals. reflexivity.
Qed.

Lemma final_recommendations_shape_witness :
  exists final,
    invoke scenario_env (initial_state scenario_issue None None None)
    = Ok final
    /\ List.length (final_recommendations final) <= 10
    /\ confidence_descending (final_recommendations final).
Proof.
  assert (Hrun : exists final,
             invoke scenario_env (initial_state scenario_issue None None None)
             = Ok final).
  { eexists. vm_compute. reflexivity. }
  destruct Hrun as [final Hfinal]. exists final.
  destruct (final_recommendations_shape scenario_env scenario_issue None
              None None final Hfinal) as [Hlen [Hord _]].
  auto.
Defined.

Lemma part_number_not_empty (cases : list Case) (r : PartRecommendation) :
  In r (extract_recommended_parts cases) -> part_number r <> EmptyString.
Proof.
  intros Hin. apply extract_in in Hin as [k [v [Hin ->]]].
  apply parts_frequency_entry in Hin as [Htok _].
  cbn [recommendation part_number].
  apply token_of_case in Htok as [c [part_str [_ [_ [Hkeep _]]]]].
  unfold keep_part in Hkeep. apply andb_true_iff in Hkeep as [Hne _].
  intros H. rewrite H in Hne. discriminate.
Qed.

Lemma filter_all {A : Type} (f : A -> bool) (l : list A) :
  (forall x, In x l -> f x = true) -> filter f l = l.
Proof.
  induction l as [| a l IH]; simpl; intros H; [reflexivity |].
  rewrite (H a (or_introl eq_refl)). f_equal. apply IH. auto.
Qed.

Lemma stock_total (parts : list RecommendedPart) (a : Q) :
  exists q,
    fold_left (fun acc info => PyFloat.add acc (si_estimated_cost info))
              (map stock_info parts) (Fin a)
    = Fin q
    /\ (q == a + (91 # 2) * inject_Z (Z.of_nat (List.length parts)))%Q.
Proof.
  revert a. induction parts as [| p parts IH]; intros a.
  - exists a. split; [reflexivity |]. cbn [List.length].
    change (inject_Z (Z.of_nat 0)) with 0%Q. lra.
  - cbn [map fold_left stock_info si_estimated_cost PyFloat.add
         PyFloat.lift2].
    destruct (IH (a + (91 # 2))%Q) as [q [Hq Heq]].
    exists q. split; [exact Hq |]. rewrite Heq.
    cbn [List.length]. rewrite Nat2Z.inj_succ. unfold Z.succ.
    rewrite inject_Z_plus. change (inject_Z 1) with 1%Q. lra.
Qed.

(** The inventory of a run is the mock one: every recommended part is
    listed as available, in stock, 10 pieces at 45.50, the total being
    45.50 times the number of parts; no part is ever out of stock, so the
    next actions are the single advice chosen by the overall confidence and
    never contain "Order out-of-stock parts". *)
Theorem inventory_is_mock (env : Env) (issue : string)
    (series : option string) (uid tid : option Z) (final : KubotaAIState) :
  invoke env (initial_state issue series uid tid) = Ok final ->
  exists available total,
    inventory_status final = Inventory available [] [] (Fin total)
    /\ map si_part_number available
       = map part_number (extract_recommended_parts (similar_cases final))
    /\ Forall (fun info => si_in_stock info = true
                           /\ si_quantity info = 10
                           /\ si_estimated_cost info = Fin (91 # 2))
              available
    /\ (total == (91 # 2) * inject_Z (Z.of_nat (List.length available)))%Q
    /\ next_actions final = [advice (overall_of (confidence_scores final))]
    /\ ~ In "Order out-of-stock parts"%string (next_actions final).
Proof.
  intros Hinv.
  pose proof (invoke_outcome env (initial_state issue series uid tid)) as Ho.
  destruct (graph_fault env); [congruence |].
  rewrite Ho in Hinv. clear Ho.
  destruct (workflow_summary env (initial_state issue series uid tid))
    as (s1 & s2 & final' & _ & _ & Hrun & _ & _ & Hsum).
  rewrite Hrun in Hinv. injection Hinv as ->.
  cbv zeta in Hsum. destruct Hsum as [_ [Hinv [Hscores [_ Hnext]]]].
  set (recs := extract_recommended_parts (similar_cases final)) in *.
  assert (Hkeep : filter (fun part => PyStr.truthy (rp_part_number part))
                         (map format_part recs)
                  = map format_part recs).
  { apply filter_all. intros p Hp.
    apply in_map_iff in Hp as [r [<- Hr]].
    pose proof (part_number_not_empty _ _ Hr) as Hne.
    cbn. destruct (part_number r); [congruence | reflexivity]. }
  rewrite Hkeep in Hinv.
  destruct (stock_total (map format_part recs) 0) as [total [Htotal Heq]].
  exists (map stock_info (map format_part recs)), total.
  split; [rewrite Hinv, Htotal; reflexivity |].
  split; [rewrite !map_map; reflexivity |].
  split.
  { rewrite Forall_forall. intros info Hi.
    apply in_map_iff in Hi as [p [<- _]]. repeat split. }
  split; [rewrite Heq, !length_map; lra |].
  assert (Hn : next_actions final
               = [advice (overall_of (confidence_scores final))]).
  { rewrite Hnext, Hscores. reflexivity. }
  split; [exact Hn |].
  rewrite Hn. unfold advice. intros [H | []].
  destruct (PyFloat.gt _ _); [discriminate |].
  destruct (PyFloat.gt _ _); discriminate.
Qed.

Lemma inventory_is_mock_witness :
  exists final available,
    invoke scenario_env (initial_state scenario_issue None None None)
    = Ok final
    /\ inventory_status final = Inventory available [] [] (Fin (364 # 4))
    /\ List.length available = 2.
Proof.
  assert (Hrun : exists final,
             invoke scenario_env (initial_state scenario_issue None None None)
             = Ok final
             /\ inventory_status final
                = Inventory
                    [ mkStockInfo "9L200-54321" true 10 (Fin (91 # 2));
                      mkStockInfo "7J065-85200" true 10 (Fin (91 # 2)) ]
                    [] [] (Fin (364 # 4))).
  { eexists. split; [vm_compute; reflexivity | reflexivity]. }
  destruct Hrun as [final [Hfinal Hstock]].
  destruct (inventory_is_mock scenario_env scenario_issue None None None
              final Hfinal) as [available [total [Hinv _]]].
  exists final, available. split; [exact Hfinal |].
  rewrite Hstock in Hinv. injection Hinv as <- <-.
  split; [exact Hstock | reflexivity].
Defined.

Lemma search_without_connection (env : Env) (st : KubotaAIState) :
  db_connect env = false -> search_call env st = Ok [].
Proof.
  intros H. unfold search_call, outcome, find_similar_issues.
  rewrite H. destruct (negb (has_embedding st)); reflexivity.
Qed.

(** When the database cannot be reached, [process_issue] still answers
    with [success=True]: no similar case, no recommendation, zero
    confidence of quality "low", an empty inventory and the advice to
    gather more diagnostic information.  The failure itself is not
    reported: the error message never names the similarity search. *)
Theorem unreachable_database_answer (env : Env) (issue : string)
    (series : option string) (uid tid : option Z) :
  graph_fault env = None ->
  db_connect env = false ->
  let r := process_issue env issue series uid tid in
  success r = true
  /\ r_similar_cases_count r = Some 0
  /\ r_final_recommendations r = []
  /\ r_next_actions r = Some ["Gather more diagnostic information"%string]
  /\ r_inventory_status r = Some (Inventory [] [] [] (Fin 0))
  /\ (exists overall,
        r_confidence_scores r = Some (Scores (Fin 0) (Fin 0) overall "low")
        /\ PyFloat.feq overall (Fin 0))
  /\ forall e,
       r_error_message r
       <> Some ("Similarity search failed: " ++ e)%string.
Proof.
  intros Hgraph Hconn. cbv zeta.
  pose proof (invoke_outcome env (initial_state issue series uid tid)) as Ho.
  rewrite Hgraph in Ho. unfold process_issue. rewrite Ho.
  destruct (workflow_chain env (initial_state issue series uid tid))
    as (s1 & s2 & s3 & s4 & s5 & s6 & s7 & Hrun
        & [E1 P1] & [E2 P2] & [_ P3] & [_ P4] & [_ P5] & [_ P6] & [_ P7]).
  destruct (workflow_summary env (initial_state issue series uid tid))
    as (s1' & s2' & final & E1' & E2' & Hrun' & Hcases & _ & Hsum).
  rewrite E1 in E1'. injection E1' as <-.
  rewrite E2 in E2'. injection E2' as <-.
  rewrite Hrun in Hrun'. injection Hrun' as <-.
  rewrite Hrun. cbn [success_response success r_similar_cases_count
    r_final_recommendations r_next_actions r_inventory_status
    r_confidence_scores r_error_message].
  unfold similarity_searcher_post in P3. cbv zeta in P3.
  rewrite (search_without_connection env s2 Hconn) in Hcases, P3.
  cbv zeta in Hsum. rewrite Hcases in Hsum.
  destruct Hsum as [_ [Hinv [Hscores [Hfinals Hnext]]]].
  split; [reflexivity |]. split; [now rewrite Hcases |].
  split; [exact Hfinals |]. split; [rewrite Hnext; reflexivity |].
  split; [rewrite Hinv; reflexivity |]. split.
  { eexists. split; [rewrite Hscores; reflexivity |]. vm_compute.
    reflexivity. }
  intros e Herr.
  unfold symptom_analyzer_post, embedding_generator_post,
    parts_recommender_post,
    inventory_checker_post, confidence_evaluator_post,
    recommendation_formatter_post, step in *.
  assert (H7 : error_message s7 = error_message s2).
  { destruct P3 as [_ [_ [_ [D3 _]]]].
    destruct P4 as [[_ [_ [_ [D4 _]]]] _].
    destruct P5 as [[_ [_ [_ [D5 _]]]] _].
    destruct P6 as [[_ [_ [_ [D6 _]]]] _].
    destruct P7 as [[_ [_ [_ [D7 _]]]] _]. congruence. }
  rewrite H7 in Herr.
  destruct (embeddings_create env (search_text s1)).
  - destruct P2 as [_ [_ [_ [D2 _]]]]. rewrite D2 in Herr.
    destruct (suggest_technical_symptoms env _ _).
    + destruct P1 as [_ [_ [_ [D1 _]]]]. rewrite D1 in Herr.
      discriminate.
    + destruct P1 as [[_ [_ [_ [D1 _]]]] _]. rewrite D1 in Herr.
      discriminate.
  - destruct P2 as [_ [_ [_ [D2 _]]]]. rewrite D2 in Herr. discriminate.
Qed.

Lemma unreachable_database_answer_witness :
  let env := mkEnv false (Ok tt) (fun _ _ => Ok scenario_cases) (Ok tt)
                   (fun _ => Ok [Fin (1 # 10)])
                   (fun _ _ => Ok [mkSymptom None None]) None false in
  r_final_recommendations (process_issue env scenario_issue None None None)
  = []
  /\ r_error_message (process_issue env scenario_issue None None None)
     = None.
Proof.
  cbv zeta.
  destruct (unreachable_database_answer
              (mkEnv false (Ok tt) (fun _ _ => Ok scenario_cases) (Ok tt)
                     (fun _ => Ok [Fin (1 # 10)])
                     (fun _ _ => Ok [mkSymptom None None]) None false)
              scenario_issue None None None eq_refl eq_refl)
    as [_ [_ [Hfinals _]]].
  split; [exact Hfinals | vm_compute; reflexivity].
Defined.

(** After the symptom analyzer the processed symptoms are never empty:
    they are the texts of the suggestions when the service returned some
    (the empty text for a suggestion that has neither "technical_symptom"
    nor "symptom"), and the issue text alone when the service returned none
    or raised. *)
Theorem processed_symptoms_never_empty (env : Env) (st : KubotaAIState) :
  exists st',
    symptom_analyzer_node env st = Ok st'
    /\ processed_symptoms st' <> []
    /\ user_issue st' = user_issue st
    /\ match suggest_technical_symptoms env (user_issue st)
               (or_empty (machine_series st)) with
       | Ok (sy :: syms) =>
           processed_symptoms st' = map symptom_text (sy :: syms)
       | _ => processed_symptoms st' = [user_issue st]
       end.
Proof.
  unfold symptom_analyzer_node, symptom_analyzer_body,
    symptom_analyzer_handler. run_node. fields.
  destruct (suggest_technical_symptoms env (user_issue st)
              (or_empty (machine_series st))) as [[| sy syms] | e];
    eexists; (split; [reflexivity |]); fields;
    repeat split; cbn; discriminate.
Qed.

(** The hint node 3 passes to [find_similar_issues]: none when node 2 left
    a non-empty embedding, "general" otherwise. *)
Definition search_hint (embedding : exc (list pyfloat)) : option string :=
  match embedding with
  | Ok (_ :: _) => None
  | _ => Some "general"%string
  end.

(** The embedding of node 2 serves as a flag only.  [embedding_used] is
    true exactly when the embedding call of node 2 returned; the similar
    cases are those [find_similar_issues] finds for the issue text itself
    (which it embeds again), with the type hint "general" when node 2 left
    no embedding and without a hint otherwise. *)
Theorem embedding_is_only_a_flag (env : Env) (issue : string)
    (series : option string) (uid tid : option Z) :
  graph_fault env = None ->
  exists s1 final,
    symptom_analyzer_node env (initial_state issue series uid tid) = Ok s1
    /\ invoke env (initial_state issue series uid tid) = Ok final
    /\ let embedding := embeddings_create env (search_text s1) in
       r_embedding_used (process_issue env issue series uid tid)
       = match embedding with Ok _ => true | Raise _ => false end
       /\ similar_cases final
          = match outcome (find_similar_issues env issue
                             (search_hint embedding) 10 default_alpha
                             default_min_cutoff) with
            | Ok found => found
            | Raise _ => []
            end.
Proof.
  intros Hgraph.
  pose proof (invoke_outcome env (initial_state issue series uid tid)) as Ho.
  rewrite Hgraph in Ho.
  destruct (symptom_analyzer_spec env (initial_state issue series uid tid))
    as [s1 [E1 P1]].
  destruct (embedding_generator_spec env s1) as [s2 [E2 P2]].
  destruct (workflow_summary env (initial_state issue series uid tid))
    as (s1' & s2' & final & E1' & E2' & Hrun & Hcases & Hemb & _).
  rewrite E1 in E1'. injection E1' as <-.
  rewrite E2 in E2'. injection E2' as <-.
  exists s1, final. split; [exact E1 |].
  split; [now rewrite Ho |]. cbv zeta.
  unfold process_issue. rewrite Ho, Hrun.
  cbn [success_response r_embedding_used]. rewrite Hemb.
  unfold symptom_analyzer_post, embedding_generator_post, step in *.
  assert (Hissue : user_issue s2 = issue).
  { assert (H1 : user_issue s1 = issue).
    { destruct (suggest_technical_symptoms env _ _); cbn in P1; tauto. }
    destruct (embeddings_create env (search_text s1)); cbn in P2;
      destruct P2 as [_ [_ [_ [_ H2]]]]; congruence. }
  rewrite Hcases. unfold search_call, has_embedding. rewrite Hissue.
  destruct (embeddings_create env (search_text s1)) as [v | e];
    destruct P2 as [_ [-> _]].
  - split; [reflexivity |]. destruct v; reflexivity.
  - split; reflexivity.
Qed.

Lemma embedding_is_only_a_flag_witness :
  r_embedding_used (process_issue quota_env scenario_issue None None None)
  = false
  /\ r_similar_cases_count
       (process_issue quota_env scenario_issue None None None)
     = Some 0.
Proof.
  destruct (embedding_is_only_a_flag quota_env scenario_issue None None None
              eq_refl) as (s1 & final & _ & Hrun & Hflag & Hcases).
  split; [exact Hflag |].
  unfold process_issue. rewrite Hrun.
  cbn [success_response r_similar_cases_count]. rewrite Hcases.
  reflexivity.
Defined.

(* ================================================================== *)
(** * [SymptomSuggestionService] ([src/ai/symptoms_generator.py]) *)

Module SymptomService.

(** A suggestion dict.  The historical suggestions and the fallback have
    the keys "suggestion", "confidence" and "source" (the historical ones
    also "series" and "subassembly"); a suggestion parsed from the chat
    model's JSON has whatever keys the model wrote, plus "source".  A key
    that is missing is [None]; a key that is present holds a text, or a
    number for "confidence". *)
Record Suggestion : Type := mkSuggestion {
  sg_suggestion : option string;
  sg_confidence : option pyfloat;
  sg_source : option string;
  sg_series : option string;
  sg_subassembly : option string;
  sg_technical_symptom : option string;
  sg_symptom : option string
}.

(** The world of the service: the database of its own
    [AdaptedTicketProcessor], and what [_generate_ai_symptom_suggestions]
    returns (it catches every exception itself). *)
Record ServiceEnv : Type := mkServiceEnv {
  processor : Env;
  generate_ai_symptom_suggestions : string -> string -> list Suggestion
}.

(** The dict appended for one case. *)
Definition historical_suggestion (c : Case) (clean : string) : Suggestion :=
  {| sg_suggestion := Some (substring 0 100 clean);
     sg_confidence := Some (similarity_score c);
     sg_source := Some "historical"%string;
     sg_series := seriesname c;
     sg_subassembly := subassembly c;
     sg_technical_symptom := None;
     sg_symptom := None |}.

(** The [for case in similar_cases] loop, [seen] being the set of symptom
    texts met so far. *)
Fixpoint historical_loop (cases : list Case) (seen : list string)
  : list Suggestion :=
  match cases with
  | [] => []
  | c :: rest =>
      match symptomcomments_clean c with
      | Some clean =>
          if PyStr.truthy clean && negb (mem clean seen)
          then historical_suggestion c clean
               :: historical_loop rest (clean :: seen)
          else historical_loop rest seen
      | None => historical_loop rest seen
      end
  end.

Definition get_historical_symptom_suggestions (env : ServiceEnv)
    (user_symptom machine_type : string) : list Suggestion :=
  match outcome (find_similar_issues (processor env) user_symptom
                   (Some machine_type) 10 default_alpha
                   default_min_cutoff) with
  | Ok similar_cases => firstn 3 (historical_loop similar_cases [])
  | Raise _ => []
  end.

(** [s['suggestion'].lower().strip()] and [s['confidence']], a missing key
    raising [KeyError]. *)
Definition suggestion_key (s : Suggestion) : exc string :=
  match sg_suggestion s with
  | Some t => Ok (PyStr.strip (PyStr.lower t))
  | None => Raise "'suggestion'"
  end.

Definition confidence_key (s : Suggestion) : exc pyfloat :=
  match sg_confidence s with
  | Some c => Ok c
  | None => Raise "'confidence'"
  end.

(** The [unique_suggestions] dict, keys in insertion order. *)
Definition Unique : Type := list (string * Suggestion).

Fixpoint lookup (text : string) (d : Unique) : option Suggestion :=
  match d with
  | [] => None
  | (k, v) :: d' => if String.eqb k text then Some v else lookup text d'
  end.

(** [d[text] = s] for a key that is present: it keeps its place. *)
Fixpoint replace (text : string) (s : Suggestion) (d : Unique) : Unique :=
  match d with
  | [] => []
  | (k, v) :: d' =>
      if String.eqb k text then (k, s) :: d' else (k, v) :: replace text s d'
  end.

(** One turn of the [for suggestion in all_suggestions] loop. *)
Definition merge_one (unique : Unique) (s : Suggestion) : exc Unique :=
  match suggestion_key s with
  | Raise e => Raise e
  | Ok text =>
      match lookup text unique with
      | None => Ok (unique ++ [(text, s)])
      | Some old =>
          match confidence_key s with
          | Raise e => Raise e
          | Ok c =>
              match confidence_key old with
              | Raise e => Raise e
              | Ok c_old =>
                  if PyFloat.gt c c_old
                  then Ok (replace text s unique) else Ok unique
              end
          end
      end
  end.

Fixpoint merge (all : list Suggestion) (unique : Unique) : exc Unique :=
  match all with
  | [] => Ok unique
  | s :: rest =>
      match merge_one unique s with
      | Ok unique' => merge rest unique'
      | Raise e => Raise e
      end
  end.

(** The sort keys [x['confidence']], taken for every value before the
    sort. *)
Fixpoint sort_keys (l : list Suggestion)
  : exc (list (pyfloat * Suggestion)) :=
  match l with
  | [] => Ok []
  | s :: rest =>
      match confidence_key s with
      | Raise e => Raise e
      | Ok c =>
          match sort_keys rest with
          | Ok keyed => Ok ((c, s) :: keyed)
          | Raise e => Raise e
          end
      end
  end.

(** [sorted(..., key=..., reverse=True)]: the stable sort by decreasing
    key (the order of [NaN] keys is not modelled). *)
Fixpoint insert_keyed (x : pyfloat * Suggestion)
    (l : list (pyfloat * Suggestion)) : list (pyfloat * Suggestion) :=
  match l with
  | [] => [x]
  | y :: l' =>
      if PyFloat.gt (fst y) (fst x) then y :: insert_keyed x l' else x :: l
  end.

Fixpoint sort_keyed (l : list (pyfloat * Suggestion))
  : list (pyfloat * Suggestion) :=
  match l with
  | [] => []
  | x :: l' => insert_keyed x (sort_keyed l')
  end.

Definition combine_and_rank_suggestions (historical ai_generated
                                           : list Suggestion)
  : exc (list Suggestion) :=
  match merge (historical ++ ai_generated) [] with
  | Raise e => Raise e
  | Ok unique =>
      match sort_keys (map snd unique) with
      | Raise e => Raise e
      | Ok keyed => Ok (map snd (sort_keyed keyed))
      end
  end.

(** The dict returned when anything raised. *)
Definition original_suggestion (user_symptom : string) : Suggestion :=
  {| sg_suggestion := Some user_symptom;
     sg_confidence := Some (Fin 1);
     sg_source := Some "original"%string;
     sg_series := None;
     sg_subassembly := None;
     sg_technical_symptom := None;
     sg_symptom := None |}.

Definition suggest_technical_symptoms (env : ServiceEnv)
    (user_symptom machine_type : string) : list Suggestion :=
  let historical :=
    get_historical_symptom_suggestions env user_symptom machine_type in
  let ai := generate_ai_symptom_suggestions env user_symptom machine_type in
  match combine_and_rank_suggestions historical ai with
  | Ok combined => firstn 5 combined
  | Raise _ => [original_suggestion user_symptom]
  end.

(** What the symptom analyzer reads of a suggestion. *)
Definition as_symptom (s : Suggestion) : Symptom :=
  {| technical_symptom := sg_technical_symptom s;
     symptom := sg_symptom s |}.

(** The world of the agent when its symptom service is this one. *)
Definition agent_env (env : ServiceEnv) : Env :=
  mkEnv (db_connect (processor env))
        (db_cursor (processor env))
        (store_execute (processor env))
        (db_close (processor env))
        (embeddings_create (processor env))
        (fun user_symptom machine_type =>
           Ok (map as_symptom
                 (suggest_technical_symptoms env user_symptom machine_type)))
        (graph_fault (processor env))
        (compensated_sum (processor env)).

(** Three suggestions: two spellings of one text and another text. *)
Definition sample_ai : list Suggestion :=
  [ mkSuggestion (Some "Low hydraulic pressure") (Some (Fin (7 # 10)))
                 (Some "ai_generated") None None None None;
    mkSuggestion (Some " low HYDRAULIC pressure ") (Some (Fin (9 # 10)))
                 (Some "ai_generated") None None None None;
    mkSuggestion (Some "Pump cavitation") (Some (Fin (8 # 10)))
                 (Some "ai_generated") None None None None ].

(** ** The merge of [_combine_and_rank_suggestions] *)

(** The suggestion has the two keys the ranking reads. *)
Definition well_formed (s : Suggestion) : Prop :=
  sg_suggestion s <> None /\ sg_confidence s <> None.

(** The text of a suggestion as the ranking compares it. *)
Definition normalized (s : Suggestion) : option string :=
  option_map (fun t => PyStr.strip (PyStr.lower t)) (sg_suggestion s).

(** [s]'s confidence is above [r]'s. *)
Definition more_confident (s r : Suggestion) : Prop :=
  exists cs cr,
    sg_confidence s = Some cs /\ sg_confidence r = Some cr
    /\ PyFloat.gt cs cr = true.

Definition finite (s : Suggestion) : Prop :=
  exists q, sg_confidence s = Some (Fin q).

(** [b]'s confidence is at most [a]'s. *)
Definition ranked_before (a b : Suggestion) : Prop :=
  exists ca cb,
    sg_confidence a = Some ca /\ sg_confidence b = Some cb
    /\ PyFloat.le cb ca.

Lemma suggestion_key_normalized (s : Suggestion) (k : string) :
  suggestion_key s = Ok k <-> normalized s = Some k.
Proof.
  unfold suggestion_key, normalized.
  destruct (sg_suggestion s); cbn; split; congruence.
Qed.

Definition keyed (u : Unique) : Prop :=
  NoDup (map fst u) /\ forall k v, In (k, v) u -> suggestion_key v = Ok k.

Lemma lookup_none (text : string) (d : Unique) :
  lookup text d = None -> ~ In text (map fst d).
Proof.
  induction d as [| [k v] d IH]; simpl; [tauto |].
  destruct (String.eqb_spec k text); [discriminate |].
  intros H [Hk | Hin]; [contradiction | now apply IH].
Qed.

Lemma lookup_some (text : string) (d : Unique) (v : Suggestion) :
  lookup text d = Some v -> In (text, v) d.
Proof.
  induction d as [| [k w] d IH]; simpl; [discriminate |].
  destruct (String.eqb_spec k text) as [-> |].
  - intros [= ->]. now left.
  - intros H. right. now apply IH.
Qed.

Lemma replace_keys (text : string) (s : Suggestion) (d : Unique) :
  map fst (replace text s d) = map fst d.
Proof.
  induction d as [| [k v] d IH]; simpl; [reflexivity |].
  destruct (String.eqb k text); simpl; [reflexivity | now rewrite IH].
Qed.

Lemma replace_in (text : string) (s : Suggestion) (d : Unique)
    (k : string) (v : Suggestion) :
  In (k, v) (replace text s d) -> (k = text /\ v = s) \/ In (k, v) d.
Proof.
  induction d as [| [k' v'] d IH]; simpl; [tauto |].
  destruct (String.eqb_spec k' text) as [-> |]; simpl.
  - intros [[= <- <-] | H]; auto.
  - intros [H | H]; [auto |]. destruct (IH H); auto.
Qed.

Lemma replace_in_new (text : string) (s old : Suggestion) (d : Unique) :
  lookup text d = Some old -> In (text, s) (replace text s d).
Proof.
  induction d as [| [k v] d IH]; simpl; [discriminate |].
  destruct (String.eqb_spec k text) as [-> |]; simpl.
  - now left.
  - intros H. right. now apply IH.
Qed.

Lemma replace_in_other (text : string) (s : Suggestion) (d : Unique)
    (k : string) (v : Suggestion) :
  In (k, v) d -> k <> text -> In (k, v) (replace text s d).
Proof.
  induction d as [| [k' v'] d IH]; simpl; [tauto |].
  intros [[= -> ->] | Hin] Hk.
  - destruct (String.eqb_spec k text); [contradiction | now left].
  - destruct (String.eqb_spec k' text); simpl; right; auto.
Qed.

Lemma gt_trans (a b c : pyfloat) :
  PyFloat.gt a b = true -> PyFloat.gt b c = true -> PyFloat.gt a c = true.
Proof.
  rewrite !gt_lt. destruct a, b, c; cbn [PyFloat.lt]; try tauto.
  intros H1 H2. now apply (Qlt_trans _ (PyFloat.b64 q0)).
Qed.

Lemma gt_irrefl (a : pyfloat) : PyFloat.gt a a = false.
Proof.
  destruct (PyFloat.gt a a) eqn:E; [| reflexivity].
  apply gt_lt in E. destruct a; cbn [PyFloat.lt] in E; [tauto |].
  now apply Qlt_irrefl in E.
Qed.

Lemma gt_chain (cs c c' : pyfloat) :
  PyFloat.gt cs c = false -> PyFloat.gt c' c = true ->
  PyFloat.gt cs c' = false.
Proof.
  intros H1 H2. destruct (PyFloat.gt cs c') eqn:E; [| reflexivity].
  rewrite <- H1. symmetry. now apply (gt_trans cs c' c).
Qed.

(** [v] is [v0] or a more confident suggestion that took its place. *)
Definition dominates (v v0 : Suggestion) : Prop :=
  v = v0 \/ more_confident v v0.

(** [v] is [s], or [s] was met while a suggestion at least as confident
    as [v] is now held its key. *)
Definition covers (v s : Suggestion) : Prop :=
  v = s
  \/ exists c cs,
       sg_confidence v = Some c /\ sg_confidence s = Some cs
       /\ PyFloat.gt cs c = false.

Lemma dominates_trans (a b c : Suggestion) :
  dominates a b -> dominates b c -> dominates a c.
Proof.
  intros [-> | (ca & cb & Ha & Hb & Hab)] [-> | (cb' & cc & Hb' & Hc & Hbc)].
  - now left.
  - right. now exists cb', cc.
  - right. now exists ca, cb.
  - right. exists ca, cc. repeat split; auto.
    rewrite Hb in Hb'. injection Hb' as <-. now apply (gt_trans _ cb).
Qed.

Lemma covers_dominates (v' v s : Suggestion) :
  covers v s -> dominates v' v -> covers v' s.
Proof.
  intros Hc [-> | (c' & c & Hv' & Hv & Hgt)]; [exact Hc |].
  right. destruct Hc as [<- | (c0 & cs & Hv0 & Hs & Hle)].
  - exists c', c. repeat split; auto.
    apply (gt_chain c c c'); [apply gt_irrefl | exact Hgt].
  - rewrite Hv in Hv0. injection Hv0 as <-.
    exists c', cs. repeat split; auto. now apply (gt_chain cs c c').
Qed.

Lemma keys_functional (d : Unique) (k : string) (v w : Suggestion) :
  NoDup (map fst d) -> In (k, v) d -> In (k, w) d -> v = w.
Proof.
  induction d as [| [k' x] d IH]; simpl; [tauto |].
  intros Hnd. apply NoDup_cons_iff in Hnd as [Hk Hnd].
  intros [Hv | Hv] [Hw | Hw]; try congruence; auto.
  - injection Hv as -> ->. exfalso. apply Hk.
    now apply (in_map fst _ (k, w)).
  - injection Hw as -> ->. exfalso. apply Hk.
    now apply (in_map fst _ (k, v)).
Qed.

Lemma merge_one_spec (unique u1 : Unique) (s : Suggestion) :
  keyed unique -> merge_one unique s = Ok u1 ->
  keyed u1
  /\ (forall k v, In (k, v) u1 -> In (k, v) unique \/ v = s)
  /\ (forall k v0, In (k, v0) unique ->
                   exists v, In (k, v) u1 /\ dominates v v0)
  /\ (exists k v, suggestion_key s = Ok k /\ In (k, v) u1 /\ covers v s).
Proof.
  intros [Hnd Hkeys]. unfold merge_one.
  destruct (suggestion_key s) as [text | e] eqn:Hkey; [| discriminate].
  destruct (lookup text unique) as [old |] eqn:Hlook.
  - pose proof (lookup_some _ _ _ Hlook) as Hold.
    unfold confidence_key.
    destruct (sg_confidence s) as [c |] eqn:Hc; [| discriminate].
    destruct (sg_confidence old) as [c_old |] eqn:Hco; [| discriminate].
    destruct (PyFloat.gt c c_old) eqn:Hgt; intros [= <-].
    + split; [| split; [| split]].
      * split; [now rewrite replace_keys |].
        intros k v Hin. apply replace_in in Hin as [[-> ->] | Hin]; auto.
      * intros k v Hin. apply replace_in in Hin as [[-> ->] | Hin]; auto.
      * intros k v0 Hin. destruct (string_dec k text) as [Heq | Hne].
        -- subst k. exists s. split; [now apply (replace_in_new _ _ old) |].
           rewrite (keys_functional _ _ _ _ Hnd Hin Hold).
           right. now exists c, c_old.
        -- exists v0. split; [now apply replace_in_other | now left].
      * exists text, s. repeat split; auto.
        -- now apply (replace_in_new _ _ old).
        -- now left.
    + split; [now split |]. split; [auto |]. split.
      * intros k v0 Hin. exists v0. split; [exact Hin | now left].
      * exists text, old. repeat split; auto.
        right. now exists c_old, c.
  - intros [= <-]. apply lookup_none in Hlook.
    split; [| split; [| split]].
    + split.
      * rewrite map_app. cbn. apply NoDup_app; auto.
        -- repeat constructor. simpl. tauto.
        -- intros x Hx [<- | []]. contradiction.
      * intros k v Hin. apply in_app_or in Hin as [Hin | [[= <- <-] | []]];
          auto.
    + intros k v Hin. apply in_app_or in Hin as [Hin | [[= <- <-] | []]];
        auto.
    + intros k v0 Hin. exists v0. split; [apply in_or_app; auto | now left].
    + exists text, s. repeat split; auto.
      * apply in_or_app. right. now left.
      * now left.
Qed.

Lemma merge_spec (all : list Suggestion) :
  forall unique u,
    keyed unique -> merge all unique = Ok u ->
    keyed u
    /\ (forall k v, In (k, v) u -> In (k, v) unique \/ In v all)
    /\ (forall k v0, In (k, v0) unique ->
                     exists v, In (k, v) u /\ dominates v v0)
    /\ (forall s, In s all ->
                  exists k v,
                    suggestion_key s = Ok k /\ In (k, v) u /\ covers v s).
Proof.
  induction all as [| s rest IH]; intros unique u Hk; simpl.
  - intros [= <-]. split; [exact Hk |]. split; [auto |]. split.
    + intros k v0 Hin. exists v0. split; [exact Hin | now left].
    + intros s [].
  - destruct (merge_one unique s) as [u1 | e] eqn:Hone; [| discriminate].
    intros Hrest.
    destruct (merge_one_spec _ _ _ Hk Hone) as (Hk1 & Hfrom1 & Hdom1 & Hs1).
    destruct (IH _ _ Hk1 Hrest) as (Hku & Hfrom & Hdom & Hcov).
    split; [exact Hku |]. split; [| split].
    + intros k v Hin. destruct (Hfrom k v Hin) as [Hin1 | Hin1]; [| auto].
      destruct (Hfrom1 k v Hin1) as [| ->]; auto.
    + intros k v0 Hin. destruct (Hdom1 k v0 Hin) as (v1 & Hin1 & Hd1).
      destruct (Hdom k v1 Hin1) as (v & Hinv & Hd).
      exists v. split; [exact Hinv |]. now apply (dominates_trans _ v1).
    + intros s' [<- | Hin]; [| auto].
      destruct Hs1 as (k & v1 & Hkey & Hin1 & Hc1).
      destruct (Hdom k v1 Hin1) as (v & Hinv & Hd).
      exists k, v. repeat split; auto. now apply (covers_dominates _ v1).
Qed.

Definition confident (u : Unique) : Prop :=
  forall k v, In (k, v) u -> sg_confidence v <> None.

Lemma merge_one_total (unique : Unique) (s : Suggestion) :
  well_formed s -> confident unique ->
  exists u1, merge_one unique s = Ok u1 /\ confident u1.
Proof.
  intros [Hs Hc] Hu. unfold merge_one, suggestion_key, confidence_key.
  destruct (sg_suggestion s) as [t |]; [| contradiction].
  destruct (sg_confidence s) as [c |] eqn:Ec; [| contradiction].
  destruct (lookup _ unique) as [old |] eqn:Hlook.
  - pose proof (Hu _ _ (lookup_some _ _ _ Hlook)) as Hold.
    destruct (sg_confidence old) as [c_old |]; [| contradiction].
    destruct (PyFloat.gt c c_old); eexists; (split; [reflexivity |]); auto.
    intros k v Hin. apply replace_in in Hin as [[_ ->] | Hin].
    + congruence.
    + now apply (Hu k).
  - eexists. split; [reflexivity |].
    intros k v Hin. apply in_app_or in Hin as [Hin | [[= _ <-] | []]].
    + now apply (Hu k).
    + congruence.
Qed.

Lemma merge_total (all : list Suggestion) :
  forall unique,
    Forall well_formed all -> confident unique ->
    exists u, merge all unique = Ok u /\ confident u.
Proof.
  induction all as [| s rest IH]; intros unique Hall Hu; simpl.
  - eauto.
  - apply Forall_cons_iff in Hall as [Hs Hall].
    destruct (merge_one_total unique s Hs Hu) as (u1 & -> & Hu1).
    now apply IH.
Qed.

(** ** The sort of [_combine_and_rank_suggestions] *)

Lemma sort_keys_ok (l : list Suggestion) :
  forall keyed,
    sort_keys l = Ok keyed ->
    map snd keyed = l
    /\ Forall (fun p => sg_confidence (snd p) = Some (fst p)) keyed.
Proof.
  induction l as [| s l IH]; simpl; intros keyed.
  - intros [= <-]. split; [reflexivity | constructor].
  - unfold confidence_key.
    destruct (sg_confidence s) as [c |] eqn:Ec; [| discriminate].
    destruct (sort_keys l) as [keyed' | e]; [| discriminate].
    intros [= <-]. destruct (IH _ eq_refl) as [Hmap Hall].
    split; [cbn; now rewrite Hmap | now constructor].
Qed.

Lemma sort_keys_total (l : list Suggestion) :
  Forall (fun s => sg_confidence s <> None) l ->
  exists keyed, sort_keys l = Ok keyed.
Proof.
  induction 1 as [| s l Hs _ [keyed IH]]; simpl; [eauto |].
  unfold confidence_key. destruct (sg_confidence s); [| contradiction].
  rewrite IH. eauto.
Qed.

Lemma insert_keyed_perm (x : pyfloat * Suggestion)
    (l : list (pyfloat * Suggestion)) :
  Permutation (insert_keyed x l) (x :: l).
Proof.
  induction l as [| y l IH]; simpl; [reflexivity |].
  destruct (PyFloat.gt (fst y) (fst x)); [| reflexivity].
  rewrite IH. apply perm_swap.
Qed.

Lemma sort_keyed_perm (l : list (pyfloat * Suggestion)) :
  Permutation (sort_keyed l) l.
Proof.
  induction l as [| x l IH]; simpl; [reflexivity |].
  rewrite insert_keyed_perm. now constructor.
Qed.

Definition finite_key (p : pyfloat * Suggestion) : Prop :=
  exists q, fst p = Fin q.

Definition keys_descending (l : list (pyfloat * Suggestion)) : Prop :=
  StronglySorted (fun a b => PyFloat.le (fst b) (fst a)) l.

Lemma insert_keyed_sorted (x : pyfloat * Suggestion)
    (l : list (pyfloat * Suggestion)) :
  finite_key x -> Forall finite_key l -> keys_descending l ->
  keys_descending (insert_keyed x l).
Proof.
  unfold keys_descending. intros [qx Hx] Hfin Hs.
  induction Hs as [| y l Hs IH Hall]; simpl.
  - repeat constructor.
  - apply Forall_cons_iff in Hfin as [[qy Hy] Hfin].
    destruct (PyFloat.gt (fst y) (fst x)) eqn:Hgt.
    + constructor; [now apply IH |].
      apply (Permutation_Forall
               (Permutation_sym (insert_keyed_perm x l))).
      constructor; [| exact Hall].
      apply gt_lt in Hgt. rewrite Hx, Hy in *. cbn in *.
      now apply Qlt_le_weak.
    + assert (Hle : PyFloat.le (fst y) (fst x)).
      { rewrite Hx, Hy in *. cbn in *.
        apply negb_false_iff in Hgt. now apply Qle_bool_iff. }
      constructor; [now constructor |].
      constructor; [exact Hle |].
      rewrite Forall_forall in *. intros z Hz.
      specialize (Hall z Hz). destruct (Hfin z Hz) as [qz Hqz].
      rewrite Hx, Hy, Hqz in *. cbn [PyFloat.le] in *.
      now apply (Qle_trans _ (PyFloat.b64 qy)).
Qed.

Lemma sort_keyed_sorted (l : list (pyfloat * Suggestion)) :
  Forall finite_key l -> keys_descending (sort_keyed l).
Proof.
  induction l as [| x l IH]; simpl; intros Hfin.
  - constructor.
  - apply Forall_cons_iff in Hfin as [Hx Hfin].
    apply insert_keyed_sorted; auto.
    apply (Permutation_Forall (Permutation_sym (sort_keyed_perm l))).
    exact Hfin.
Qed.

Lemma keys_descending_ranked (l : list (pyfloat * Suggestion)) :
  Forall (fun p => sg_confidence (snd p) = Some (fst p)) l ->
  keys_descending l -> StronglySorted ranked_before (map snd l).
Proof.
  intros Hkeys Hs. induction Hs as [| p l Hs IH Hall]; simpl.
  - constructor.
  - apply Forall_cons_iff in Hkeys as [Hp Hkeys].
    constructor; [now apply IH |].
    rewrite Forall_forall in *. intros b Hb.
    apply in_map_iff in Hb as [q [<- Hq]].
    exists (fst p), (fst q). repeat split; auto.
Qed.

(** What [_combine_and_rank_suggestions] computes, before the sort. *)
Lemma combine_and_rank_inv (historical ai : list Suggestion)
    (ranked : list Suggestion) :
  combine_and_rank_suggestions historical ai = Ok ranked ->
  exists unique keyed_values,
    merge (historical ++ ai) [] = Ok unique
    /\ sort_keys (map snd unique) = Ok keyed_values
    /\ ranked = map snd (sort_keyed keyed_values)
    /\ Permutation ranked (map snd unique).
Proof.
  unfold combine_and_rank_suggestions.
  destruct (merge (historical ++ ai) []) as [unique | e]; [| discriminate].
  destruct (sort_keys (map snd unique)) as [kv | e] eqn:Hsort;
    [| discriminate].
  intros [= <-]. exists unique, kv. repeat split; auto.
  destruct (sort_keys_ok _ _ Hsort) as [<- _].
  apply Permutation_map, sort_keyed_perm.
Qed.

Lemma nodup_map_some {A : Type} (l : list A) :
  NoDup l -> NoDup (map Some l).
Proof.
  induction 1 as [| a l Ha _ IH]; simpl; constructor; auto.
  intros Hin. apply in_map_iff in Hin as [b [[= ->] Hb]]. contradiction.
Qed.

Lemma keyed_empty : keyed [].
Proof. split; [constructor | intros k v []]. Qed.

Lemma ranking_well_formed (historical ai ranked : list Suggestion) :
  combine_and_rank_suggestions historical ai = Ok ranked ->
  Forall well_formed (historical ++ ai).
Proof.
  intros H.
  destruct (combine_and_rank_inv _ _ _ H)
    as (unique & kv & Hmerge & Hsort & -> & Hperm).
  destruct (merge_spec _ _ _ keyed_empty Hmerge) as (_ & _ & _ & Hcov).
  destruct (sort_keys_ok _ _ Hsort) as [Hvalues Hconf].
  rewrite Forall_forall. intros s Hs.
  destruct (Hcov s Hs) as (k & v & Hk & Hin & Hc). split.
  - apply suggestion_key_normalized in Hk. unfold normalized in Hk.
    destruct (sg_suggestion s); [discriminate | discriminate].
  - destruct Hc as [-> | (c & cs & _ & -> & _)]; [| discriminate].
    assert (Hv : In s (map snd kv))
      by (rewrite Hvalues; now apply (in_map snd _ (k, s))).
    apply in_map_iff in Hv as [p [<- Hp]].
    rewrite Forall_forall in Hconf. rewrite (Hconf p Hp). discriminate.
Qed.

Lemma ranking_total (historical ai : list Suggestion) :
  Forall well_formed (historical ++ ai) ->
  exists ranked, combine_and_rank_suggestions historical ai = Ok ranked.
Proof.
  intros Hall. unfold combine_and_rank_suggestions.
  destruct (merge_total _ [] Hall) as (unique & -> & Hconf).
  { intros k v []. }
  destruct (sort_keys_total (map snd unique)) as [kv ->]; [| eauto].
  rewrite Forall_forall. intros v Hv.
  apply in_map_iff in Hv as [[k v'] [<- Hin]]. now apply (Hconf k).
Qed.

Lemma ranking_incl (historical ai ranked : list Suggestion) :
  combine_and_rank_suggestions historical ai = Ok ranked ->
  incl ranked (historical ++ ai).
Proof.
  intros H.
  destruct (combine_and_rank_inv _ _ _ H)
    as (unique & kv & Hmerge & _ & -> & Hperm).
  destruct (merge_spec _ _ _ keyed_empty Hmerge) as (_ & Hfrom & _).
  intros r Hr. apply (Permutation_in _ Hperm) in Hr.
  apply in_map_iff in Hr as [[k v] [<- Hin]].
  destruct (Hfrom k v Hin) as [[] | Hall]. exact Hall.
Qed.

(** The ranking keeps one suggestion for each text (compared in lower
    case, without the white space around it), the first of those with the
    highest confidence, and returns them by decreasing confidence.  It
    returns only when every suggestion has the keys "suggestion" and
    "confidence". *)
Theorem ranking_keeps_the_best_of_each_text
    (historical ai ranked : list Suggestion) :
  combine_and_rank_suggestions historical ai = Ok ranked ->
  Forall well_formed (historical ++ ai)
  /\ NoDup (map normalized ranked)
  /\ incl ranked (historical ++ ai)
  /\ (forall s, In s (historical ++ ai) ->
                exists r, In r ranked /\ normalized r = normalized s
                          /\ ~ more_confident s r)
  /\ (Forall finite (historical ++ ai) ->
      StronglySorted ranked_before ranked).
Proof.
  intros H.
  destruct (combine_and_rank_inv _ _ _ H)
    as (unique & kv & Hmerge & Hsort & -> & Hperm).
  destruct (merge_spec _ _ _ keyed_empty Hmerge)
    as ([Hnd Hkeys] & Hfrom & _ & Hcov).
  destruct (sort_keys_ok _ _ Hsort) as [Hvalues Hconf].
  assert (Hin_ranked : forall k v,
             In (k, v) unique -> In v (map snd (sort_keyed kv))).
  { intros k v Hin. apply (Permutation_in _ (Permutation_sym Hperm)).
    now apply (in_map snd _ (k, v)). }
  assert (Hhas : forall k v, In (k, v) unique -> sg_confidence v <> None).
  { intros k v Hin.
    assert (Hv : In v (map snd kv))
      by (rewrite Hvalues; now apply (in_map snd _ (k, v))).
    apply in_map_iff in Hv as [p [<- Hp]].
    rewrite Forall_forall in Hconf. rewrite (Hconf p Hp). discriminate. }
  assert (Hnot : forall v s, covers v s -> ~ more_confident s v).
  { intros v s [-> | (c & cs & Hv & Hs & Hle)] (cs' & c' & Hs' & Hv' & Hgt).
    - rewrite Hs' in Hv'. injection Hv' as <-.
      rewrite gt_irrefl in Hgt. discriminate.
    - congruence. }
  split; [| split; [| split; [| split]]].
  - now apply (ranking_well_formed _ _ _ H).
  - apply (Permutation_NoDup
             (Permutation_map normalized (Permutation_sym Hperm))).
    assert (Heq : map normalized (map snd unique)
                  = map Some (map fst unique)).
    { rewrite !map_map. apply map_ext_in. intros [k v] Hin. cbn.
      now apply suggestion_key_normalized, Hkeys. }
    rewrite Heq. now apply nodup_map_some.
  - intros r Hr. apply (Permutation_in _ Hperm) in Hr.
    apply in_map_iff in Hr as [[k v] [<- Hin]].
    destruct (Hfrom k v Hin) as [[] | Hall]. exact Hall.
  - intros s Hs. destruct (Hcov s Hs) as (k & v & Hk & Hin & Hc).
    exists v. split; [now apply (Hin_ranked k) |]. split.
    + apply suggestion_key_normalized in Hk. rewrite Hk.
      now apply suggestion_key_normalized, Hkeys.
    + now apply Hnot.
  - intros Hfin. apply keys_descending_ranked.
    + apply (Permutation_Forall (Permutation_sym (sort_keyed_perm kv))).
      exact Hconf.
    + apply sort_keyed_sorted. rewrite Forall_forall in *.
      intros p Hp.
      assert (Hv : In (snd p) (map snd unique))
        by (rewrite <- Hvalues; now apply in_map).
      apply in_map_iff in Hv as [[k v] [Hsnd Hin]]. cbn in Hsnd.
      destruct (Hfrom k v Hin) as [[] | Hall].
      destruct (Hfin v Hall) as [q Hq].
      exists q. specialize (Hconf p Hp). cbn in Hconf.
      rewrite <- Hsnd, Hq in Hconf. congruence.
Qed.

Lemma ranking_keeps_the_best_of_each_text_witness :
  exists ranked,
    combine_and_rank_suggestions [] sample_ai = Ok ranked
    /\ List.length ranked = 2
    /\ NoDup (map normalized ranked).
Proof.
  assert (Hrun : exists ranked,
             combine_and_rank_suggestions [] sample_ai = Ok ranked
             /\ List.length ranked = 2)
    by (eexists; split; [vm_compute; reflexivity | vm_compute; reflexivity]).
  destruct Hrun as (ranked & Hrun & Hlen). exists ranked.
  split; [exact Hrun |]. split; [exact Hlen |].
  apply (ranking_keeps_the_best_of_each_text [] sample_ai ranked Hrun).
Defined.

(** ** The historical suggestions *)

Lemma substring_length (n : nat) (s : string) :
  String.length (substring 0 n s) <= n.
Proof.
  revert s. induction n as [| n IH]; intros [| c s]; cbn; try lia.
  specialize (IH s). lia.
Qed.

(** What every historical suggestion looks like. *)
Definition historical_shape (s : Suggestion) : Prop :=
  (exists t, sg_suggestion s = Some t
             /\ t <> EmptyString /\ String.length t <= 100)
  /\ (exists q, sg_confidence s = Some (Fin q)
                 /\ PyFloat.le (Fin (65 # 100)) (Fin q))
  /\ sg_source s = Some "historical"%string
  /\ sg_technical_symptom s = None
  /\ sg_symptom s = None.

Lemma historical_loop_shape (cases : list Case) :
  Forall (fun c => PyFloat.le (Fin (65 # 100)) (similarity_score c)) cases ->
  forall seen, Forall historical_shape (historical_loop cases seen).
Proof.
  induction 1 as [| c cases Hc _ IH]; intros seen; simpl; [constructor |].
  destruct (symptomcomments_clean c) as [clean |]; [| apply IH].
  destruct (PyStr.truthy clean && negb (mem clean seen)) eqn:E;
    [| apply IH].
  constructor; [| apply IH].
  apply andb_true_iff in E as [Htruthy _].
  unfold historical_shape, historical_suggestion. cbn.
  split; [| split; [| auto]].
  - eexists. split; [reflexivity |]. split; [| apply substring_length].
    destruct clean; [discriminate | cbn; discriminate].
  - destruct (similarity_score c) as [| q]; [contradiction |].
    exists q. split; [reflexivity | exact Hc].
Qed.

Lemma historical_shape_well_formed (s : Suggestion) :
  historical_shape s -> well_formed s.
Proof.
  intros [(t & Ht & _) [(q & Hq & _) _]]. split; congruence.
Qed.

Lemma historical_suggestions_well_shaped (env : ServiceEnv)
    (user_symptom machine_type : string) :
  Forall historical_shape
    (get_historical_symptom_suggestions env user_symptom machine_type).
Proof.
  unfold get_historical_symptom_suggestions, outcome.
  destruct (fst (find_similar_issues (processor env) user_symptom
                   (Some machine_type) 10 default_alpha default_min_cutoff
                   [])) as [cases | e] eqn:Hfind; [| constructor].
  destruct (find_similar_issues_bounds _ _ _ _ _ _ _ _ Hfind) as [Hcut _].
  pose proof (historical_loop_shape cases Hcut []) as Hall.
  rewrite Forall_forall in *. intros s Hs. apply Hall.
  eapply in_firstn; eauto.
Qed.

(** At most three historical suggestions are returned, whatever the
    search does.  Each has a non-empty text of at most 100 characters, a
    numeric confidence of at least 0.65 (the search's default cut-off),
    the source "historical", and neither of the keys "technical_symptom"
    and "symptom". *)
Theorem historical_suggestions_shape (env : ServiceEnv)
    (user_symptom machine_type : string) :
  let historical :=
    get_historical_symptom_suggestions env user_symptom machine_type in
  List.length historical <= 3
  /\ Forall historical_shape historical
  /\ (db_connect (processor env) = false -> historical = []).
Proof.
  cbv zeta. split; [| split].
  - unfold get_historical_symptom_suggestions.
    destruct (outcome _); [apply firstn_le_length | cbn; lia].
  - apply historical_suggestions_well_shaped.
  - intros Hconn.
    unfold get_historical_symptom_suggestions, outcome, find_similar_issues.
    rewrite Hconn. reflexivity.
Qed.

(** ** [suggest_technical_symptoms] *)

(** The service never raises and returns at most five suggestions: the
    first five of the ranking when every suggestion of the chat model has
    the keys "suggestion" and "confidence", and otherwise the user's own
    text alone, with confidence 1.0 and the source "original", the
    historical suggestions being dropped as well. *)
Theorem suggestions_or_the_original (env : ServiceEnv)
    (user_symptom machine_type : string) :
  let historical :=
    get_historical_symptom_suggestions env user_symptom machine_type in
  let ai := generate_ai_symptom_suggestions env user_symptom machine_type in
  let result := suggest_technical_symptoms env user_symptom machine_type in
  List.length result <= 5
  /\ (Forall well_formed ai ->
      exists ranked,
        combine_and_rank_suggestions historical ai = Ok ranked
        /\ result = firstn 5 ranked)
  /\ (~ Forall well_formed ai -> result = [original_suggestion user_symptom]).
Proof.
  cbv zeta. unfold suggest_technical_symptoms.
  set (historical :=
         get_historical_symptom_suggestions env user_symptom machine_type).
  set (ai := generate_ai_symptom_suggestions env user_symptom machine_type).
  assert (Hhist : Forall well_formed historical).
  { pose proof (historical_suggestions_well_shaped env user_symptom
                  machine_type) as Hall.
    fold historical in Hall. rewrite Forall_forall in *.
    intros s Hs. now apply historical_shape_well_formed, Hall. }
  destruct (combine_and_rank_suggestions historical ai) as [ranked | e]
    eqn:Hrank.
  - split; [apply firstn_le_length |]. split; [eauto |].
    intros Hbad. exfalso. apply Hbad.
    apply ranking_well_formed in Hrank.
    rewrite Forall_app in Hrank. tauto.
  - split; [cbn; lia |]. split; [| reflexivity].
    intros Hai. exfalso.
    assert (Hall : Forall well_formed (historical ++ ai))
      by (apply Forall_app; auto).
    destruct (ranking_total _ _ Hall) as [ranked Hok]. congruence.
Qed.

(** ** The service inside the symptom analyzer *)

(** Two past cases with one symptom text, and a chat model that answers in
    the format its prompt asks for. *)
Definition sample_history : list Case :=
  [ mkCase (Some "C-1") (Some "BX") None (Some "Hydraulics") None None
           (Some "oil leaking from hydraulic pump") None
           (Some "7J065-85200") None (Fin (9 # 10));
    mkCase (Some "C-2") (Some "BX") None (Some "Hydraulics") None None
           (Some "oil leaking from hydraulic pump") None
           (Some "9L200-54321") None (Fin (8 # 10)) ].

Definition sample_env : ServiceEnv :=
  {| processor :=
       mkEnv true (Ok tt) (fun _ _ => Ok sample_history) (Ok tt)
             (fun _ => Ok [Fin (1 # 10); Fin (2 # 10)])
             (fun _ _ => Ok []) None false;
     generate_ai_symptom_suggestions := fun _ _ => sample_ai |}.

(** The suggestion has neither of the keys the analyzer reads. *)
Definition without_symptom_keys (s : Suggestion) : Prop :=
  sg_technical_symptom s = None /\ sg_symptom s = None.

Lemma suggestions_without_symptom_keys (env : ServiceEnv)
    (user_symptom machine_type : string) :
  Forall without_symptom_keys
         (generate_ai_symptom_suggestions env user_symptom machine_type) ->
  Forall without_symptom_keys
         (suggest_technical_symptoms env user_symptom machine_type).
Proof.
  intros Hai. unfold suggest_technical_symptoms.
  destruct (combine_and_rank_suggestions _ _) as [ranked | e] eqn:Hrank.
  - pose proof (ranking_incl _ _ _ Hrank) as Hincl.
    pose proof (historical_suggestions_well_shaped env user_symptom
                  machine_type) as Hhist.
    rewrite Forall_forall in *. intros s Hs.
    eapply in_firstn in Hs. apply Hincl, in_app_or in Hs as [Hs | Hs].
    + destruct (Hhist s Hs) as (_ & _ & _ & H1 & H2). now split.
    + now apply Hai.
  - repeat constructor.
Qed.

Lemma texts_without_symptom_keys (l : list Suggestion) :
  Forall without_symptom_keys l ->
  map symptom_text (map as_symptom l) = repeat EmptyString (List.length l).
Proof.
  induction 1 as [| s l [H1 H2] _ IH]; cbn [map List.length repeat];
    [reflexivity |].
  rewrite IH. unfold symptom_text, as_symptom. cbn. now rewrite H1, H2.
Qed.

(** With this service behind it the symptom analyzer never records a
    failure.  The service writes its texts under the key "suggestion" and
    the analyzer reads "technical_symptom" and "symptom": unless the chat
    model adds one of these keys of its own accord, every processed symptom
    is the empty string, one for each of the at most five suggestions, and
    the issue text is kept only when the service returns no suggestion at
    all. *)
Theorem analyzer_reads_other_keys (env : ServiceEnv) (st : KubotaAIState) :
  Forall without_symptom_keys
         (generate_ai_symptom_suggestions env (user_issue st)
            (or_empty (machine_series st))) ->
  exists st',
    symptom_analyzer_node (agent_env env) st = Ok st'
    /\ error_message st' = error_message st
    /\ let n := List.length
                  (suggest_technical_symptoms env (user_issue st)
                     (or_empty (machine_series st))) in
       n <= 5
       /\ processed_symptoms st'
          = if Nat.eqb n 0 then [user_issue st] else repeat EmptyString n.
Proof.
  intros Hai.
  pose proof (suggestions_without_symptom_keys env _ _ Hai) as Hall.
  apply texts_without_symptom_keys in Hall.
  assert (Hlen : List.length
                   (suggest_technical_symptoms env (user_issue st)
                      (or_empty (machine_series st))) <= 5).
  { unfold suggest_technical_symptoms.
    destruct (combine_and_rank_suggestions _ _);
      [apply firstn_le_length | cbn; lia]. }
  unfold symptom_analyzer_node, symptom_analyzer_body,
    symptom_analyzer_handler, agent_env. run_node.
  match goal with
  | |- context [?f (mkEnv ?a ?b ?c ?d ?e ?g ?h ?i) ?x ?y] =>
      change (f (mkEnv a b c d e g h i) x y) with (g x y)
  end.
  cbv beta. fields.
  rewrite Hall.
  destruct (suggest_technical_symptoms env (user_issue st)
              (or_empty (machine_series st))) as [| s l];
    eexists; (split; [reflexivity |]); fields; cbv zeta;
    (split; [reflexivity |]); (split; [exact Hlen | reflexivity]).
Qed.

Lemma analyzer_reads_other_keys_witness :
  exists st',
    symptom_analyzer_node (agent_env sample_env)
      (initial_state "pump leaks oil" None None None) = Ok st'
    /\ processed_symptoms st'
       = [EmptyString; EmptyString; EmptyString].
Proof.
  destruct (analyzer_reads_other_keys sample_env
              (initial_state "pump leaks oil" None None None))
    as (st' & Hrun & _ & _ & Hp).
  - repeat constructor.
  - exists st'. split; [exact Hrun | exact Hp].
Defined.

End SymptomService.

(* ================================================================== *)
(** * Writing to the store ([src/ai/ticket_processor_adapted.py]) *)

Module TicketStore.

(** [analysis_notes].  Its third key, "issue_types_found", is a list made
    from a set of subassembly names, whose order Python does not fix; it is
    left out. *)
Record AnalysisNotes : Type := mkNotes {
  total_similar_cases : nat;
  avg_similarity : pyfloat
}.

(** The parameters of one [INSERT INTO ticket_recommendations]; the two
    JSON texts are kept as the values dumped. *)
Record Row : Type := mkRow {
  row_ticket_id : Z;
  row_similar_claim_id : option string;
  row_similarity_score : pyfloat;
  row_recommended_parts : list PartRecommendation;
  row_confidence_level : pyfloat;
  row_analysis_notes : AnalysisNotes
}.

(** [ticket_data], a dict read with [.get]: a key that is missing is
    [None] in the four fields sent as they are. *)
Record TicketData : Type := mkTicketData {
  td_issue_type : option string;
  td_issue_text : option string;
  td_status : option string;
  td_machine_id : option Z;
  td_user_id : option Z;
  td_created_at : option string
}.

(** The parameters of the [INSERT INTO tickets]. *)
Record TicketParams : Type := mkTicketParams {
  tp_issue_type : option string;
  tp_issue_text : option string;
  tp_status : string;
  tp_machine_id : option Z;
  tp_user_id : option Z;
  tp_created_at : string
}.

(** A row of [tickets]: the columns [process_existing_ticket] reads. *)
Record Ticket : Type := mkTicket {
  t_issue_text : option string;
  t_issue_type : option string
}.

(** What a method does to the store, in order. *)
Inductive DbEvent : Type :=
| InsertRecommendation (r : Row)
| InsertTicket (p : TicketParams)
| Commit
| Rollback
| Close.

(** The store as one call of a method sees it. *)
Record DbEnv : Type := mkDbEnv {
  (** [connect_to_database()] returned a connection. *)
  conn_open : bool;
  (** [self.conn.cursor(...)] *)
  conn_cursor : exc unit;
  (** The [n]-th [cursor.execute] of [save_recommendations] (from 0). *)
  exec_insert_recommendation : nat -> Row -> exc unit;
  (** [cursor.execute] and [cursor.fetchone] of [create_ticket]: the
      returned [ticket_id], or no row. *)
  exec_insert_ticket : TicketParams -> exc (option Z);
  (** [cursor.execute] and [cursor.fetchone] of
      [process_existing_ticket]. *)
  exec_select_ticket : Z -> exc (option Ticket);
  conn_commit : exc unit;
  conn_rollback : exc unit;
  (** [cursor.close()] and [self.disconnect()] of the [finally] block. *)
  conn_close : exc unit;
  (** [datetime.now()] *)
  datetime_now : string;
  (** Whether the interpreter's [sum] adds floats with compensation
      (CPython from 3.12 on). *)
  db_compensated_sum : bool
}.

Definition W (A : Type) : Type := ST (list DbEvent) A.

Definition db_call {A : Type} (ev : DbEvent) (answer : exc A) : W A :=
  fun t => (answer, t ++ [ev]).

(** [sum(case.get('similarity_score', 0.0) for case in similar_cases)
    / len(similar_cases) if similar_cases else 0] *)
Definition notes_of (env : DbEnv) (similar_cases : list Case)
  : AnalysisNotes :=
  {| total_similar_cases := List.length similar_cases;
     avg_similarity :=
       PyFloat.mean64 (db_compensated_sum env)
                      (map similarity_score similar_cases) |}.

Definition row_of (ticket_id : Z) (recommendations : list PartRecommendation)
    (notes : AnalysisNotes) (case : Case) : Row :=
  {| row_ticket_id := ticket_id;
     row_similar_claim_id := claimid case;
     row_similarity_score := similarity_score case;
     row_recommended_parts := recommendations;
     row_confidence_level := similarity_score case;
     row_analysis_notes := notes |}.

(** The rows of [for case in similar_cases[:5]]. *)
Definition rows_of (env : DbEnv) (ticket_id : Z)
    (similar_cases : list Case)
    (recommendations : list PartRecommendation) : list Row :=
  map (row_of ticket_id recommendations (notes_of env similar_cases))
      (firstn 5 similar_cases).

(** The loop, [n] executes having been made. *)
Fixpoint insert_all (env : DbEnv) (rows : list Row) (n : nat) : W unit :=
  match rows with
  | [] => ret tt
  | r :: rest =>
      db_call (InsertRecommendation r) (exec_insert_recommendation env n r) ;;
      insert_all env rest (S n)
  end.

Definition save_recommendations (env : DbEnv) (ticket_id : Z)
    (similar_cases : list Case) (recommendations : list PartRecommendation)
  : W bool :=
  if negb (conn_open env) then ret false
  else
    try_finally
      (try_except
         (lift (conn_cursor env) ;;
          insert_all env (rows_of env ticket_id similar_cases recommendations)
                     0 ;;
          db_call Commit (conn_commit env) ;;
          ret true)
         (fun _ => db_call Rollback (conn_rollback env) ;; ret false))
      (db_call Close (conn_close env)).

(** The dict of parameters of [create_ticket]. *)
Definition params_of (env : DbEnv) (ticket_data : TicketData)
  : TicketParams :=
  {| tp_issue_type := td_issue_type ticket_data;
     tp_issue_text := td_issue_text ticket_data;
     tp_status :=
       match td_status ticket_data with
       | Some s => s
       | None => "open"%string
       end;
     tp_machine_id := td_machine_id ticket_data;
     tp_user_id := td_user_id ticket_data;
     tp_created_at :=
       match td_created_at ticket_data with
       | Some t => t
       | None => datetime_now env
       end |}.

Definition create_ticket (env : DbEnv) (ticket_data : TicketData)
  : W (option Z) :=
  if negb (conn_open env) then ret None
  else
    try_finally
      (try_except
         (lift (conn_cursor env) ;;
          let params := params_of env ticket_data in
          result <- db_call (InsertTicket params)
                            (exec_insert_ticket env params) ;;
          match result with
          | None => ret None
          | Some ticket_id =>
              db_call Commit (conn_commit env) ;;
              ret (Some ticket_id)
          end)
         (fun _ => db_call Rollback (conn_rollback env) ;; ret None))
      (db_call Close (conn_close env)).

(** One entry of 'top_similar_cases'. *)
Record TopCase : Type := mkTopCase {
  claim_id : option string;
  series : option string;
  tc_subassembly : option string;
  similarity : pyfloat;
  symptoms : string;
  parts_used : option string
}.

(** The dict [process_existing_ticket] returns. *)
Record Processed : Type := mkProcessed {
  p_ticket_id : Z;
  p_ticket_data : Ticket;
  p_similar_cases : nat;
  p_recommendations : list PartRecommendation;
  p_top_similar_cases : list TopCase
}.

Definition top_case (case : Case) : TopCase :=
  {| claim_id := claimid case;
     series := seriesname case;
     tc_subassembly := subassembly case;
     similarity := PyFloat.round3 (similarity_score case);
     symptoms :=
       (substring 0 100 (or_empty (symptomcomments_clean case)) ++ "...")
         %string;
     parts_used := partname case |}.

Definition processed (ticket_id : Z) (ticket : Ticket)
    (similar_cases : list Case) (recommendations : list PartRecommendation)
  : Processed :=
  {| p_ticket_id := ticket_id;
     p_ticket_data := ticket;
     p_similar_cases := List.length similar_cases;
     p_recommendations := recommendations;
     p_top_similar_cases := map top_case (firstn 3 similar_cases) |}.

(** The three connections of one [process_existing_ticket]: the one that
    reads the ticket, the one of [find_similar_issues] and the one of
    [save_recommendations]. *)
Record ProcessEnv : Type := mkProcessEnv {
  tickets_db : DbEnv;
  search_db : Env;
  store_db : DbEnv;
  (** [self.disconnect()] of the [finally] block on a connection that an
      inner call left open because its own closing raised. *)
  disconnect_again : exc unit
}.

Definition raises {A : Type} (r : exc A) : bool :=
  match r with
  | Raise _ => true
  | Ok _ => false
  end.

(** [self.conn] while [process_existing_ticket] runs: [None], or a
    connection together with what closing it will do. *)
Definition Conn : Type := option (exc unit).

Definition P (A : Type) : Type := ST Conn A.

(** [cursor.close()] and [self.disconnect()]: nothing to do when there is
    no connection (closing a cursor again does nothing); a closing that
    raises leaves [self.conn] set. *)
Definition disconnect : P unit :=
  fun conn =>
    match conn with
    | None => (Ok tt, None)
    | Some (Ok _) => (Ok tt, None)
    | Some (Raise e) => (Raise e, conn)
    end.

(** An inner call opens and closes a connection of its own: it leaves
    [self.conn] set only when its own closing raised
    ([find_similar_issues] raises in no other way). *)
Definition inner_call {A : Type} (env : ProcessEnv) (result : exc A)
    (closing_raised : bool) : P A :=
  fun _ =>
    match result with
    | Ok a => (Ok a, None)
    | Raise e =>
        (Raise e,
         if closing_raised then Some (disconnect_again env) else None)
    end.

Definition process_existing_ticket_run (env : ProcessEnv) (ticket_id : Z)
  : P (option Processed) :=
  let db := tickets_db env in
  if negb (conn_open db) then ret None
  else
    modify (fun _ => Some (conn_close db)) ;;
    try_finally
      (try_except
         (lift (conn_cursor db) ;;
          ticket <- lift (exec_select_ticket db ticket_id) ;;
          match ticket with
          | None => ret None
          | Some ticket =>
              disconnect ;;
              similar_cases <-
                inner_call env
                  (outcome (find_similar_issues (search_db env)
                              (or_empty (t_issue_text ticket))
                              (t_issue_type ticket) 10
                              default_alpha default_min_cutoff))
                  true ;;
              recommendations <-
                (if nonempty similar_cases then
                   let recommendations :=
                     extract_recommended_parts similar_cases in
                   inner_call env
                     (fst (save_recommendations (store_db env) ticket_id
                             similar_cases recommendations []))
                     (raises (conn_close (store_db env))) ;;
                   ret recommendations
                 else ret []) ;;
              ret (Some (processed ticket_id ticket similar_cases
                                   recommendations))
          end)
         (fun _ => ret None))
      disconnect.

(** [process_existing_ticket], [self.conn] being [None] at the call. *)
Definition process_existing_ticket (env : ProcessEnv) (ticket_id : Z)
  : exc (option Processed) :=
  fst (process_existing_ticket_run env ticket_id None).

(** The rows a trace tried to insert, oldest first. *)
Fixpoint inserts_of (t : list DbEvent) : list Row :=
  match t with
  | [] => []
  | InsertRecommendation r :: t' => r :: inserts_of t'
  | _ :: t' => inserts_of t'
  end.

(** Every execute of the loop is answered. *)
Definition inserts_succeed (env : DbEnv) (rows : list Row) : Prop :=
  forall n r,
    nth_error rows n = Some r -> exec_insert_recommendation env n r = Ok tt.

(** A store that accepts everything. *)
Definition healthy_store : DbEnv :=
  {| conn_open := true;
     conn_cursor := Ok tt;
     exec_insert_recommendation := fun _ _ => Ok tt;
     exec_insert_ticket := fun _ => Ok (Some 17%Z);
     exec_select_ticket :=
       fun _ => Ok (Some (mkTicket (Some "hydraulic oil leak") None));
     conn_commit := Ok tt;
     conn_rollback := Ok tt;
     conn_close := Ok tt;
     datetime_now := "2025-01-01 00:00:00";
     db_compensated_sum := false |}.

(** A store that refuses the second insert of a call. *)
Definition refusing_store : DbEnv :=
  {| conn_open := true;
     conn_cursor := Ok tt;
     exec_insert_recommendation :=
       fun n _ => if Nat.eqb n 1 then Raise "deadlock detected" else Ok tt;
     exec_insert_ticket := fun _ => Raise "deadlock detected";
     exec_select_ticket := fun _ => Ok None;
     conn_commit := Ok tt;
     conn_rollback := Ok tt;
     conn_close := Ok tt;
     datetime_now := "2025-01-01 00:00:00";
     db_compensated_sum := false |}.

(** ** [save_recommendations] *)

Lemma inserts_of_app (t u : list DbEvent) :
  inserts_of (t ++ u) = (inserts_of t ++ inserts_of u)%list.
Proof.
  induction t as [| ev t IH]; simpl; [reflexivity |].
  destruct ev; simpl; now rewrite IH.
Qed.

Lemma inserts_of_map (rows : list Row) :
  inserts_of (map InsertRecommendation rows) = rows.
Proof. induction rows; simpl; congruence. Qed.

(** Every execute from the [n]-th on is answered. *)
Definition inserts_succeed_from (env : DbEnv) (n : nat) (rows : list Row)
  : Prop :=
  forall i r,
    nth_error rows i = Some r ->
    exec_insert_recommendation env (n + i) r = Ok tt.

(** The loop stops at the first execute that raises. *)
Lemma insert_all_run (env : DbEnv) (rows : list Row) :
  forall n t,
    exists k,
      snd (insert_all env rows n t)
      = (t ++ map InsertRecommendation (firstn k rows))%list
      /\ ((fst (insert_all env rows n t) = Ok tt
           /\ k = List.length rows /\ inserts_succeed_from env n rows)
          \/ (exists e, fst (insert_all env rows n t) = Raise e)
             /\ ~ inserts_succeed_from env n rows).
Proof.
  induction rows as [| r rows IH]; intros n t; simpl.
  - exists 0. cbn. rewrite app_nil_r. split; [reflexivity |]. left.
    repeat split. intros [| i] r' H; discriminate.
  - unfold bind, db_call.
    destruct (exec_insert_recommendation env n r) as [[] | e] eqn:Hexec.
    + destruct (IH (S n) (t ++ [InsertRecommendation r])%list)
        as [k [Htr Hk]].
      exists (S k). split.
      { rewrite Htr, <- app_assoc. reflexivity. }
      destruct Hk as [(Hok & -> & Hall) | ([e He] & Hnot)].
      * left. repeat split; auto.
        intros [| i] r' H; cbn in H.
        -- injection H as <-. now rewrite Nat.add_0_r.
        -- rewrite Nat.add_succ_r. now apply (Hall i).
      * right. split; [eauto |]. intros Hall. apply Hnot.
        intros i r' H. specialize (Hall (S i) r' H).
        now rewrite Nat.add_succ_r in Hall.
    + exists 1. cbn. split; [reflexivity |]. right. split; [eauto |].
      intros Hall. specialize (Hall 0 r eq_refl).
      rewrite Nat.add_0_r in Hall. congruence.
Qed.

Lemma rows_of_length (env : DbEnv) (ticket_id : Z)
    (similar_cases : list Case)
    (recommendations : list PartRecommendation) :
  List.length (rows_of env ticket_id similar_cases recommendations) <= 5
  /\ List.length (rows_of env ticket_id similar_cases recommendations)
     <= List.length similar_cases.
Proof.
  unfold rows_of. rewrite length_map, length_firstn. lia.
Qed.

(** One call is one transaction of at most five inserts, one for each of
    the first five similar cases.  It returns [True] exactly when the
    connection and the cursor open, every insert, the commit and the
    closing succeed, and then it has sent all the rows, one commit and
    nothing else; the inserts it sends are always a prefix of the rows;
    when it returns [False] on an open connection it has rolled back, and
    a commit it may have sent before had raised. *)
Theorem save_is_one_transaction (env : DbEnv) (ticket_id : Z)
    (similar_cases : list Case) (recommendations : list PartRecommendation) :
  let rows := rows_of env ticket_id similar_cases recommendations in
  let run := save_recommendations env ticket_id similar_cases
               recommendations [] in
  List.length rows <= 5
  /\ (exists k, inserts_of (snd run) = firstn k rows)
  /\ (fst run = Ok true
      <-> conn_open env = true /\ conn_cursor env = Ok tt
          /\ inserts_succeed env rows
          /\ conn_commit env = Ok tt /\ conn_close env = Ok tt)
  /\ (fst run = Ok true ->
      snd run = (map InsertRecommendation rows ++ [Commit; Close])%list)
  /\ (fst run = Ok false -> conn_open env = true ->
      In Rollback (snd run) /\ conn_rollback env = Ok tt
      /\ (In Commit (snd run) -> exists e, conn_commit env = Raise e)).
Proof.
  cbv zeta.
  set (rows := rows_of env ticket_id similar_cases recommendations).
  split; [apply rows_of_length |].
  unfold save_recommendations. fold rows.
  destruct (conn_open env); cbn [negb].
  2: { unfold ret. cbn [fst snd inserts_of].
       split; [exists 0; reflexivity |].
       split; [split; [discriminate | intros (H & _); discriminate] |].
       split; [discriminate |]. intros _ H. discriminate. }
  unfold try_finally, try_except, bind, lift, db_call, ret.
  destruct (conn_cursor env) as [[] | e0].
  2: { cbn [fst snd app].
       destruct (conn_rollback env) as [[] | e1],
                (conn_close env) as [[] | e2]; cbn [fst snd];
         (split; [exists 0; reflexivity |]);
         (split; [split; [discriminate | intros (_ & H & _); discriminate]
                 |]);
         (split; [discriminate |]); try discriminate.
       intros _ _. cbn. split; [tauto |]. split; [reflexivity |].
       intros [H | [H | []]]; discriminate. }
  destruct (insert_all_run env rows 0 []) as [k [Htr Hk]].
  destruct (insert_all env rows 0 []) as [r t1]. cbn [fst snd app] in *.
  subst t1.
  assert (Hsucc : inserts_succeed_from env 0 rows <-> inserts_succeed env rows)
    by (unfold inserts_succeed_from, inserts_succeed; cbn; tauto).
  assert (Hno : forall l, ~ In Rollback (map InsertRecommendation l)
                          /\ ~ In Commit (map InsertRecommendation l)).
  { intros l. split; intros H; apply in_map_iff in H as [x [H _]];
      discriminate. }
  destruct Hk as [(-> & -> & Hall) | ([e ->] & Hnot)].
  - rewrite firstn_all.
    destruct (conn_commit env) as [[] | e1].
    + destruct (conn_close env) as [[] | e2]; cbn [fst snd];
        rewrite <- ?app_assoc; cbn [app].
      * split.
        { exists (List.length rows).
          rewrite inserts_of_app, inserts_of_map, firstn_all. cbn.
          now rewrite app_nil_r. }
        split; [split; [intros _; repeat split; tauto | reflexivity] |].
        split; [reflexivity | discriminate].
      * split.
        { exists (List.length rows).
          rewrite inserts_of_app, inserts_of_map, firstn_all. cbn.
          now rewrite app_nil_r. }
        split; [split; [discriminate
                       | intros (_ & _ & _ & _ & H); discriminate] |].
        split; discriminate.
    + destruct (conn_rollback env) as [[] | e3],
               (conn_close env) as [[] | e2]; cbn [fst snd];
        rewrite <- ?app_assoc; cbn [app];
        (split; [exists (List.length rows);
                 rewrite inserts_of_app, inserts_of_map, firstn_all; cbn;
                 now rewrite app_nil_r |]);
        (split; [split; [discriminate
                        | intros (_ & _ & _ & H & _); discriminate] |]);
        (split; [discriminate |]); try discriminate.
      intros _ _. split; [| split; [reflexivity | eauto]].
      apply in_or_app. right. cbn. tauto.
  - destruct (conn_rollback env) as [[] | e3],
             (conn_close env) as [[] | e2]; cbn [fst snd];
      rewrite <- ?app_assoc; cbn [app];
      (split; [exists k; rewrite inserts_of_app, inserts_of_map; cbn;
               now rewrite app_nil_r |]);
      (split; [split; [discriminate
                      | intros (_ & _ & H & _); exfalso;
                        now apply Hnot, Hsucc] |]);
      (split; [discriminate |]); try discriminate.
    intros _ _. split; [apply in_or_app; right; cbn; tauto |].
    split; [reflexivity |].
    intros H. apply in_app_or in H as [H | [H | [H | []]]];
      try discriminate.
    now apply Hno in H.
Qed.

(** The scenario's three cases are saved as three rows and one commit. *)
Lemma save_scenario_cases :
  save_recommendations healthy_store 7 scenario_cases
    (extract_recommended_parts scenario_cases) []
  = (Ok true,
     (map InsertRecommendation
          (rows_of healthy_store 7 scenario_cases
                   (extract_recommended_parts scenario_cases))
      ++ [Commit; Close])%list).
Proof. reflexivity. Qed.

(** ** [create_ticket] *)

Ltac oracle o :=
  let e := fresh "e" in destruct o as [[] | e].

(** A ticket id is returned exactly when the connection and the cursor
    open, the insert returns a row, and the commit and the closing
    succeed; the store has then seen the insert, one commit and the
    closing.  When the insert returns no row the method gives up without
    commit and without rollback.  A missing status is sent as "open" and a
    missing creation time as the clock's. *)
Theorem create_ticket_commits (env : DbEnv) (ticket_data : TicketData) :
  let params := params_of env ticket_data in
  let run := create_ticket env ticket_data [] in
  (forall ticket_id,
      fst run = Ok (Some ticket_id)
      <-> conn_open env = true /\ conn_cursor env = Ok tt
          /\ exec_insert_ticket env params = Ok (Some ticket_id)
          /\ conn_commit env = Ok tt /\ conn_close env = Ok tt)
  /\ (forall ticket_id,
         fst run = Ok (Some ticket_id) ->
         snd run = [InsertTicket params; Commit; Close])
  /\ (conn_open env = true -> conn_cursor env = Ok tt ->
      exec_insert_ticket env params = Ok None ->
      snd run = [InsertTicket params; Close])
  /\ (In Rollback (snd run) -> In Commit (snd run) ->
      exists e, conn_commit env = Raise e)
  /\ (td_status ticket_data = None -> tp_status params = "open"%string)
  /\ (td_created_at ticket_data = None ->
      tp_created_at params = datetime_now env).
Proof.
  cbv zeta. unfold create_ticket.
  set (params := params_of env ticket_data).
  assert (Hparams : (td_status ticket_data = None ->
                     tp_status params = "open"%string)
                    /\ (td_created_at ticket_data = None ->
                        tp_created_at params = datetime_now env)).
  { unfold params, params_of. cbn. split; intros ->; reflexivity. }
  destruct (conn_open env); cbn [negb].
  2: { unfold ret. cbn [fst snd].
       split; [intros id; split; [discriminate
                                 | intros (H & _); discriminate] |].
       split; [discriminate |]. split; [discriminate |].
       split; [intros [] | exact Hparams]. }
  unfold try_finally, try_except, bind, lift, db_call, ret.
  oracle (conn_cursor env).
  2: { cbn [fst snd app].
       destruct (conn_rollback env) as [[] | e1],
                (conn_close env) as [[] | e2]; cbn [fst snd app];
         (split; [intros id; split;
                  [discriminate | intros (_ & H & _); discriminate] |]);
         (split; [discriminate |]); (split; [discriminate |]);
         (split; [| exact Hparams]);
         intros _ [H | [H | []]]; discriminate. }
  cbn [fst snd app].
  destruct (exec_insert_ticket env params) as [[id |] | e1].
  - oracle (conn_commit env).
    + oracle (conn_close env); cbn [fst snd app].
      * split; [intros id'; split;
                [intros [= ->]; repeat split; reflexivity
                | intros (_ & _ & [= ->] & _); reflexivity] |].
        split; [reflexivity |]. split; [discriminate |].
        split; [| exact Hparams].
        intros [H | [H | [H | []]]]; discriminate.
      * split; [intros id'; split;
                [discriminate | intros (_ & _ & _ & _ & H); discriminate] |].
        split; [discriminate |]. split; [discriminate |].
        split; [| exact Hparams].
        intros [H | [H | [H | []]]]; discriminate.
    + destruct (conn_rollback env) as [[] | e3],
               (conn_close env) as [[] | e2]; cbn [fst snd app];
        (split; [intros id'; split;
                 [discriminate | intros (_ & _ & _ & H & _); discriminate] |]);
        (split; [discriminate |]); (split; [discriminate |]);
        (split; [| exact Hparams]); eauto.
  - oracle (conn_close env); cbn [fst snd app];
      (split; [intros id'; split;
               [discriminate | intros (_ & _ & H & _); discriminate] |]);
      (split; [discriminate |]); (split; [reflexivity |]);
      (split; [| exact Hparams]);
      intros [H | [H | []]]; discriminate.
  - destruct (conn_rollback env) as [[] | e3],
             (conn_close env) as [[] | e2]; cbn [fst snd app];
      (split; [intros id'; split;
               [discriminate | intros (_ & _ & H & _); discriminate] |]);
      (split; [discriminate |]); (split; [discriminate |]);
      (split; [| exact Hparams]);
      intros _ [H | [H | [H | []]]]; discriminate.
Qed.

(** ** [process_existing_ticket] *)

Ltac run_process :=
  unfold process_existing_ticket, process_existing_ticket_run, try_finally,
    try_except, bind, lift, modify, ret, disconnect, inner_call;
  cbn [fst snd negb].

Lemma save_raises_from_cleanup (env : DbEnv) (ticket_id : Z)
    (similar_cases : list Case) (recommendations : list PartRecommendation)
    (e : string) :
  fst (save_recommendations env ticket_id similar_cases recommendations [])
  = Raise e ->
  conn_rollback env = Raise e \/ conn_close env = Raise e.
Proof.
  unfold save_recommendations.
  destruct (conn_open env); cbn [negb]; [| discriminate].
  unfold try_finally, try_except, bind, lift, db_call, ret.
  destruct (conn_cursor env) as [[] | e0];
    [destruct (insert_all env _ 0 []) as [[[] | e1] t1];
     [destruct (conn_commit env) as [[] | e2] |] |];
    destruct (conn_rollback env) as [[] | e3];
    destruct (conn_close env) as [[] | e4]; cbn [fst snd];
    intros H; try discriminate; injection H as ->; auto.
Qed.

Lemma append_length (s t : string) :
  String.length (s ++ t)%string = String.length s + String.length t.
Proof. induction s as [| c s IH]; cbn; [reflexivity | now rewrite IH]. Qed.

Lemma top_case_symptoms (case : Case) :
  String.length (symptoms (top_case case)) <= 103
  /\ exists text, symptoms (top_case case) = (text ++ "...")%string.
Proof.
  cbn [top_case symptoms]. split; [| eauto].
  pose proof (SymptomService.substring_length 100
                (or_empty (symptomcomments_clean case))) as H.
  rewrite append_length. cbn [String.length]. lia.
Qed.

(** A ticket is reported as processed only when its row was read and the
    search returned.  The report then counts the similar cases (at most
    10), carries the recommendations [extract_recommended_parts] derives
    from them (at most 10, none without similar cases) and the first three
    cases, each with a symptom text of at most 100 characters followed by
    "...". *)
Theorem processing_reports_what_was_found (env : ProcessEnv)
    (ticket_id : Z) (p : Processed) :
  process_existing_ticket env ticket_id = Ok (Some p) ->
  exists ticket similar_cases,
    exec_select_ticket (tickets_db env) ticket_id = Ok (Some ticket)
    /\ outcome (find_similar_issues (search_db env)
                  (or_empty (t_issue_text ticket)) (t_issue_type ticket)
                  10 default_alpha default_min_cutoff)
       = Ok similar_cases
    /\ p = processed ticket_id ticket similar_cases
                     (extract_recommended_parts similar_cases)
    /\ p_similar_cases p <= 10
    /\ List.length (p_recommendations p) <= 10
    /\ List.length (p_top_similar_cases p) = Nat.min 3 (p_similar_cases p)
    /\ Forall (fun t => String.length (symptoms t) <= 103
                        /\ exists text,
                             symptoms t = (text ++ "...")%string)
              (p_top_similar_cases p).
Proof.
  run_process.
  destruct (conn_open (tickets_db env)); cbn [negb fst snd];
    [| discriminate].
  destruct (conn_cursor (tickets_db env)) as [[] | e0]; cbn [fst snd].
  2: { destruct (conn_close (tickets_db env)) as [[] | e1]; discriminate. }
  destruct (exec_select_ticket (tickets_db env) ticket_id)
    as [[ticket |] | e1]; cbn [fst snd].
  2, 3: destruct (conn_close (tickets_db env)) as [[] | e2]; discriminate.
  destruct (conn_close (tickets_db env)) as [[] | e2]; cbn [fst snd];
    [| discriminate].
  destruct (outcome (find_similar_issues (search_db env)
                       (or_empty (t_issue_text ticket))
                       (t_issue_type ticket) 10 default_alpha
                       default_min_cutoff)) as [cases | e3] eqn:Hfind;
    cbn [fst snd].
  2: { destruct (disconnect_again env) as [[] | e4]; discriminate. }
  intros H. exists ticket, cases.
  assert (Hp : p = processed ticket_id ticket cases
                             (extract_recommended_parts cases)).
  { destruct cases as [| c cases]; cbn [nonempty fst snd] in H.
    - injection H as <-. reflexivity.
    - destruct (fst (save_recommendations _ _ _ _ _)) as [b | e4];
        cbn [fst snd] in H.
      + injection H as <-. reflexivity.
      + destruct (raises (conn_close (store_db env))); cbn [fst snd] in H;
          [destruct (disconnect_again env) as [[] | e5] |]; discriminate. }
  subst p. cbn [processed p_similar_cases p_recommendations
                p_top_similar_cases].
  split; [reflexivity |]. split; [exact Hfind |]. split; [reflexivity |].
  split.
  { unfold outcome in Hfind.
    destruct (find_similar_issues_bounds _ _ _ _ _ _ _ _ Hfind)
      as [_ [Hlen _]].
    specialize (Hlen ltac:(lia)). exact Hlen. }
  split; [apply firstn_le_length |]. split.
  { rewrite length_map, length_firstn. reflexivity. }
  rewrite Forall_forall. intros t Ht.
  apply in_map_iff in Ht as [c [<- _]]. apply top_case_symptoms.
Qed.

(** A store that reads the ticket of the scenario. *)
Definition scenario_process (store : DbEnv) : ProcessEnv :=
  {| tickets_db := healthy_store;
     search_db := scenario_env;
     store_db := store;
     disconnect_again := Ok tt |}.

Lemma processing_reports_what_was_found_witness :
  exists p,
    process_existing_ticket (scenario_process healthy_store) 7 = Ok (Some p)
    /\ p_similar_cases p = 3
    /\ List.length (p_top_similar_cases p) = 3.
Proof.
  assert (Hrun : exists p,
             process_existing_ticket (scenario_process healthy_store) 7
             = Ok (Some p)
             /\ p_similar_cases p = 3)
    by (eexists; split; [vm_compute; reflexivity | vm_compute; reflexivity]).
  destruct Hrun as (p & Hrun & Hn). exists p.
  destruct (processing_reports_what_was_found
              (scenario_process healthy_store) 7 p Hrun)
    as (ticket & cases & _ & _ & _ & _ & _ & Htop & _).
  split; [exact Hrun |]. split; [exact Hn |].
  rewrite Htop, Hn. reflexivity.
Defined.

(** Saving is best effort: the value of [save_recommendations] is not
    looked at.  A run that reports the ticket does so with any other store
    whose rollback and closing do not raise, also one that refuses the
    rows, and reports the same. *)
Theorem saving_is_best_effort (env : ProcessEnv) (ticket_id : Z)
    (p : Processed) (store : DbEnv) :
  process_existing_ticket env ticket_id = Ok (Some p) ->
  conn_rollback store = Ok tt -> conn_close store = Ok tt ->
  process_existing_ticket
    (mkProcessEnv (tickets_db env) (search_db env) store
                  (disconnect_again env)) ticket_id
  = Ok (Some p).
Proof.
  run_process. cbn [tickets_db search_db store_db disconnect_again].
  destruct (conn_open (tickets_db env)); cbn [negb fst snd];
    [| discriminate].
  destruct (conn_cursor (tickets_db env)) as [[] | e0]; cbn [fst snd].
  2: { destruct (conn_close (tickets_db env)) as [[] | e1]; discriminate. }
  destruct (exec_select_ticket (tickets_db env) ticket_id)
    as [[ticket |] | e1]; cbn [fst snd].
  2, 3: destruct (conn_close (tickets_db env)) as [[] | e2]; discriminate.
  destruct (conn_close (tickets_db env)) as [[] | e2]; cbn [fst snd];
    [| discriminate].
  destruct (outcome (find_similar_issues (search_db env)
                       (or_empty (t_issue_text ticket))
                       (t_issue_type ticket) 10 default_alpha
                       default_min_cutoff)) as [cases | e3];
    cbn [fst snd].
  2: { destruct (disconnect_again env) as [[] | e4]; discriminate. }
  destruct cases as [| c cases]; cbn [nonempty fst snd]; [tauto |].
  intros H Hroll Hclose.
  destruct (fst (save_recommendations store ticket_id (c :: cases)
                   (extract_recommended_parts (c :: cases)) []))
    as [b | e4] eqn:Hsave.
  2: { apply save_raises_from_cleanup in Hsave as [Hs | Hs]; congruence. }
  cbn [fst snd].
  destruct (fst (save_recommendations (store_db env) _ _ _ _)) as [b' | e4];
    cbn [fst snd] in H; [exact H |].
  destruct (raises (conn_close (store_db env))); cbn [fst snd] in H;
    [destruct (disconnect_again env) as [[] | e5] |]; discriminate.
Qed.

Lemma saving_is_best_effort_witness :
  fst (save_recommendations refusing_store 7 scenario_cases
         (extract_recommended_parts scenario_cases) [])
  = Ok false
  /\ exists p,
       process_existing_ticket (scenario_process refusing_store) 7
       = Ok (Some p)
       /\ p_similar_cases p = 3.
Proof.
  assert (Hsave : fst (save_recommendations refusing_store 7 scenario_cases
                         (extract_recommended_parts scenario_cases) [])
                  = Ok false)
    by (vm_compute; reflexivity).
  assert (Hrun : exists p,
             process_existing_ticket (scenario_process healthy_store) 7
             = Ok (Some p)
             /\ p_similar_cases p = 3)
    by (eexists; split; [vm_compute; reflexivity | vm_compute; reflexivity]).
  destruct Hrun as (p & Hrun & Hn).
  split; [exact Hsave |]. exists p. split; [| exact Hn].
  exact (saving_is_best_effort (scenario_process healthy_store) 7 p
           refusing_store Hrun eq_refl eq_refl).
Defined.

(** The method contains every failure of its [try] block; it raises only
    when a closing in its [finally] block does: that of the ticket
    connection, or that of a connection an inner call left open. *)
Theorem processing_raises_only_when_closing (env : ProcessEnv)
    (ticket_id : Z) (e : string) :
  process_existing_ticket env ticket_id = Raise e ->
  conn_open (tickets_db env) = true
  /\ (conn_close (tickets_db env) = Raise e
      \/ disconnect_again env = Raise e).
Proof.
  run_process.
  destruct (conn_open (tickets_db env)); cbn [negb fst snd];
    [| discriminate].
  intros H. split; [reflexivity |]. revert H.
  destruct (conn_cursor (tickets_db env)) as [[] | e0]; cbn [fst snd].
  2: { destruct (conn_close (tickets_db env)) as [[] | e1];
         [discriminate | intros [= ->]; auto]. }
  destruct (exec_select_ticket (tickets_db env) ticket_id)
    as [[ticket |] | e1]; cbn [fst snd].
  2, 3: destruct (conn_close (tickets_db env)) as [[] | e2];
    [discriminate | intros [= ->]; auto].
  destruct (conn_close (tickets_db env)) as [[] | e2]; cbn [fst snd];
    [| intros [= ->]; auto].
  destruct (outcome _) as [cases | e3]; cbn [fst snd].
  2: { destruct (disconnect_again env) as [[] | e4];
         [discriminate | intros [= ->]; auto]. }
  destruct (nonempty cases); cbn [fst snd]; [| discriminate].
  destruct (fst (save_recommendations _ _ _ _ _)) as [b | e4];
    cbn [fst snd]; [discriminate |].
  destruct (raises (conn_close (store_db env))); cbn [fst snd];
    [| discriminate].
  destruct (disconnect_again env) as [[] | e5];
    [discriminate | intros [= ->]; auto].
Qed.

(** A ticket connection whose closing raises. *)
Definition stuck_tickets : DbEnv :=
  {| conn_open := true;
     conn_cursor := Ok tt;
     exec_insert_recommendation := fun _ _ => Ok tt;
     exec_insert_ticket := fun _ => Ok None;
     exec_select_ticket := fun _ => Ok None;
     conn_commit := Ok tt;
     conn_rollback := Ok tt;
     conn_close := Raise "connection already closed";
     datetime_now := "2025-01-01 00:00:00";
     db_compensated_sum := false |}.

Lemma processing_raises_only_when_closing_witness :
  process_existing_ticket
    (mkProcessEnv stuck_tickets scenario_env healthy_store (Ok tt)) 7
  = Raise "connection already closed"
  /\ conn_close stuck_tickets = Raise "connection already closed".
Proof.
  split; [reflexivity |].
  destruct (processing_raises_only_when_closing
              (mkProcessEnv stuck_tickets scenario_env healthy_store (Ok tt))
              7 "connection already closed" eq_refl) as [_ [H | H]].
  - exact H.
  - discriminate H.
Defined.

End TicketStore.

(* ================================================================== *)
(** * [KubotaAIService] ([src/services/ai_service.py]) *)

Module AIService.

(** [AIRecommendationRequest] *)
Record AIRecommendationRequest : Type := mkRequest {
  rq_user_issue : string;
  rq_machine_series : option string;
  rq_issue_type : option string;
  rq_max_recommendations : Z;
  rq_min_confidence : pyfloat
}.

(** The [PartRecommendation] of [schemas/ai_schema.py]. *)
Record SchemaPartRecommendation : Type := mkSchemaPart {
  sp_part_number : string;
  sp_confidence : pyfloat;
  sp_frequency : nat;
  sp_reasoning : string;
  sp_source_cases : list string;
  sp_estimated_quantity : pyfloat
}.

(** [SimilarCase] *)
Record SimilarCase : Type := mkSimilarCase {
  sc_claim_id : string;
  sc_series_name : option string;
  sc_sub_assembly : option string;
  sc_symptom_description : option string;
  sc_defect_description : option string;
  sc_similarity_score : pyfloat;
  sc_parts_used : list string
}.

(** [AIRecommendationResponse] ([request_id] is never set). *)
Record AIRecommendationResponse : Type := mkApiResponse {
  rs_success : bool;
  rs_user_issue : string;
  rs_processing_time_ms : pyfloat;
  rs_recommended_parts : list SchemaPartRecommendation;
  rs_similar_cases : list SimilarCase;
  rs_total_similar_cases : nat;
  rs_avg_confidence : pyfloat;
  rs_search_method : string;
  rs_explanation : string;
  rs_next_steps : list string;
  rs_embeddings_used : bool;
  rs_fallback_triggered : bool
}.

(** The world of the service: that of its agent and ticket processor, the
    two readings of the clock, and the text of the [ValidationError] the
    schema raises for a field. *)
Record ApiEnv : Type := mkApiEnv {
  agent : Env;
  (** [(time.time() - start_time) * 1000] when the agent has returned *)
  elapsed_ms : pyfloat;
  (** the same in the [except] block *)
  elapsed_ms_at_error : pyfloat;
  validation_error : string -> string
}.

(** [Field(..., ge=0.0, le=1.0)] *)
Definition within_unit (x : pyfloat) : bool :=
  PyFloat.ge x (Fin 0) && PyFloat.ge (Fin 1) x.

(** [PartRecommendation(...)], with the validation of the schema. *)
Definition PartRecommendation_ (env : ApiEnv) (part_number : string)
    (confidence : pyfloat) (frequency : nat) (reasoning : string)
    (source_cases : list string) (estimated_quantity : pyfloat)
  : exc SchemaPartRecommendation :=
  if within_unit confidence
  then Ok (mkSchemaPart part_number confidence frequency reasoning
                        source_cases estimated_quantity)
  else Raise (validation_error env "confidence").

(** [SimilarCase(...)]: [claim_id] is a required [str]. *)
Definition SimilarCase_ (env : ApiEnv) (claim_id : option string)
    (series_name sub_assembly symptom_description defect_description
       : option string)
    (similarity_score : pyfloat) : exc SimilarCase :=
  match claim_id with
  | None => Raise (validation_error env "claim_id")
  | Some claim_id =>
      if within_unit similarity_score
      then Ok (mkSimilarCase claim_id series_name sub_assembly
                             symptom_description defect_description
                             similarity_score [])
      else Raise (validation_error env "similarity_score")
  end.

(** [for x in l: out.append(f(x))], which stops at the first exception. *)
Fixpoint for_each {A B : Type} (f : A -> exc B) (l : list A)
  : exc (list B) :=
  match l with
  | [] => Ok []
  | x :: l' =>
      match f x with
      | Raise e => Raise e
      | Ok y =>
          match for_each f l' with
          | Raise e => Raise e
          | Ok ys => Ok (y :: ys)
          end
      end
  end.

Definition failed (request : AIRecommendationRequest)
    (processing_time : pyfloat) (search_method explanation : string)
  : AIRecommendationResponse :=
  {| rs_success := false;
     rs_user_issue := rq_user_issue request;
     rs_processing_time_ms := processing_time;
     rs_recommended_parts := [];
     rs_similar_cases := [];
     rs_total_similar_cases := 0;
     rs_avg_confidence := Fin 0;
     rs_search_method := search_method;
     rs_explanation := explanation;
     rs_next_steps := [];
     rs_embeddings_used := false;
     rs_fallback_triggered := true |}.

(** [_fallback_recommendation] *)
Definition fallback_recommendation (env : ApiEnv)
    (request : AIRecommendationRequest) (processing_time : pyfloat)
  : AIRecommendationResponse :=
  let fallback_failed e :=
    failed request processing_time "error" ("Fallback failed: " ++ e) in
  match outcome (find_similar_issues (agent env) (rq_user_issue request)
                   (rq_machine_series request) 10 default_alpha
                   (rq_min_confidence request)) with
  | Raise e => fallback_failed e
  | Ok similar_issues =>
      if nonempty similar_issues then
        let parts_recommendations :=
          extract_recommended_parts similar_issues in
        match for_each
                (fun part =>
                   PartRecommendation_ env (part_number part)
                     (confidence part) (frequency part)
                     "Similarity search" [] (Fin 1))
                (slice_to parts_recommendations
                          (rq_max_recommendations request)) with
        | Raise e => fallback_failed e
        | Ok recommended_parts =>
            match for_each
                    (fun case =>
                       SimilarCase_ env (claimid case) (seriesname case)
                         (subassembly case) (symptomcomments_clean case)
                         (defectcomments_clean case)
                         (similarity_score case))
                    (firstn 10 similar_issues) with
            | Raise e => fallback_failed e
            | Ok similar_cases =>
                {| rs_success := true;
                   rs_user_issue := rq_user_issue request;
                   rs_processing_time_ms := processing_time;
                   rs_recommended_parts := recommended_parts;
                   rs_similar_cases := similar_cases;
                   rs_total_similar_cases := List.length similar_issues;
                   rs_avg_confidence :=
                     PyFloat.mean64 (compensated_sum (agent env))
                                    (map sp_confidence recommended_parts);
                   rs_search_method := "fallback_processor";
                   rs_explanation := "Used fallback similarity search";
                   rs_next_steps := [];
                   rs_embeddings_used := true;
                   rs_fallback_triggered := true |}
            end
        end
      else
        failed request processing_time "no_results"
               "No similar cases found in database"
  end.

(** [get_ai_recommendations].  The agent's dict has no key
    'similar_cases', 'confidence' or 'fallback_used', and its
    recommendations none of 'source_cases' and 'avg_quantity': the
    defaults of the [.get] calls are what is read. *)
Definition get_ai_recommendations (env : ApiEnv)
    (request : AIRecommendationRequest) : AIRecommendationResponse :=
  let agent_result :=
    process_issue (agent env) (rq_user_issue request)
                  (rq_machine_series request) None None in
  if success agent_result then
    match for_each
            (fun rec =>
               PartRecommendation_ env (fr_part_number rec)
                 (fr_confidence rec) (fr_frequency rec) (fr_reasoning rec)
                 [] (Fin 1))
            (r_final_recommendations agent_result) with
    | Raise e =>
        failed request (elapsed_ms_at_error env) "error"
               ("Processing failed: " ++ e)
    | Ok recommended_parts =>
        {| rs_success := true;
           rs_user_issue := rq_user_issue request;
           rs_processing_time_ms := elapsed_ms env;
           rs_recommended_parts := recommended_parts;
           rs_similar_cases := [];
           rs_total_similar_cases := 0;
           rs_avg_confidence := Fin 0;
           rs_search_method := "langgraph_agent";
           rs_explanation := r_explanation agent_result;
           rs_next_steps :=
             match r_next_actions agent_result with
             | Some actions => actions
             | None => []
             end;
           rs_embeddings_used := r_embedding_used agent_result;
           rs_fallback_triggered := false |}
    end
  else fallback_recommendation env request (elapsed_ms env).

(** A store that holds one case naming the same part twice. *)
Definition repeated_part_world : ApiEnv :=
  {| agent :=
       mkEnv true (Ok tt) (fun _ _ => Ok repeated_part_cases) (Ok tt)
             (fun _ => Ok [Fin (1 # 10); Fin (2 # 10)])
             (fun _ _ => Ok [mkSymptom None None]) None false;
     elapsed_ms := Fin 12;
     elapsed_ms_at_error := Fin 13;
     validation_error :=
       fun field =>
         ("1 validation error for PartRecommendation: " ++ field)%string |}.

Definition leak_request : AIRecommendationRequest :=
  mkRequest "hydraulic oil leak" None None 10 (Fin (65 # 100)).

Lemma for_each_forall2 {A B : Type} (f : A -> exc B) (l : list A)
    (ys : list B) :
  for_each f l = Ok ys -> Forall2 (fun x y => f x = Ok y) l ys.
Proof.
  revert ys. induction l as [| x l IH]; simpl; intros ys.
  - intros [= <-]. constructor.
  - destruct (f x) as [y | e] eqn:Hx; [| discriminate].
    destruct (for_each f l) as [ys' | e]; [| discriminate].
    intros [= <-]. constructor; auto.
Qed.

(** A loop over validated items returns them all, or raises the error of
    the validation. *)
Lemma for_each_validated {A B : Type} (valid : A -> bool) (make : A -> B)
    (e : string) (l : list A) :
  for_each (fun x => if valid x then Ok (make x) else Raise e) l
  = if forallb valid l then Ok (map make l) else Raise e.
Proof.
  induction l as [| x l IH]; simpl; [reflexivity |].
  destruct (valid x); cbn [andb]; [| reflexivity].
  rewrite IH. destruct (forallb valid l); reflexivity.
Qed.

Definition schema_core (r : SchemaPartRecommendation)
  : string * nat * pyfloat :=
  (sp_part_number r, sp_frequency r, sp_confidence r).

(** The request made through the agent succeeds exactly when every part
    extracted from the similar cases has a confidence between 0 and 1,
    which the schema of the response requires: one part counted more
    often than there are cases fails the whole request, with no part
    returned.  When it succeeds, the parts are the agent's, and the
    response shows no similar case and the average confidence 0, whatever
    the agent found. *)
Theorem out_of_range_confidence_fails_the_request (env : ApiEnv)
    (request : AIRecommendationRequest) (final : KubotaAIState) :
  invoke (agent env)
         (initial_state (rq_user_issue request) (rq_machine_series request)
                        None None)
  = Ok final ->
  let recs := extract_recommended_parts (similar_cases final) in
  let response := get_ai_recommendations env request in
  (rs_success response = true
   <-> Forall (fun r => within_unit (confidence r) = true) recs)
  /\ (rs_success response = true ->
      rs_search_method response = "langgraph_agent"%string
      /\ Permutation (map schema_core (rs_recommended_parts response))
                     (map part_core recs)
      /\ rs_similar_cases response = []
      /\ rs_total_similar_cases response = 0
      /\ rs_avg_confidence response = Fin 0)
  /\ (rs_success response = false ->
      response
      = failed request (elapsed_ms_at_error env) "error"
               ("Processing failed: " ++ validation_error env "confidence")).
Proof.
  intros Hinv. cbv zeta.
  set (issue := rq_user_issue request) in *.
  set (series := rq_machine_series request) in *.
  assert (Hagent : process_issue (agent env) issue series None None
                   = success_response issue (Some final)).
  { unfold process_issue. now rewrite Hinv. }
  pose proof (invoke_outcome (agent env)
                (initial_state issue series None None)) as Ho.
  destruct (graph_fault (agent env)); [congruence |].
  rewrite Ho in Hinv. clear Ho.
  destruct (workflow_summary (agent env)
              (initial_state issue series None None))
    as (s1 & s2 & final' & _ & _ & Hrun & _ & _ & Hsum).
  rewrite Hrun in Hinv. injection Hinv as ->.
  cbv zeta in Hsum. destruct Hsum as [_ [_ [_ [Hfinals _]]]].
  set (recs := extract_recommended_parts (similar_cases final)) in *.
  pose proof (sort_by_confidence_perm
                (map final_recommendation (map format_part recs))) as Hperm.
  unfold get_ai_recommendations. fold issue series. rewrite Hagent.
  cbn [success success_response r_final_recommendations r_explanation
       r_next_actions r_embedding_used].
  unfold PartRecommendation_.
  rewrite (for_each_validated
             (fun rec => within_unit (fr_confidence rec))
             (fun rec => mkSchemaPart (fr_part_number rec)
                           (fr_confidence rec) (fr_frequency rec)
                           (fr_reasoning rec) [] (Fin 1))).
  rewrite Hfinals.
  assert (Hall : forallb (fun rec => within_unit (fr_confidence rec))
                   (sort_by_confidence
                      (map final_recommendation (map format_part recs)))
                 = true
                 <-> Forall (fun r => within_unit (confidence r) = true)
                            recs).
  { rewrite forallb_forall, <- Forall_forall. split; intros H.
    - apply (Permutation_Forall Hperm) in H.
      rewrite Forall_forall in *. intros r Hr.
      apply (H (final_recommendation (format_part r))).
      now apply in_map, in_map.
    - apply (Permutation_Forall (Permutation_sym Hperm)).
      rewrite Forall_forall in *. intros r Hr.
      apply in_map_iff in Hr as [p [<- Hp]].
      apply in_map_iff in Hp as [x [<- Hx]]. now apply H. }
  destruct (forallb _ (sort_by_confidence _)) eqn:Hvalid;
    cbn [rs_success rs_search_method rs_recommended_parts rs_similar_cases
         rs_total_similar_cases rs_avg_confidence failed].
  - split; [split; [intros _; now apply Hall | reflexivity] |].
    split; [| discriminate]. intros _.
    repeat split.
    eapply Permutation_trans;
      [apply Permutation_map, Permutation_map, Hperm |].
    rewrite !map_map. apply Permutation_refl.
  - split; [split; [discriminate |] |].
    + intros H. apply Hall in H. discriminate.
    + split; [discriminate | reflexivity].
Qed.

Lemma out_of_range_confidence_fails_the_request_witness :
  get_ai_recommendations repeated_part_world leak_request
  = failed leak_request (Fin 13) "error"
      "Processing failed: 1 validation error for PartRecommendation: confidence".
Proof.
  assert (Hrun : exists final,
             invoke (agent repeated_part_world)
                    (initial_state (rq_user_issue leak_request)
                       (rq_machine_series leak_request) None None)
             = Ok final).
  { eexists. vm_compute. reflexivity. }
  destruct Hrun as [final Hfinal].
  destruct (out_of_range_confidence_fails_the_request repeated_part_world
              leak_request final Hfinal) as (_ & _ & Hfail).
  assert (Hno : rs_success
                  (get_ai_recommendations repeated_part_world leak_request)
                = false) by (vm_compute; reflexivity).
  exact (Hfail Hno).
Defined.

(** When the graph library fails, the answer is that of the fallback
    search.  If it succeeds it shows every similar case found, at least
    one and at most 10, each with a claim id and a score between 0 and 1,
    and at most 10 parts, each with the reasoning "Similarity search" and
    a confidence between 0 and 1. *)
Theorem fallback_answer (env : ApiEnv) (request : AIRecommendationRequest)
    (e : string) :
  graph_fault (agent env) = Some e ->
  let response := get_ai_recommendations env request in
  rs_fallback_triggered response = true
  /\ (rs_success response = true ->
      rs_search_method response = "fallback_processor"%string
      /\ rs_total_similar_cases response
         = List.length (rs_similar_cases response)
      /\ 0 < rs_total_similar_cases response <= 10
      /\ Forall (fun c => within_unit (sc_similarity_score c) = true)
                (rs_similar_cases response)
      /\ List.length (rs_recommended_parts response) <= 10
      /\ Forall (fun r => sp_reasoning r = "Similarity search"%string
                          /\ within_unit (sp_confidence r) = true)
                (rs_recommended_parts response)).
Proof.
  intros Hfault. cbv zeta. unfold get_ai_recommendations, process_issue.
  pose proof (invoke_outcome (agent env)
                (initial_state (rq_user_issue request)
                               (rq_machine_series request) None None))
    as Ho.
  rewrite Hfault in Ho. rewrite Ho.
  cbn [success failure_response]. unfold fallback_recommendation.
  destruct (outcome _) as [found | e0] eqn:Hfind;
    [| split; [reflexivity | discriminate]].
  destruct (nonempty found) eqn:Hne;
    [| split; [reflexivity | discriminate]].
  destruct (for_each _ (slice_to _ _)) as [parts | e1] eqn:Hparts;
    [| split; [reflexivity | discriminate]].
  destruct (for_each _ (firstn 10 found)) as [cases | e2] eqn:Hcases;
    [| split; [reflexivity | discriminate]].
  cbn [rs_fallback_triggered rs_success rs_search_method
       rs_total_similar_cases rs_similar_cases rs_recommended_parts].
  split; [reflexivity |]. intros _.
  unfold outcome in Hfind.
  destruct (find_similar_issues_bounds _ _ _ _ _ _ _ _ Hfind)
    as [_ [Hlen _]].
  specialize (Hlen ltac:(lia)).
  apply for_each_forall2 in Hparts, Hcases.
  pose proof (Forall2_length Hcases) as Hlc.
  pose proof (Forall2_length Hparts) as Hlp.
  rewrite firstn_all2 in Hlc by exact Hlen.
  split; [reflexivity |]. split; [exact Hlc |]. split.
  { destruct found; [discriminate | cbn in *; lia]. }
  split.
  { clear - Hcases. induction Hcases as [| c y l ys Hc _ IH];
      constructor; auto.
    unfold SimilarCase_ in Hc. destruct (claimid c); [| discriminate].
    destruct (within_unit (similarity_score c)) eqn:Hu; [| discriminate].
    injection Hc as <-. exact Hu. }
  split.
  { rewrite <- Hlp.
    destruct (slice_to_firstn
                (extract_recommended_parts found)
                (rq_max_recommendations request)) as [m [-> _]].
    rewrite length_firstn. unfold extract_recommended_parts.
    rewrite length_firstn. lia. }
  clear - Hparts. induction Hparts as [| r y l ys Hr _ IH];
    constructor; auto.
  unfold PartRecommendation_ in Hr.
  destruct (within_unit (confidence r)) eqn:Hu; [| discriminate].
  injection Hr as <-. cbn. auto.
Qed.

(** The scenario's store behind a graph library that fails. *)
Definition broken_graph_world : ApiEnv :=
  {| agent :=
       mkEnv true (Ok tt) (fun _ _ => Ok SymptomService.sample_history)
             (Ok tt) (fun _ => Ok [Fin (1 # 10); Fin (2 # 10)])
             (fun _ _ => Ok []) (Some "recursion limit reached") false;
     elapsed_ms := Fin 12;
     elapsed_ms_at_error := Fin 13;
     validation_error := fun field => field |}.

Lemma fallback_answer_witness :
  rs_success (get_ai_recommendations broken_graph_world leak_request) = true
  /\ rs_total_similar_cases
       (get_ai_recommendations broken_graph_world leak_request)
     = List.length
         (rs_similar_cases
            (get_ai_recommendations broken_graph_world leak_request)).
Proof.
  assert (Hyes : rs_success
                   (get_ai_recommendations broken_graph_world leak_request)
                 = true) by (vm_compute; reflexivity).
  split; [exact Hyes |].
  destruct (fallback_answer broken_graph_world leak_request
              "recursion limit reached" eq_refl) as [_ H].
  destruct (H Hyes) as (_ & Hlen & _). exact Hlen.
Defined.

End AIService.
